(** * wrappy.base: configuration, logger, notifier and order-history files

    A shallow embedding of [src/wrappy/base.py] (classes [Log], [Notify] and
    [BotBase]) together with the properties stated about it.

    Python objects are records, one per class layer; a method that assigns
    attributes of [self] is a computation over the pair of the object and the
    world, a method that only reads [self] is a computation over the world.
    Exceptions are values of [exn]; [try ... except C] is [try_], which
    selects the first clause whose class the exception is an instance of.
    Everything the process does to its surroundings (standard error, the
    [logging] registry, HTTP requests, files) is recorded in the [World];
    what the surroundings answer is given by a [Runtime], and every
    property below is proved for every [Runtime].

    [wrappy/logfile.py] (class [OrderHistory]) and [wrappy/time_util.py]
    ([now_jst_str]) are imported by the module but are not among the
    sources: the class is modelled from the spec, and the day string is an
    argument of the methods that read the clock. *)

From Stdlib Require Import ZArith String Ascii.
From Stdlib Require Import Floats.SpecFloat.
From stdpp Require Import gmap strings list.

Local Open Scope string_scope.
Local Open Scope Z_scope.

(* ================================================================== *)
(** ** Python values and exceptions *)

(** The values [json.load] can produce. *)
#[warnings="-register-all"]
Inductive pyval :=
| PNone
| PBool (b : bool)
| PInt (z : Z)
| PFloat (f : spec_float)
| PStr (s : string)
| PList (l : list pyval)
| PDict (d : gmap string pyval).

(** Truth value testing ([if v:], [not v]). *)
Definition truthy (v : pyval) : bool :=
  match v with
  | PNone => false
  | PBool b => b
  | PInt z => negb (z =? 0)
  | PFloat (S754_zero _) => false
  | PFloat _ => true
  | PStr s => negb (String.eqb s EmptyString)
  | PList l => match l with [] => false | _ => true end
  | PDict d => negb (bool_decide (d = ∅))
  end.

(** [v is None] *)
Definition is_None (v : pyval) : bool :=
  match v with PNone => true | _ => false end.

(** The exception classes this module can meet, with their base class. *)
Inductive exc_class :=
| BaseException | KeyboardInterrupt | Exception
| OSError | FileNotFoundError | IsADirectoryError | PermissionError
| RequestException
| ValueError | JSONDecodeError | UnicodeDecodeError
| LookupError | KeyError
| TypeError | AttributeError
| RuntimeError | NotImplementedError.

Global Instance exc_class_eq_dec : EqDecision exc_class.
Proof. solve_decision. Defined.

Definition base_class (c : exc_class) : option exc_class :=
  match c with
  | BaseException => None
  | KeyboardInterrupt | Exception => Some BaseException
  | OSError | ValueError | LookupError | TypeError | AttributeError
  | RuntimeError => Some Exception
  | FileNotFoundError | IsADirectoryError | PermissionError
  | RequestException => Some OSError
  | JSONDecodeError | UnicodeDecodeError => Some ValueError
  | KeyError => Some LookupError
  | NotImplementedError => Some RuntimeError
  end.

Fixpoint issubclass_upto (depth : nat) (c d : exc_class) : bool :=
  bool_decide (c = d) ||
  match depth with
  | O => false
  | S depth' =>
      match base_class c with
      | Some b => issubclass_upto depth' b d
      | None => false
      end
  end.

(** The hierarchy above is four levels deep. *)
Definition issubclass : exc_class -> exc_class -> bool := issubclass_upto 4.

(** An exception object: its class and its message. *)
Record exn := Exn { exc_type : exc_class; exc_args : string }.

Global Instance exn_eq_dec : EqDecision exn.
Proof. solve_decision. Defined.

Definition isinstance (e : exn) (c : exc_class) : bool :=
  issubclass (exc_type e) c.

(* ================================================================== *)
(** ** The state/exception monad *)

Section Monad.
Context {S : Type}.

(** A computation over a state [S]: it ends with a value or with a raised
    exception, and in both cases with the state it has reached. *)
Definition M (A : Type) : Type := S -> (exn + A) * S.

Definition ret {A} (a : A) : M A := fun s => (inr a, s).

Definition raise {A} (e : exn) : M A := fun s => (inl e, s).

Definition bind {A B} (m : M A) (k : A -> M B) : M B :=
  fun s =>
    match m s with
    | (inl e, s') => (inl e, s')
    | (inr a, s') => k a s'
    end.

Definition get : M S := fun s => (inr s, s).

Definition modify (f : S -> S) : M unit := fun s => (inr tt, f s).

(** The value of an expression that may raise. *)
Definition lift_result {A} (r : exn + A) : M A := fun s => (r, s).

(** The first [except] clause whose class matches. *)
Fixpoint find_handler {A} (e : exn) (hs : list (exc_class * (exn -> M A)))
  : option (M A) :=
  match hs with
  | [] => None
  | (c, h) :: hs' => if isinstance e c then Some (h e) else find_handler e hs'
  end.

(** [try: body  except C1 as e: h1 e  except C2 as e: h2 e ...] *)
Definition try_ {A} (body : M A) (hs : list (exc_class * (exn -> M A))) : M A :=
  fun s =>
    match body s with
    | (inl e, s') =>
        match find_handler e hs with
        | Some h => h s'
        | None => (inl e, s')
        end
    | (inr a, s') => (inr a, s')
    end.
End Monad.

Arguments M : clear implicits.

Notation "'do' x <- m ; k" := (bind m (fun x => k))
  (at level 10, x name, m at level 100, k at level 200).
Notation "m ;; k" := (bind m (fun _ => k))
  (at level 100, k at level 200, right associativity).

(* ================================================================== *)
(** ** The world *)

(** *** [logging] *)

(** A handler attached to a logger. The formatter is kept as its two
    format strings. *)
Inductive Handler :=
| StreamHandler (fmt datefmt : string) (level : Z)
| RotatingFileHandler (filename : string) (maxBytes backupCount : Z)
                      (fmt datefmt : string) (level : Z).

Definition is_console (h : Handler) : bool :=
  match h with StreamHandler _ _ _ => true | _ => false end.

Definition is_file (h : Handler) : bool :=
  match h with RotatingFileHandler _ _ _ _ _ _ => true | _ => false end.

Record Logger := {
  lg_level : Z;
  lg_handlers : list Handler;
  lg_propagate : bool
}.

(** A reference to a logger object: the root logger or a named one. *)
Inductive logger_ref := RootLogger | NamedLogger (name : string).

(** The registry of the [logging] module: the root logger and the loggers
    created so far, by name. *)
Record LogSys := {
  root : Logger;
  loggerDict : gmap string Logger
}.

(** What is passed to [logger.error] and the like: a string, or an
    exception object. *)
Inductive log_msg := MsgStr (s : string) | MsgExc (e : exn).

(** *** HTTP *)

(** The arguments of one [requests.post] call; an attached file is given by
    the bytes of the opened file. *)
Record request := {
  url : pyval;
  data : list (string * string);
  headers : list (string * string);
  files : list (string * string)
}.

(** *** Order-history resources *)

Inductive handle_state := NotOpened | Opened | Closed.

(** Modelled from the spec: the class [OrderHistory] of [wrappy/logfile.py],
    which is not among the sources. The spec (3, 4.4) describes a per-day
    resource that owns a file handle and a fixed set of column names, is
    constructed from the file path and the columns, creates the file and
    writes a header when opened, appends one row per record, and whose
    close is a no-op on a resource that is already closed. *)
Record OrderHistory := {
  oh_path : string;
  oh_columns : list string;
  oh_handle : handle_state
}.

(** *** Events and the world itself *)

Inductive event :=
| EvStderr (line : string)                         (* print(..., file=sys.stderr) *)
| EvMkdir (dir : string)                           (* os.mkdir *)
| EvLog (lg : logger_ref) (levelno : Z) (msg : log_msg)  (* logger.error, logger.info, ... *)
| EvPost (req : request)                           (* requests.post *)
| EvFileCreated (path : string) (header : list string)
| EvRow (path : string) (row : list string)
| EvFileClosed (path : string).

Record World := {
  logging : LogSys;
  heap : list OrderHistory;   (* the OrderHistory objects, by reference *)
  trace : list event          (* oldest first *)
}.

Definition set_logging (f : LogSys -> LogSys) (w : World) : World :=
  {| logging := f (logging w); heap := heap w; trace := trace w |}.

Definition set_heap (f : list OrderHistory -> list OrderHistory) (w : World) : World :=
  {| logging := logging w; heap := f (heap w); trace := trace w |}.

(** The world after one more event. *)
Definition record (ev : event) (w : World) : World :=
  {| logging := logging w; heap := heap w; trace := trace w ++ [ev] |}.

Definition emit (ev : event) : M World unit := modify (record ev).

(** *** What the surroundings answer *)

Inductive fs_node := Absent | Regular (content : string) | Directory | Forbidden.

Class Runtime := {
  (** the file system as [open(path, 'r')] and [open(path, 'rb')] see it *)
  fs : string -> fs_node;
  (** the JSON decoder: [None] when the text is not valid JSON *)
  json_loads : string -> option pyval;
  (** [format(v, '')] of a value that is not a [str] *)
  format_other : pyval -> string;
  os_path_exists : string -> bool;
  (** [os.mkdir]: the exception it raises, if any *)
  os_mkdir : string -> option exn;
  (** opening the log file when a [RotatingFileHandler] is constructed *)
  open_log_file : string -> option exn;
  (** [requests.post]: the exception it raises, if any *)
  requests_post : request -> option exn;
  (** creating an order-history file, and appending a row to one *)
  create_file : string -> option exn;
  append_row : string -> option exn
}.

(** Running a computation on an object: the object it ends with is returned
    beside the value; when the computation raises, the exception
    propagates. *)
Definition with_self {O A} (o : O) (m : M (O * World) A) : M World (A * O) :=
  fun w =>
    match m (o, w) with
    | (inl e, (_, w')) => (inl e, w')
    | (inr a, (o', w')) => (inr (a, o'), w')
    end.

(** A computation on the world, run where an object is in scope. *)
Definition liftW {O A} (m : M World A) : M (O * World) A :=
  fun s =>
    match m (snd s) with
    | (r, w') => (r, (fst s, w'))
    end.

Definition get_self {O} : M (O * World) O := fun s => (inr (fst s), s).

Definition set_self {O} (f : O -> O) : M (O * World) unit :=
  modify (fun s => (f (fst s), snd s)).

(* ================================================================== *)
(** ** Built-ins and library functions the module calls *)

Section Builtins.
Context `{Runtime}.

(** [print(line, file=sys.stderr)] *)
Definition print_stderr (line : string) : M World unit := emit (EvStderr line).

(** [open(path, 'r', ...)] and [open(path, 'rb')], read to the end. *)
Definition builtin_open (path : string) : M World string :=
  match fs path with
  | Absent => raise (Exn FileNotFoundError ("No such file or directory: " +:+ path))
  | Regular content => ret content
  | Directory => raise (Exn IsADirectoryError ("Is a directory: " +:+ path))
  | Forbidden => raise (Exn PermissionError ("Permission denied: " +:+ path))
  end.

(** [json.load] on the text read. *)
Definition json_load (text : string) : M World pyval :=
  match json_loads text with
  | Some v => ret v
  | None => raise (Exn JSONDecodeError "Expecting value")
  end.

(** [obj[key]] for a string key. *)
Definition getitem (obj : pyval) (key : string) : exn + pyval :=
  match obj with
  | PDict d =>
      match d !! key with
      | Some v => inr v
      | None => inl (Exn KeyError key)
      end
  | PList _ | PStr _ => inl (Exn TypeError "indices must be integers")
  | _ => inl (Exn TypeError "object is not subscriptable")
  end.

(** A replacement field [{v}] of an f-string. *)
Definition fmt (v : pyval) : string :=
  match v with
  | PStr s => s
  | _ => format_other v
  end.

(** [a + b] where [a] is a [str]. *)
Definition str_add (a : string) (b : pyval) : exn + string :=
  match b with
  | PStr s => inr (a +:+ s)
  | _ => inl (Exn TypeError "can only concatenate str to str")
  end.

(** [a + b] where [b] is a [str]. *)
Definition add_str (a : pyval) (b : string) : exn + string :=
  match a with
  | PStr s => inr (s +:+ b)
  | _ => inl (Exn TypeError "unsupported operand type(s) for +")
  end.

Fixpoint endswith_slash (s : string) : bool :=
  match s with
  | EmptyString => false
  | String c EmptyString => Ascii.eqb c "/"
  | String _ s' => endswith_slash s'
  end.

(** [os.path.join(a, b)] (posixpath). *)
Definition os_path_join (a b : string) : string :=
  if String.prefix "/" b then b
  else if String.eqb a EmptyString || endswith_slash a then a +:+ b
  else a +:+ "/" +:+ b.
End Builtins.

(** *** The [logging] module

    Loggers are looked up by name. The parent chain of a logger is the
    chain of the loggers that exist under the dotted prefixes of its name
    (nearest first), then the root logger: this is what the manager's
    [_fixupParents] and [_fixupChildren] maintain in the [parent]
    attributes. A logging call is recorded as an event; what the handlers
    then do with the record is not modelled. *)
Module Logging.
Definition NOTSET : Z := 0.
Definition DEBUG : Z := 10.
Definition INFO : Z := 20.
Definition WARNING : Z := 30.
Definition ERROR : Z := 40.
Definition CRITICAL : Z := 50.

Definition _nameToLevel : list (string * Z) :=
  [("CRITICAL", CRITICAL); ("FATAL", CRITICAL); ("ERROR", ERROR);
   ("WARN", WARNING); ("WARNING", WARNING); ("INFO", INFO);
   ("DEBUG", DEBUG); ("NOTSET", NOTSET)].

Fixpoint assoc (k : string) (l : list (string * Z)) : option Z :=
  match l with
  | [] => None
  | (k', v) :: l' => if String.eqb k k' then Some v else assoc k l'
  end.

Definition _checkLevel (level : pyval) : exn + Z :=
  match level with
  | PInt z => inr z
  | PBool b => inr (Z.b2z b)
  | PStr s =>
      match assoc s _nameToLevel with
      | Some rv => inr rv
      | None => inl (Exn ValueError ("Unknown level: " +:+ s))
      end
  | _ => inl (Exn TypeError "Level not an integer or a valid string")
  end.

Definition new_logger : Logger :=
  {| lg_level := NOTSET; lg_handlers := []; lg_propagate := true |}.

Definition lookup_logger (ls : LogSys) (lg : logger_ref) : option Logger :=
  match lg with
  | RootLogger => Some (root ls)
  | NamedLogger name => loggerDict ls !! name
  end.

Definition update_logger (lg : logger_ref) (f : Logger -> Logger) (ls : LogSys) : LogSys :=
  match lg with
  | RootLogger => {| root := f (root ls); loggerDict := loggerDict ls |}
  | NamedLogger name =>
      {| root := root ls; loggerDict := alter f name (loggerDict ls) |}
  end.

(** The registry once a logger of that name exists. *)
Definition ensure_logger (name : string) (ls : LogSys) : LogSys :=
  match loggerDict ls !! name with
  | Some _ => ls
  | None => {| root := root ls;
               loggerDict := <[name := new_logger]> (loggerDict ls) |}
  end.

(** [logging.getLogger(name)] *)
Definition getLogger (name : string) : M World logger_ref :=
  if String.eqb name EmptyString || String.eqb name "root" then ret RootLogger
  else
    modify (set_logging (ensure_logger name)) ;;
    ret (NamedLogger name).

Definition with_level (rv : Z) (l : Logger) : Logger :=
  {| lg_level := rv; lg_handlers := lg_handlers l;
     lg_propagate := lg_propagate l |}.

Definition with_handler (hdlr : Handler) (l : Logger) : Logger :=
  {| lg_level := lg_level l; lg_handlers := lg_handlers l ++ [hdlr];
     lg_propagate := lg_propagate l |}.

(** [Logger.setLevel(level)] *)
Definition setLevel (lg : logger_ref) (level : pyval) : M World unit :=
  do rv <- lift_result (_checkLevel level);
  modify (set_logging (update_logger lg (with_level rv))).

(** The positions of the dots of a name, each with the prefix before it. *)
Fixpoint dot_prefixes (pre : string) (i : nat) (s : string) : list (nat * string) :=
  match s with
  | EmptyString => []
  | String c s' =>
      (if Ascii.eqb c "." then [(i, pre)] else [])
        ++ dot_prefixes (pre +:+ String c EmptyString) (S i) s'
  end.

(** The loop of [_fixupParents]: [i = name.rfind(".")], then
    [i = name.rfind(".", 0, i - 1)] while [i > 0]; [ds] lists the dots
    from the last to the first. *)
Fixpoint rfind_walk (bound : option nat) (ds : list (nat * string)) : list string :=
  match ds with
  | [] => []
  | (i, p) :: ds' =>
      if match bound with None => true | Some b => (S i <? b)%nat end
      then if (0 <? i)%nat then p :: rfind_walk (Some i) ds' else []
      else rfind_walk bound ds'
  end.

Definition ancestor_names (name : string) : list string :=
  rfind_walk None (rev (dot_prefixes EmptyString 0 name)).

Definition logger_chain (ls : LogSys) (lg : logger_ref) : list Logger :=
  match lg with
  | RootLogger => [root ls]
  | NamedLogger name =>
      omap (fun n => loggerDict ls !! n) (name :: ancestor_names name) ++ [root ls]
  end.

(** The loop of [Logger.hasHandlers] along the parent chain. *)
Fixpoint walk_handlers (chain : list Logger) : bool :=
  match chain with
  | [] => false
  | c :: rest =>
      match lg_handlers c with
      | _ :: _ => true
      | [] => if lg_propagate c then walk_handlers rest else false
      end
  end.

Definition hasHandlers (lg : logger_ref) : M World bool :=
  do w <- get;
  ret (walk_handlers (logger_chain (logging w) lg)).

(** [Logger.addHandler(hdlr)] with a handler object made for the call. *)
Definition addHandler (lg : logger_ref) (hdlr : Handler) : M World unit :=
  modify (set_logging (update_logger lg (with_handler hdlr))).

(** [Handler.setLevel(level)] *)
Definition Handler_setLevel (h : Handler) (level : pyval) : exn + Handler :=
  match _checkLevel level with
  | inl e => inl e
  | inr rv =>
      inr match h with
          | StreamHandler f d _ => StreamHandler f d rv
          | RotatingFileHandler fn mb bc f d _ => RotatingFileHandler fn mb bc f d rv
          end
  end.

(** [logger.error(msg)], [logger.info(msg)], ... *)
Definition log (lg : logger_ref) (levelno : Z) (msg : log_msg) : M World unit :=
  emit (EvLog lg levelno msg).
End Logging.

(** [for x in xs: body x] *)
Fixpoint for_each {S A} (xs : list A) (body : A -> M S unit) : M S unit :=
  match xs with
  | [] => ret tt
  | x :: xs' => body x ;; for_each xs' body
  end.

(* ================================================================== *)
(** ** class Log *)

Module Log.
Record t := {
  apis : pyval;
  config : pyval;
  logger : option logger_ref;   (* [None] is Python's None *)
  exchange_name : pyval;
  bot_name : pyval;
  log_level : pyval;
  log_dir : pyval
}.

Definition set_logger (lg : option logger_ref) (self : t) : t :=
  {| apis := apis self; config := config self; logger := lg;
     exchange_name := exchange_name self; bot_name := bot_name self;
     log_level := log_level self; log_dir := log_dir self |}.

Section Methods.
Context `{Runtime}.

Definition __init__ (path : string) : M World t :=
  do config <-
    try_ (do f <- builtin_open path; json_load f)
      [(FileNotFoundError,
        fun e => print_stderr "[ERROR] Config file is not found." ;; raise e);
       (ValueError,
        fun e => print_stderr "[ERROR] Json file is invalid." ;; raise e)];
  do exchange_name <-
    try_ (lift_result (getitem config "exchange_name"))
      [(KeyError, fun _ => ret (PStr "Exchange"))];
  do bot_name <-
    try_ (lift_result (getitem config "bot_name"))
      [(KeyError, fun _ => ret (PStr "Bot"))];
  do log_level <-
    try_ (lift_result (getitem config "log_level"))
      [(KeyError, fun _ => ret (PStr "DEBUG"))];
  do log_dir <-
    try_ (lift_result (getitem config "log_dir"))
      [(KeyError, fun _ => ret (PStr "log"))];
  ret {| apis := config; config := config; logger := None;
         exchange_name := exchange_name; bot_name := bot_name;
         log_level := log_level; log_dir := log_dir |}.

(** [f"{self.exchange_name}_{self.bot_name}"] *)
Definition logger_name (self : t) : string :=
  fmt (exchange_name self) +:+ "_" +:+ fmt (bot_name self).

(** [os.mkdir(dir)] *)
Definition mkdir (dir : string) : M World unit :=
  match os_mkdir dir with
  | Some e => raise e
  | None => emit (EvMkdir dir)
  end.

(** [RotatingFileHandler(filename=..., maxBytes=..., backupCount=...)]:
    the constructor opens the file. *)
Definition new_RotatingFileHandler (filename : string) (maxBytes backupCount : Z)
  : M World Handler :=
  match open_log_file filename with
  | Some e => raise e
  | None =>
      ret (RotatingFileHandler filename maxBytes backupCount
             EmptyString EmptyString Logging.NOTSET)
  end.

Definition setFormatter (h : Handler) (fmt datefmt : string) : Handler :=
  match h with
  | StreamHandler _ _ l => StreamHandler fmt datefmt l
  | RotatingFileHandler fn mb bc _ _ l => RotatingFileHandler fn mb bc fmt datefmt l
  end.

(** A [log_dir] that is true but not a [str] makes [os.path.exists],
    [os.mkdir] or [os.path.join] raise [TypeError] before anything is
    created. *)
Definition _initialize_logger : M (t * World) unit :=
  do self <- get_self;
  if negb (match logger self with Some _ => true | None => false end) then
    do lg <- liftW (Logging.getLogger (logger_name self));
    set_self (set_logger (Some lg)) ;;
    liftW (Logging.setLevel lg (log_level self)) ;;
    do has <- liftW (Logging.hasHandlers lg);
    if negb has then
      let stream_handler :=
        setFormatter (StreamHandler EmptyString EmptyString Logging.NOTSET)
          "[%(levelname)s] %(asctime)s : %(message)s" "%Y-%m-%d %H:%M:%S" in
      do stream_handler <-
        lift_result (Logging.Handler_setLevel stream_handler (log_level self));
      liftW (Logging.addHandler lg stream_handler) ;;
      if truthy (log_dir self) then
        do dir <-
          match log_dir self with
          | PStr d => ret d
          | _ => raise (Exn TypeError "expected str, bytes or os.PathLike object")
          end;
        (if negb (os_path_exists dir) then liftW (mkdir dir) else ret tt) ;;
        do file_handler <-
          liftW (new_RotatingFileHandler
                   (os_path_join dir (logger_name self +:+ ".log"))
                   (1024 * 1024 * 2) 3);
        let file_handler :=
          setFormatter file_handler
            "[%(levelname)s] %(asctime)s %(module)s: %(message)s"
            "%Y-%m-%d %H:%M:%S" in
        do file_handler <-
          lift_result (Logging.Handler_setLevel file_handler (log_level self));
        liftW (Logging.addHandler lg file_handler)
      else ret tt
    else ret tt
  else ret tt.

(** [self.logger.<method>(message)]; on [None] the attribute lookup
    raises. *)
Definition log_at (levelno : Z) (method : string) (self : t) (message : log_msg)
  : M World unit :=
  match logger self with
  | Some lg => Logging.log lg levelno message
  | None =>
      raise (Exn AttributeError
               ("'NoneType' object has no attribute '" +:+ method +:+ "'"))
  end.

Definition log_error := log_at Logging.ERROR "error".
Definition log_exception := log_at Logging.ERROR "exception".
Definition log_warning := log_at Logging.WARNING "warning".
Definition log_info := log_at Logging.INFO "info".
Definition log_debug := log_at Logging.DEBUG "debug".
End Methods.
End Log.

(* ================================================================== *)
(** ** class Notify(Log) *)

Module Notify.
Record t := {
  base : Log.t;
  line_notify_token : option pyval;   (* [None]: the attribute is not set *)
  discordWebhook : pyval
}.

Definition line_api : string := "https://notify-api.line.me/api/notify".

Section Methods.
Context `{Runtime}.

Definition __init__ (path : string) : M World t :=
  do log0 <- Log.__init__ path;
  do r <- with_self log0 Log._initialize_logger;
  let log1 := snd r in
  do token <-
    try_ (do v <- lift_result (getitem (Log.config log1) "line_notify_token");
          ret (Some v))
      [(KeyError, fun _ => ret None)];
  do webhook <-
    try_ (lift_result (getitem (Log.config log1) "discordWebhook"))
      [(KeyError, fun _ => ret PNone)];
  ret {| base := log1; line_notify_token := token; discordWebhook := webhook |}.

(** [self.line_notify_token] *)
Definition get_line_notify_token (self : t) : exn + pyval :=
  match line_notify_token self with
  | Some v => inr v
  | None =>
      inl (Exn AttributeError "object has no attribute 'line_notify_token'")
  end.

(** [requests.post(url, data=..., headers=..., files=...)] *)
Definition post (req : request) : M World unit :=
  emit (EvPost req) ;;
  match requests_post req with
  | Some e => raise e
  | None => ret tt
  end.

Definition lineNotify (self : t) (message : string) (fileName : option string)
  : M World unit :=
  let payload := [("message", message)] in
  do token <- lift_result (get_line_notify_token self);
  do bearer <- lift_result (str_add "Bearer " token);
  let headers := [("Authorization", bearer)] in
  match fileName with
  | None =>
      try_ (post {| url := PStr line_api; data := payload;
                    headers := headers; files := [] |} ;;
            Log.log_info (base self) (MsgStr message))
        [(Exception,
          fun e => Log.log_error (base self) (MsgExc e) ;; raise e)]
  | Some fileName =>
      try_ (do f <- builtin_open fileName;
            let files := [("imageFile", f)] in
            post {| url := PStr line_api; data := payload;
                    headers := headers; files := files |})
        [(Exception,
          fun e => Log.log_error (base self) (MsgExc e) ;; raise e)]
  end.

Definition discordNotify (self : t) (message : string) (fileName : option string)
  : M World unit :=
  let payload := [("content", " " +:+ message +:+ " ")] in
  match fileName with
  | None =>
      try_ (post {| url := discordWebhook self; data := payload;
                    headers := []; files := [] |} ;;
            Log.log_info (base self) (MsgStr message))
        [(Exception,
          fun e => Log.log_error (base self) (MsgExc e) ;; raise e)]
  | Some fileName =>
      try_ (do f <- builtin_open fileName;
            let files := [("imageFile", f)] in
            post {| url := discordWebhook self; data := payload;
                    headers := []; files := files |})
        [(Exception,
          fun e => Log.log_error (base self) (MsgExc e) ;; raise e)]
  end.

Definition statusNotify (self : t) (message : string) (fileName : option string)
  : M World unit :=
  if is_None (discordWebhook self) then lineNotify self message fileName
  else discordNotify self message fileName.
End Methods.
End Notify.

(* ================================================================== *)
(** ** Order-history resources ([wrappy/logfile.py]) *)

Module Logfile.
Section Methods.
Context `{Runtime}.

Definition dangling : exn := Exn RuntimeError "no such object".

(** Modelled from the spec: [OrderHistory(full_path, columns)] makes a
    new resource for the path with the given columns; no file is
    touched yet. The result is the reference to the new object. *)
Definition new (full_path : string) (columns : list string) : M World nat :=
  do w <- get;
  modify (set_heap (fun h =>
    (h ++ [{| oh_path := full_path; oh_columns := columns;
              oh_handle := NotOpened |}])%list)) ;;
  ret (length (heap w)).

Definition set_handle (st : handle_state) (o : OrderHistory) : OrderHistory :=
  {| oh_path := oh_path o; oh_columns := oh_columns o; oh_handle := st |}.

(** Modelled from the spec: [open()] creates the file and writes a
    header derived from the column set; a file-system failure
    propagates. *)
Definition open (r : nat) : M World unit :=
  do w <- get;
  match heap w !! r with
  | None => raise dangling
  | Some o =>
      match create_file (oh_path o) with
      | Some e => raise e
      | None =>
          modify (set_heap (fun h => <[r := set_handle Opened o]> h)) ;;
          emit (EvFileCreated (oh_path o) (oh_columns o))
      end
  end.

(** Modelled from the spec: [write_row_by_dict(record)] appends one
    row, the record's fields projected onto the columns in their order,
    a field the record lacks written as empty; a file-system failure
    propagates. *)
Definition write_row_by_dict (r : nat) (record : gmap string string) : M World unit :=
  do w <- get;
  match heap w !! r with
  | None => raise dangling
  | Some o =>
      match append_row (oh_path o) with
      | Some e => raise e
      | None =>
          emit (EvRow (oh_path o)
                  ((fun c => default EmptyString (record !! c)) <$> oh_columns o))
      end
  end.

(** Modelled from the spec: [close()] releases the handle of an open
    resource and is a no-op otherwise. *)
Definition close (r : nat) : M World unit :=
  do w <- get;
  match heap w !! r with
  | None => raise dangling
  | Some o =>
      match oh_handle o with
      | Opened =>
          modify (set_heap (fun h => <[r := set_handle Closed o]> h)) ;;
          emit (EvFileClosed (oh_path o))
      | _ => ret tt
      end
  end.
End Methods.
End Logfile.

(** *** A Python [dict] with string keys whose order of insertion matters *)

Fixpoint dict_get {V} (d : list (string * V)) (k : string) : option V :=
  match d with
  | [] => None
  | (k', v) :: d' => if String.eqb k k' then Some v else dict_get d' k
  end.

(** [k in d] *)
Definition dict_contains {V} (d : list (string * V)) (k : string) : bool :=
  match dict_get d k with Some _ => true | None => false end.

(** [d[k]] *)
Definition dict_getitem {V} (d : list (string * V)) (k : string) : exn + V :=
  match dict_get d k with
  | Some v => inr v
  | None => inl (Exn KeyError k)
  end.

(** [d[k] = v]: a present key keeps its place, a new key goes last. *)
Fixpoint dict_set {V} (k : string) (v : V) (d : list (string * V)) : list (string * V) :=
  match d with
  | [] => [(k, v)]
  | (k', v') :: d' =>
      if String.eqb k k' then (k', v) :: d' else (k', v') :: dict_set k v d'
  end.

(** [d.values()] *)
Definition dict_values {V} (d : list (string * V)) : list V := snd <$> d.

(* ================================================================== *)
(** ** class BotBase(Notify) *)

Module BotBase.
Record t := {
  base : Notify.t;
  stop_flag : bool;
  order_history_dir : pyval;
  columns : list string;
  order_history_file_name_base : string;
  (** day string to the reference of that day's [OrderHistory] object *)
  order_history_files : list (string * nat)
}.

Definition set_stop_flag (b : bool) (self : t) : t :=
  {| base := base self; stop_flag := b;
     order_history_dir := order_history_dir self; columns := columns self;
     order_history_file_name_base := order_history_file_name_base self;
     order_history_files := order_history_files self |}.

Definition set_order_history_files (f : list (string * nat) -> list (string * nat))
  (self : t) : t :=
  {| base := base self; stop_flag := stop_flag self;
     order_history_dir := order_history_dir self; columns := columns self;
     order_history_file_name_base := order_history_file_name_base self;
     order_history_files := f (order_history_files self) |}.

Section Methods.
Context `{Runtime}.

Definition log_of (self : t) : Log.t := Notify.base (base self).

Definition __init__ (path : string) : M World t :=
  do notify <- Notify.__init__ path;
  let log := Notify.base notify in
  do order_history_dir <-
    try_ (lift_result (getitem (Log.config log) "log_dir"))
      [(KeyError, fun _ => ret (PStr "log"))];
  ret {| base := notify; stop_flag := false;
         order_history_dir := order_history_dir;
         columns := [];
         order_history_file_name_base :=
           fmt (Log.exchange_name log) +:+ "_" +:+ fmt (Log.bot_name log)
             +:+ "_order_history";
         order_history_files := [] |}.

Definition _run_logic : M (t * World) unit :=
  raise (Exn NotImplementedError EmptyString).

Definition start : M (t * World) unit :=
  _run_logic ;;
  do self <- get_self;
  liftW (Log.log_info (log_of self) (MsgStr "Bot started.")).

Definition stop : M (t * World) unit :=
  set_self (set_stop_flag true) ;;
  do self <- get_self;
  liftW (Log.log_info (log_of self) (MsgStr "Logic threads has been stopped.")).

(** [today_str] is what [now_jst_str("%y%m%d")] returns at the call;
    [wrappy/time_util.py] is not among the sources. *)
Definition get_or_create_order_history_file (today_str : string)
  : M (t * World) nat :=
  do self <- get_self;
  let order_history_file_name :=
    order_history_file_name_base self +:+ ("_" +:+ today_str +:+ ".csv") in
  do dir_sep <- lift_result (add_str (order_history_dir self) "/");
  let full_path := dir_sep +:+ order_history_file_name in
  (if negb (dict_contains (order_history_files self) today_str) then
     do r <- liftW (Logfile.new full_path (columns self));
     set_self (set_order_history_files (dict_set today_str r)) ;;
     do self <- get_self;
     do r <- lift_result (dict_getitem (order_history_files self) today_str);
     liftW (Logfile.open r)
   else ret tt) ;;
  do self <- get_self;
  lift_result (dict_getitem (order_history_files self) today_str).

Definition write_order_history (today_str : string)
  (order_history : gmap string string) : M (t * World) unit :=
  do r <- get_or_create_order_history_file today_str;
  liftW (Logfile.write_row_by_dict r order_history).

Definition close_order_history_files : M (t * World) unit :=
  do self <- get_self;
  for_each (dict_values (order_history_files self))
    (fun order_history_file => liftW (Logfile.close order_history_file)).
End Methods.

(** *** What a caller can do with a bot, one call after another *)

Inductive call :=
| CallWrite (today_str : string) (order_history : gmap string string)
| CallGetOrCreate (today_str : string)
| CallClose
| CallNotify (message : string) (fileName : option string)
| CallStop.

Section Runs.
Context `{Runtime}.

Definition discard {S A} (m : M S A) : M S unit := do _ <- m; ret tt.

Definition do_call (c : call) : M (t * World) unit :=
  match c with
  | CallWrite today_str order_history =>
      write_order_history today_str order_history
  | CallGetOrCreate today_str =>
      discard (get_or_create_order_history_file today_str)
  | CallClose => close_order_history_files
  | CallNotify message fileName =>
      do self <- get_self;
      liftW (Notify.statusNotify (base self) message fileName)
  | CallStop => stop
  end.

(** The state after a sequence of calls; a call that raises leaves the
    state it has reached, and the caller goes on. *)
Fixpoint run (cs : list call) (s : t * World) : t * World :=
  match cs with
  | [] => s
  | c :: cs' => run cs' (snd (do_call c s))
  end.
End Runs.
End BotBase.

(* ================================================================== *)
(** ** What the statements observe *)

(** The requests among some events, in order. *)
Definition posts (evs : list event) : list request :=
  omap (fun ev => match ev with EvPost req => Some req | _ => None end) evs.

(** The events a computation added to the trace. *)
Definition events_since (w w' : World) : list event :=
  drop (length (trace w)) (trace w').

(** The handlers attached to a logger, none when the logger does not exist. *)
Definition handlers_of (w : World) (lg : logger_ref) : list Handler :=
  match Logging.lookup_logger (logging w) lg with
  | Some l => lg_handlers l
  | None => []
  end.

Definition console_sinks (w : World) (lg : logger_ref) : nat :=
  length (filter (fun h => is_console h = true) (handlers_of w lg)).

Definition file_sinks (w : World) (lg : logger_ref) : nat :=
  length (filter (fun h => is_file h = true) (handlers_of w lg)).

(** The logger [logging.getLogger(name)] returns. *)
Definition logger_named (name : string) : logger_ref :=
  if String.eqb name EmptyString || String.eqb name "root" then RootLogger
  else NamedLogger name.

(** [Logger.hasHandlers()] of that logger in a world where it may not have
    been created yet. *)
Definition reaches_handlers (w : World) (lg : logger_ref) : bool :=
  Logging.walk_handlers (Logging.logger_chain (logging w) lg).

Section Observations.
Context `{Runtime}.

(** The state after [n] calls of [_initialize_logger] on the same
    instance, whatever each call returns or raises. *)
Definition initialize_times (n : nat) (s : Log.t * World) : Log.t * World :=
  Nat.iter n (fun s => snd (Log._initialize_logger s)) s.

(** The [files] argument of the request: nothing without an attachment,
    the bytes of the file under [imageFile] with one that can be read. *)
Definition attachment (fileName : option string) : option (list (string * string)) :=
  match fileName with
  | None => Some []
  | Some name =>
      match fs name with
      | Regular bytes => Some [("imageFile", bytes)]
      | _ => None
      end
  end.

Definition line_request (token message : string) (files : list (string * string))
  : request :=
  {| url := PStr Notify.line_api; data := [("message", message)];
     headers := [("Authorization", "Bearer " +:+ token)]; files := files |}.

Definition discord_request (webhook : pyval) (message : string)
  (files : list (string * string)) : request :=
  {| url := webhook; data := [("content", " " +:+ message +:+ " ")];
     headers := []; files := files |}.

(** The path of the order-history file of a day, when the directory is a
    [str]. *)
Definition day_path (self : BotBase.t) (today_str : string) : option string :=
  match BotBase.order_history_dir self with
  | PStr dir =>
      Some ((dir +:+ "/") +:+
            (BotBase.order_history_file_name_base self +:+
             ("_" +:+ today_str +:+ ".csv")))
  | _ => None
  end.
End Observations.

(** What [close()] leaves of a resource. *)
Definition closed (o : OrderHistory) : OrderHistory :=
  match oh_handle o with
  | Opened => Logfile.set_handle Closed o
  | _ => o
  end.


(** What [Log.__init__] makes of a configuration that decodes to the dict
    [d]. *)
Definition log_of_config (d : gmap string pyval) : Log.t :=
  {| Log.apis := PDict d; Log.config := PDict d; Log.logger := None;
     Log.exchange_name := default (PStr "Exchange") (d !! "exchange_name");
     Log.bot_name := default (PStr "Bot") (d !! "bot_name");
     Log.log_level := default (PStr "DEBUG") (d !! "log_level");
     Log.log_dir := default (PStr "log") (d !! "log_dir") |}.

(** An attribute that is the value of the key when the configuration has
    the key, and the default when it has not. *)
Definition taken_or_default (d : gmap string pyval) (key : string) (dflt attr : pyval)
  : Prop :=
  match d !! key with
  | Some v => attr = v
  | None => attr = dflt
  end.

(** The two handlers [_initialize_logger] makes, and a world with one more
    handler on a logger. *)
Definition stream_sink (lv : Z) : Handler :=
  StreamHandler "[%(levelname)s] %(asctime)s : %(message)s" "%Y-%m-%d %H:%M:%S" lv.

Definition file_sink (dir name : string) (lv : Z) : Handler :=
  RotatingFileHandler (os_path_join dir (name +:+ ".log")) (1024 * 1024 * 2) 3
    "[%(levelname)s] %(asctime)s %(module)s: %(message)s" "%Y-%m-%d %H:%M:%S" lv.

Definition attach (lg : logger_ref) (h : Handler) (w : World) : World :=
  set_logging (Logging.update_logger lg (Logging.with_handler h)) w.

(** What one instance may add to the handlers of its logger: nothing, a
    console sink, or a console sink and then a file sink, the last only
    with a log directory that is true. *)
Definition sink_shape (self : Log.t) (added : list Handler) : Prop :=
  added = [] \/
  (exists c, added = [c] /\ is_console c = true) \/
  (exists c f, added = [c; f] /\ is_console c = true /\ is_file f = true
               /\ truthy (Log.log_dir self) = true).

(** The resource [get_or_create_order_history_file] constructs. *)
Definition fresh_resource (self : BotBase.t) (full_path : string) : OrderHistory :=
  {| oh_path := full_path; oh_columns := BotBase.columns self;
     oh_handle := NotOpened |}.

(** A computation that touches nothing of the world but its trace. *)
Definition only_trace {A} (m : M World A) : Prop :=
  forall w, logging (snd (m w)) = logging w /\ heap (snd (m w)) = heap w.

(** The attributes of a bot that no method assigns after construction. *)
Definition same_bot (a b : BotBase.t) : Prop :=
  BotBase.base a = BotBase.base b
  /\ BotBase.order_history_dir a = BotBase.order_history_dir b
  /\ BotBase.columns a = BotBase.columns b
  /\ BotBase.order_history_file_name_base a = BotBase.order_history_file_name_base b.

Section Invariant.
Context `{Runtime}.

(** What [lineNotify] and [discordNotify] have in common: the guarded
    send of a request that is made from the attached files. *)
Definition send (log : Log.t) (mkreq : list (string * string) -> request)
  (message : string) (fileName : option string) : M World unit :=
  match fileName with
  | None =>
      try_ (Notify.post (mkreq []) ;; Log.log_info log (MsgStr message))
        [(Exception, fun e => Log.log_error log (MsgExc e) ;; raise e)]
  | Some fileName =>
      try_ (do f <- builtin_open fileName;
            Notify.post (mkreq [("imageFile", f)]))
        [(Exception, fun e => Log.log_error log (MsgExc e) ;; raise e)]
  end.

(** What holds of the order-history resources of a bot whose world had
    [h0] objects when it was constructed: each registered day has a
    resource made since, with the path of that day; a resource is
    registered under one day only; every resource made since is
    registered; a day is registered once. *)
Record files_ok (h0 : nat) (s : BotBase.t * World) : Prop := {
  ok_path : forall d r,
    dict_get (BotBase.order_history_files (fst s)) d = Some r ->
    (h0 <= r)%nat /\
    exists o, heap (snd s) !! r = Some o /\ day_path (fst s) d = Some (oh_path o);
  ok_inj : forall d1 d2 r,
    dict_get (BotBase.order_history_files (fst s)) d1 = Some r ->
    dict_get (BotBase.order_history_files (fst s)) d2 = Some r -> d1 = d2;
  ok_all : forall r,
    (h0 <= r < length (heap (snd s)))%nat ->
    exists d, dict_get (BotBase.order_history_files (fst s)) d = Some r;
  ok_old : (h0 <= length (heap (snd s)))%nat;
  ok_keys : NoDup (fst <$> BotBase.order_history_files (fst s))
}.

(** A step that keeps the registry in order, the constant attributes of
    the bot, and the registrations there are. *)
Definition keeps (h0 : nat) (s s' : BotBase.t * World) : Prop :=
  files_ok h0 s'
  /\ same_bot (fst s) (fst s')
  /\ (forall d r, dict_get (BotBase.order_history_files (fst s)) d = Some r ->
                  dict_get (BotBase.order_history_files (fst s')) d = Some r).
End Invariant.

(** A world in which no logger exists yet and the root logger has no
    handler, and one in which the root logger has been given a handler
    (as [logging.basicConfig()] does). *)
Definition fresh_world : World :=
  {| logging := {| root := Logging.new_logger; loggerDict := ∅ |};
     heap := []; trace := [] |}.

Definition root_configured_world : World :=
  {| logging :=
       {| root := {| lg_level := Logging.WARNING;
                     lg_handlers :=
                       [StreamHandler "%(levelname)s:%(name)s:%(message)s"
                          EmptyString Logging.NOTSET];
                     lg_propagate := true |};
          loggerDict := ∅ |};
     heap := []; trace := [] |}.

(** A runtime for the examples: one configuration file [config.json] whose
    text decodes to [cfg], one image file, no directory yet, and a network
    on which every request fails with [failure] when it is given. *)
Definition example_runtime (cfg : option pyval) (failure : option exn) : Runtime :=
  {| fs := fun path =>
       if String.eqb path "config.json" then Regular "configuration"
       else if String.eqb path "chart.png" then Regular "PNG"
       else Absent;
     json_loads := fun _ => cfg;
     format_other := fun _ => "?";
     os_path_exists := fun _ => false;
     os_mkdir := fun _ => None;
     open_log_file := fun _ => None;
     requests_post := fun _ => failure;
     create_file := fun _ => None;
     append_row := fun _ => None |}.

Definition example_dict : gmap string pyval :=
  <["exchange_name" := PStr "Acme"]>
    (<["bot_name" := PStr "Trader"]>
       (<["discordWebhook" := PStr "https://discord/x"]> ∅)).

Definition example_config : pyval := PDict example_dict.

Definition empty_config : pyval := PDict ∅.

(** The notifier and the bot that are constructed from [example_config],
    and the world the construction leaves from [fresh_world]. *)
Definition example_notifier : Notify.t :=
  {| Notify.base :=
       Log.set_logger (Some (NamedLogger "Acme_Trader")) (log_of_config example_dict);
     Notify.line_notify_token := None;
     Notify.discordWebhook := PStr "https://discord/x" |}.

Definition example_bot : BotBase.t :=
  {| BotBase.base := example_notifier; BotBase.stop_flag := false;
     BotBase.order_history_dir := PStr "log"; BotBase.columns := [];
     BotBase.order_history_file_name_base := "Acme_Trader_order_history";
     BotBase.order_history_files := [] |}.

Definition example_world (rt : Runtime) : World :=
  snd (Notify.__init__ (H := rt) "config.json" fresh_world).

(** The notifier constructed from the empty configuration. *)
Definition bare_notifier : Notify.t :=
  {| Notify.base :=
       Log.set_logger (Some (NamedLogger "Exchange_Bot")) (log_of_config ∅);
     Notify.line_notify_token := None;
     Notify.discordWebhook := PNone |}.

Definition connection_refused : exn := Exn RequestException "connection refused".

(* ================================================================== *)
(** ** Further definitions: the subclass hook, and more examples *)

Section Further.
Context `{Runtime}.

(** [start] of a subclass whose [_run_logic] is [run_logic]: the method
    itself is inherited, the hook is what the subclass supplies. *)
Definition start_of (run_logic : M (BotBase.t * World) unit)
  : M (BotBase.t * World) unit :=
  run_logic ;;
  do self <- get_self;
  liftW (Log.log_info (BotBase.log_of self) (MsgStr "Bot started.")).

(** What [Notify.__init__] and [BotBase.__init__] make of a configuration
    that decodes to the dict [d]. *)
Definition notifier_of (d : gmap string pyval) : Notify.t :=
  {| Notify.base :=
       Log.set_logger (Some (logger_named (Log.logger_name (log_of_config d))))
         (log_of_config d);
     Notify.line_notify_token := d !! "line_notify_token";
     Notify.discordWebhook := default PNone (d !! "discordWebhook") |}.

Definition bot_of (d : gmap string pyval) : BotBase.t :=
  {| BotBase.base := notifier_of d; BotBase.stop_flag := false;
     BotBase.order_history_dir := default (PStr "log") (d !! "log_dir");
     BotBase.columns := [];
     BotBase.order_history_file_name_base :=
       fmt (Log.exchange_name (log_of_config d)) +:+ "_"
         +:+ fmt (Log.bot_name (log_of_config d)) +:+ "_order_history";
     BotBase.order_history_files := [] |}.

(** The five logging methods with their level numbers. *)
Definition log_methods : list (Z * (Log.t -> log_msg -> M World unit)) :=
  [(40, Log.log_error); (40, Log.log_exception); (30, Log.log_warning);
   (20, Log.log_info); (10, Log.log_debug)].
End Further.

(** Whether a call is [stop()], and whether it is
    [close_order_history_files()]. *)
Definition is_stop (c : BotBase.call) : bool :=
  match c with BotBase.CallStop => true | _ => false end.

Definition is_close (c : BotBase.call) : bool :=
  match c with BotBase.CallClose => true | _ => false end.

(** The level of a logger, when it exists. *)
Definition level_of (w : World) (lg : logger_ref) : option Z :=
  lg_level <$> Logging.lookup_logger (logging w) lg.

(** The world in which the first call of [_initialize_logger] decides
    whether to attach handlers: the logger exists and has its level. *)
Definition prepared `{Runtime} (self : Log.t) (lv : Z) (w : World) : World :=
  set_logging
    (Logging.update_logger (logger_named (Log.logger_name self)) (Logging.with_level lv))
    (snd (Logging.getLogger (Log.logger_name self) w)).

(** The row [write_row_by_dict] makes of a record for the given columns. *)
Definition row_of (columns : list string) (record : gmap string string) : list string :=
  (fun c => default EmptyString (record !! c)) <$> columns.

(** More configurations: a LINE token only, a token that is a number, a
    log level [logging] does not know, and no log directory. *)
Definition line_dict : gmap string pyval :=
  <["line_notify_token" := PStr "secret"]> ∅.

Definition numeric_token_dict : gmap string pyval :=
  <["line_notify_token" := PInt 12345]> ∅.

Definition verbose_dict : gmap string pyval :=
  <["log_level" := PStr "VERBOSE"]> ∅.

Definition no_dir_dict : gmap string pyval :=
  <["log_dir" := PNone]> ∅.

(** A runtime whose disk refuses every write, and one in which the path
    of the configuration is a directory or may not be read. *)
Definition denied : exn := Exn PermissionError "Permission denied".

Definition read_only_runtime (cfg : option pyval) : Runtime :=
  {| fs := fun path =>
       if String.eqb path "config.json" then Regular "configuration" else Absent;
     json_loads := fun _ => cfg;
     format_other := fun _ => "?";
     os_path_exists := fun _ => false;
     os_mkdir := fun _ => Some denied;
     open_log_file := fun _ => Some denied;
     requests_post := fun _ => None;
     create_file := fun _ => Some denied;
     append_row := fun _ => Some denied |}.

Definition odd_paths_runtime : Runtime :=
  {| fs := fun path =>
       if String.eqb path "conf.d" then Directory
       else if String.eqb path "secret.json" then Forbidden
       else Absent;
     json_loads := fun _ => None;
     format_other := fun _ => "?";
     os_path_exists := fun _ => false;
     os_mkdir := fun _ => None;
     open_log_file := fun _ => None;
     requests_post := fun _ => None;
     create_file := fun _ => None;
     append_row := fun _ => None |}.

Definition interrupted : exn := Exn KeyboardInterrupt "interrupted".

(* ================================================================== *)
(** * Properties *)

(** ** Strings and dicts *)

Section StringFacts.
Lemma string_length_app (a b : string) :
  String.length (a +:+ b) = (String.length a + String.length b)%nat.
Proof.
  induction a as [|c a IH]; [reflexivity|].
  change (String c a +:+ b) with (String c (a +:+ b)).
  cbn [String.length]. by rewrite IH.
Qed.

Lemma string_app_cons c a b : String c a +:+ b = String c (a +:+ b).
Proof. reflexivity. Qed.

Lemma string_app_assoc (a b c : string) : (a +:+ b) +:+ c = a +:+ (b +:+ c).
Proof.
  induction a as [|x a IH]; [reflexivity|].
  rewrite !string_app_cons. by rewrite IH.
Qed.

Lemma string_app_inj_r (a b s : string) : a +:+ s = b +:+ s -> a = b.
Proof.
  revert b. induction a as [|x a IH]; intros [|y b] Heq.
  - reflexivity.
  - apply (f_equal String.length) in Heq.
    rewrite !string_length_app in Heq. cbn [String.length] in Heq. lia.
  - apply (f_equal String.length) in Heq.
    rewrite !string_length_app in Heq. cbn [String.length] in Heq. lia.
  - rewrite !string_app_cons in Heq. injection Heq as -> Heq.
    f_equal. by apply IH.
Qed.
End StringFacts.


Section DictFacts.
Context {V : Type}.
Implicit Types (d : list (string * V)).

Lemma dict_get_set_eq d k v : dict_get (dict_set k v d) k = Some v.
Proof.
  induction d as [|[k' v'] d IH]; cbn.
  - by rewrite String.eqb_refl.
  - destruct (String.eqb k k') eqn:Hk; cbn; by rewrite Hk.
Qed.

Lemma dict_get_set_ne d k k' v : k ≠ k' -> dict_get (dict_set k v d) k' = dict_get d k'.
Proof.
  intros Hne.
  assert (String.eqb k' k = false) as Hk' by (apply String.eqb_neq; congruence).
  induction d as [|[k0 v0] d IH]; cbn.
  - by rewrite Hk'.
  - destruct (String.eqb k k0) eqn:Hk; cbn.
    + apply String.eqb_eq in Hk as <-. by rewrite Hk'.
    + by rewrite IH.
Qed.

Lemma dict_get_None d k : dict_get d k = None <-> k ∉ (fst <$> d).
Proof.
  induction d as [|[k' v'] d IH]; cbn.
  - split; [intros _; apply not_elem_of_nil|done].
  - rewrite not_elem_of_cons. destruct (String.eqb k k') eqn:Hk.
    + apply String.eqb_eq in Hk. split; [done|]. by intros [? _].
    + apply String.eqb_neq in Hk. rewrite IH. tauto.
Qed.

Lemma dict_get_elem d k v : dict_get d k = Some v -> (k, v) ∈ d.
Proof.
  induction d as [|[k' v'] d IH]; cbn; [done|].
  destruct (String.eqb k k') eqn:Hk.
  - apply String.eqb_eq in Hk as ->. intros [= ->]. left.
  - intros Hd. right. by apply IH.
Qed.

Lemma dict_elem_get d k v : NoDup (fst <$> d) -> (k, v) ∈ d -> dict_get d k = Some v.
Proof.
  induction d as [|[k' v'] d IH]; [by intros _ ?%elem_of_nil|].
  cbn. intros [Hk' Hnd]%NoDup_cons [Heq|Hin]%elem_of_cons.
  - simplify_eq. by rewrite String.eqb_refl.
  - destruct (String.eqb k k') eqn:Hk; [|by apply IH].
    apply String.eqb_eq in Hk as ->. destruct Hk'.
    apply list_elem_of_fmap. by exists (k', v).
Qed.

Lemma dict_values_elem d v : v ∈ dict_values d <-> exists k, (k, v) ∈ d.
Proof.
  unfold dict_values. rewrite list_elem_of_fmap. split.
  - intros ([k v'] & -> & Hin). by exists k.
  - intros [k Hin]. by exists (k, v).
Qed.

Lemma dict_set_new d k v : dict_get d k = None -> dict_set k v d = (d ++ [(k, v)])%list.
Proof.
  induction d as [|[k' v'] d IH]; cbn; [done|].
  destruct (String.eqb k k'); [done|]. intros Hd. by rewrite IH.
Qed.
End DictFacts.

(** ** The logging registry *)

Section LoggingFacts.
Lemma dot_prefixes_shorter pre i s j p :
  (j, p) ∈ Logging.dot_prefixes pre i s ->
  (String.length p < String.length pre + String.length s)%nat.
Proof.
  revert pre i. induction s as [|c s IH]; intros pre i Hin; cbn in Hin.
  - by apply elem_of_nil in Hin.
  - apply elem_of_app in Hin as [Hin|Hin].
    + destruct (Ascii.eqb c "."); [|by apply elem_of_nil in Hin].
      apply list_elem_of_singleton in Hin. simplify_eq. cbn. lia.
    + apply IH in Hin. rewrite string_length_app in Hin. cbn in *. lia.
Qed.

Lemma rfind_walk_subset bound ds p :
  p ∈ Logging.rfind_walk bound ds -> exists i, (i, p) ∈ ds.
Proof.
  revert bound. induction ds as [|[i q] ds IH]; intros bound Hin;
    cbn [Logging.rfind_walk] in Hin.
  - by apply elem_of_nil in Hin.
  - destruct (match bound with None => true | Some b => (S i <? b)%nat end).
    + destruct (0 <? i)%nat; [|by apply elem_of_nil in Hin].
      apply elem_of_cons in Hin as [->|Hin].
      * exists i. left.
      * apply IH in Hin as [k Hk]. exists k. by right.
    + apply IH in Hin as [k Hk]. exists k. by right.
Qed.

(** A logger is not among its own ancestors. *)
Lemma ancestor_names_proper name : name ∉ Logging.ancestor_names name.
Proof.
  intros Hin. apply rfind_walk_subset in Hin as [i Hin].
  apply list_elem_of_In, in_rev, list_elem_of_In in Hin.
  apply dot_prefixes_shorter in Hin. cbn in Hin. lia.
Qed.

Lemma walk_handlers_level lv l rest :
  Logging.walk_handlers (Logging.with_level lv l :: rest)
  = Logging.walk_handlers (l :: rest).
Proof. reflexivity. Qed.

Lemma lookup_update ls lg f :
  Logging.lookup_logger (Logging.update_logger lg f ls) lg
  = f <$> Logging.lookup_logger ls lg.
Proof.
  destruct lg as [|name]; cbn; [reflexivity|]. apply lookup_alter_eq.
Qed.

Lemma lookup_getLogger name w :
  let lg := logger_named name in
  Logging.lookup_logger (logging (snd (Logging.getLogger name w))) lg
  = Some (default Logging.new_logger (Logging.lookup_logger (logging w) lg)).
Proof.
  unfold Logging.getLogger, logger_named.
  destruct (_ || _); cbn; [reflexivity|].
  unfold Logging.ensure_logger.
  destruct (loggerDict (logging w) !! name) as [l|] eqn:Hl; cbn.
  - by rewrite Hl.
  - by rewrite lookup_insert_eq.
Qed.

Lemma handlers_of_default w lg :
  handlers_of w lg
  = lg_handlers (default Logging.new_logger (Logging.lookup_logger (logging w) lg)).
Proof. unfold handlers_of. by destruct (Logging.lookup_logger _ _). Qed.

(** Creating the logger and setting its level changes nothing of what
    [hasHandlers] sees. *)
Lemma reaches_handlers_prepared name lv w :
  let lg := logger_named name in
  reaches_handlers
    (set_logging (Logging.update_logger lg (Logging.with_level lv))
       (snd (Logging.getLogger name w))) lg
  = reaches_handlers w lg.
Proof.
  unfold Logging.getLogger, logger_named, reaches_handlers.
  destruct (_ || _); cbn; [reflexivity|].
  assert (Hanc : forall d1 d2 : gmap string Logger,
    (forall n, n ≠ name -> d1 !! n = d2 !! n) ->
    omap (fun n => d1 !! n) (Logging.ancestor_names name)
    = omap (fun n => d2 !! n) (Logging.ancestor_names name)).
  { intros d1 d2 Hd. pose proof (ancestor_names_proper name) as Hp.
    induction (Logging.ancestor_names name) as [|a l IH]; [reflexivity|].
    cbn. rewrite Hd; [|intros ->; apply Hp; left].
    rewrite IH; [reflexivity|]. intros Hin. apply Hp. by right. }
  rewrite lookup_alter_eq. unfold Logging.ensure_logger.
  destruct (loggerDict (logging w) !! name) as [l|] eqn:Hl; cbn.
  - rewrite Hl. cbn.
    rewrite (Hanc _ (loggerDict (logging w))); [reflexivity|].
    intros n Hn. by rewrite lookup_alter_ne.
  - rewrite lookup_insert_eq. cbn.
    rewrite (Hanc _ (loggerDict (logging w))); [reflexivity|].
    intros n Hn. rewrite lookup_alter_ne by done. by rewrite lookup_insert_ne.
Qed.

Lemma reaches_handlers_none w lg :
  reaches_handlers w lg = false -> handlers_of w lg = [].
Proof.
  unfold reaches_handlers, handlers_of.
  destruct lg as [|name]; cbn.
  - by destruct (lg_handlers (root (logging w))).
  - destruct (loggerDict (logging w) !! name) as [l|]; cbn; [|done].
    by destruct (lg_handlers l).
Qed.
End LoggingFacts.

(* ================================================================== *)
(** ** Loading the configuration *)

Section ConfigLoader.
Context `{Runtime}.

Lemma config_key_or_default (d : gmap string pyval) key dflt (w : World) :
  try_ (lift_result (getitem (PDict d) key)) [(KeyError, fun _ => ret dflt)] w
  = (inr (default dflt (d !! key)), w).
Proof.
  unfold try_, lift_result, getitem. destruct (d !! key); reflexivity.
Qed.

Lemma load_dict path w content d :
  fs path = Regular content -> json_loads content = Some (PDict d) ->
  Log.__init__ path w = (inr (log_of_config d), w).
Proof.
  intros Hfs Hjs. unfold Log.__init__.
  unfold bind at 1. unfold try_ at 1. unfold bind at 1, builtin_open, json_load.
  rewrite Hfs. unfold ret at 1. rewrite Hjs. unfold ret at 1.
  unfold bind. rewrite !config_key_or_default. reflexivity.
Qed.

(** A configuration that is loaded is a dict read from a regular file. *)
Lemma load_inv path w self w' :
  Log.__init__ path w = (inr self, w') ->
  exists content d,
    fs path = Regular content /\ json_loads content = Some (PDict d)
    /\ self = log_of_config d /\ w' = w.
Proof.
  intros Hinit.
  destruct (fs path) as [|content| |] eqn:Hfs;
    try (unfold Log.__init__, bind, try_, builtin_open in Hinit;
         rewrite Hfs in Hinit; cbn in Hinit; discriminate).
  destruct (json_loads content) as [cfg|] eqn:Hjs;
    [|unfold Log.__init__, bind, try_, builtin_open, json_load in Hinit;
      rewrite Hfs in Hinit; cbn in Hinit; rewrite Hjs in Hinit; cbn in Hinit;
      discriminate].
  destruct cfg as [| | | | | |d];
    try (unfold Log.__init__, bind, try_, builtin_open, json_load in Hinit;
         rewrite Hfs in Hinit; cbn in Hinit; rewrite Hjs in Hinit; cbn in Hinit;
         discriminate).
  rewrite (load_dict _ _ _ _ Hfs Hjs) in Hinit. simplify_eq. eauto 10.
Qed.


(** C3. Loading the configuration from a path that does not exist fails
    with [FileNotFoundError] (the spec's ConfigNotFound), and from a file
    whose text is not valid JSON with a [ValueError], namely
    [json.JSONDecodeError] (the spec's ConfigParseError); in both cases
    the one thing done before the exception leaves [__init__] is to
    print the diagnostic on standard error. *)
Theorem config_load_failures path w :
  (fs path = Absent ->
   exists e,
     Log.__init__ path w
     = (inl e, record (EvStderr "[ERROR] Config file is not found.") w)
     /\ exc_type e = FileNotFoundError)
  /\ (forall content,
        fs path = Regular content -> json_loads content = None ->
        exists e,
          Log.__init__ path w
          = (inl e, record (EvStderr "[ERROR] Json file is invalid.") w)
          /\ isinstance e ValueError = true).
Proof.
  split.
  - intros Hfs. eexists.
    split; [unfold Log.__init__, bind, try_, builtin_open; by rewrite Hfs|].
    reflexivity.
  - intros content Hfs Hjs. eexists.
    split; [unfold Log.__init__, bind, try_, builtin_open, json_load;
            rewrite Hfs; unfold ret; by rewrite Hjs|].
    reflexivity.
Qed.

(** A configuration that decodes to something else than a JSON object
    makes [self.config["exchange_name"]] raise [TypeError], which no
    [except] clause of the constructor catches. *)
Remark config_not_an_object path w content cfg :
  fs path = Regular content -> json_loads content = Some cfg ->
  (forall d, cfg <> PDict d) ->
  exists e, Log.__init__ path w = (inl e, w) /\ exc_type e = TypeError.
Proof.
  intros Hfs Hjs Hcfg.
  destruct cfg as [| | | | | |d];
    try (eexists; split;
         [unfold Log.__init__, bind, try_, builtin_open, json_load;
          rewrite Hfs; unfold ret; by rewrite Hjs|reflexivity]).
  by destruct (Hcfg d).
Qed.

(** C4. For a configuration that decodes to a JSON object, construction
    succeeds without touching the world, and each of [exchange_name],
    [bot_name], [log_level] and [log_dir] is the value of its key when
    the key is present and otherwise the documented default. *)
Theorem config_defaults path w content d :
  fs path = Regular content -> json_loads content = Some (PDict d) ->
  exists self,
    Log.__init__ path w = (inr self, w)
    /\ taken_or_default d "exchange_name" (PStr "Exchange") (Log.exchange_name self)
    /\ taken_or_default d "bot_name" (PStr "Bot") (Log.bot_name self)
    /\ taken_or_default d "log_level" (PStr "DEBUG") (Log.log_level self)
    /\ taken_or_default d "log_dir" (PStr "log") (Log.log_dir self).
Proof.
  intros Hfs Hjs. exists (log_of_config d).
  split; [by apply (load_dict _ _ content)|].
  unfold taken_or_default, log_of_config. cbn.
  repeat split; by destruct (d !! _).
Qed.
End ConfigLoader.

(* ================================================================== *)
(** ** Initialising the logger *)

Section LoggerInit.
Context `{Runtime}.

Ltac unfold_m :=
  unfold Log._initialize_logger, Logging.getLogger, Logging.setLevel,
    Logging.hasHandlers, Logging.addHandler,
    Log.new_RotatingFileHandler, Logging.Handler_setLevel,
    bind, ret, raise, get, modify, lift_result, liftW, get_self, set_self in *.

Lemma initialize_again self lg w :
  Log.logger self = Some lg ->
  Log._initialize_logger (self, w) = (inr tt, (self, w)).
Proof. intros Hlg. unfold_m. simpl. rewrite Hlg. reflexivity. Qed.

Lemma getLogger_eq name w :
  Logging.getLogger name w
  = (inr (logger_named name),
     match logger_named name with
     | RootLogger => w
     | NamedLogger n => set_logging (Logging.ensure_logger n) w
     end).
Proof.
  unfold Logging.getLogger, logger_named, bind, modify, ret.
  destruct (_ || _); reflexivity.
Qed.

(** The first call, spelled out along its branches. *)
Lemma initialize_first self w :
  Log.logger self = None ->
  let lg := logger_named (Log.logger_name self) in
  let self1 := Log.set_logger (Some lg) self in
  let w1 := snd (Logging.getLogger (Log.logger_name self) w) in
  Log._initialize_logger (self, w) =
  match Logging._checkLevel (Log.log_level self) with
  | inl e => (inl e, (self1, w1))
  | inr lv =>
      let w2 := set_logging (Logging.update_logger lg (Logging.with_level lv)) w1 in
      if reaches_handlers w2 lg then (inr tt, (self1, w2))
      else
        let w3 := attach lg (stream_sink lv) w2 in
        if truthy (Log.log_dir self) then
          match Log.log_dir self with
          | PStr dir =>
              match (if negb (os_path_exists dir) then Log.mkdir dir w3
                     else (inr tt, w3)) with
              | (inl e, w4) => (inl e, (self1, w4))
              | (inr _, w4) =>
                  match open_log_file (os_path_join dir (Log.logger_name self +:+ ".log")) with
                  | Some e => (inl e, (self1, w4))
                  | None =>
                      (inr tt, (self1, attach lg (file_sink dir (Log.logger_name self) lv) w4))
                  end
              end
          | _ => (inl (Exn TypeError "expected str, bytes or os.PathLike object"),
                  (self1, w3))
          end
        else (inr tt, (self1, w3))
  end.
Proof.
  intros Hlg lg self1 w1. subst lg self1 w1.
  unfold Log._initialize_logger. unfold bind at 1, get_self at 1. simpl.
  rewrite Hlg. simpl.
  unfold bind at 1, liftW at 1. simpl. rewrite getLogger_eq. simpl.
  unfold_m. simpl.
  destruct (Logging._checkLevel (Log.log_level self)) as [e|lv]; simpl; [reflexivity|].
  unfold reaches_handlers. simpl.
  destruct (Logging.walk_handlers _); simpl; [reflexivity|].
  destruct (truthy (Log.log_dir self)); simpl; [|reflexivity].
  destruct (Log.log_dir self); simpl; try reflexivity.
  destruct (os_path_exists s); simpl.
  - destruct (open_log_file _); reflexivity.
  - destruct (Log.mkdir s _) as [[e|[]] w4]; simpl; [reflexivity|].
    destruct (open_log_file _); reflexivity.
Qed.

Lemma initialize_sets_logger self w :
  Log.logger self = None ->
  fst (snd (Log._initialize_logger (self, w)))
  = Log.set_logger (Some (logger_named (Log.logger_name self))) self.
Proof.
  intros Hlg. rewrite initialize_first by done. cbn zeta.
  repeat case_match; reflexivity.
Qed.

Lemma handlers_of_getLogger name w :
  handlers_of (snd (Logging.getLogger name w)) (logger_named name)
  = handlers_of w (logger_named name).
Proof.
  rewrite !handlers_of_default, lookup_getLogger. cbn.
  by destruct (Logging.lookup_logger (logging w) (logger_named name)).
Qed.

Lemma handlers_of_level lg lv w :
  handlers_of (set_logging (Logging.update_logger lg (Logging.with_level lv)) w) lg
  = handlers_of w lg.
Proof.
  unfold handlers_of. cbn [logging set_logging]. rewrite lookup_update.
  by destruct (Logging.lookup_logger (logging w) lg).
Qed.

Lemma handlers_of_attach lg h w :
  is_Some (Logging.lookup_logger (logging w) lg) ->
  handlers_of (attach lg h w) lg = (handlers_of w lg ++ [h])%list.
Proof.
  intros [l Hl]. unfold handlers_of, attach. cbn [logging set_logging].
  rewrite lookup_update, Hl. reflexivity.
Qed.

Lemma lookup_some_update lg f w :
  is_Some (Logging.lookup_logger (logging w) lg) ->
  is_Some (Logging.lookup_logger
             (logging (set_logging (Logging.update_logger lg f) w)) lg).
Proof.
  intros [l Hl]. cbn [logging set_logging]. rewrite lookup_update, Hl. by eexists.
Qed.

Lemma mkdir_logging dir w : logging (snd (Log.mkdir dir w)) = logging w.
Proof. unfold Log.mkdir. by destruct (os_mkdir dir). Qed.

(** The handlers of the named logger after the first call. *)
Lemma initialize_handlers self w :
  Log.logger self = None ->
  let lg := logger_named (Log.logger_name self) in
  let w1 := snd (snd (Log._initialize_logger (self, w))) in
  match Logging._checkLevel (Log.log_level self) with
  | inl _ => handlers_of w1 lg = handlers_of w lg
  | inr lv =>
      if reaches_handlers w lg then handlers_of w1 lg = handlers_of w lg
      else
        handlers_of w1 lg = (handlers_of w lg ++ [stream_sink lv])%list
        \/ (truthy (Log.log_dir self) = true
            /\ exists dir,
                 handlers_of w1 lg
                 = (handlers_of w lg
                    ++ [stream_sink lv; file_sink dir (Log.logger_name self) lv])%list)
  end.
Proof.
  intros Hlg lg w1. subst lg w1. rewrite initialize_first by done.
  pose proof (handlers_of_getLogger (Log.logger_name self) w) as Hh1.
  pose proof (lookup_getLogger (Log.logger_name self) w) as Hex1. cbn zeta in Hex1.
  apply mk_is_Some in Hex1.
  destruct (Logging._checkLevel (Log.log_level self)) as [e|lv]; [done|].
  cbn zeta. rewrite reaches_handlers_prepared.
  set (lg := logger_named (Log.logger_name self)) in *.
  set (w2 := set_logging _ _).
  assert (Hh2 : handlers_of w2 lg = handlers_of w lg)
    by (subst w2; by rewrite handlers_of_level).
  assert (Hex2 : is_Some (Logging.lookup_logger (logging w2) lg))
    by (by apply lookup_some_update).
  destruct (reaches_handlers w lg); [done|].
  assert (Hh3 : handlers_of (attach lg (stream_sink lv) w2) lg
                = (handlers_of w lg ++ [stream_sink lv])%list)
    by (by rewrite handlers_of_attach, Hh2).
  assert (Hex3 : is_Some (Logging.lookup_logger
                            (logging (attach lg (stream_sink lv) w2)) lg))
    by (by apply lookup_some_update).
  destruct (truthy (Log.log_dir self)) eqn:Htruthy; [|by left].
  destruct (Log.log_dir self) as [| | | |dir| |]; try (by left).
  assert (Hmk : forall w4 : World,
    logging w4 = logging (attach lg (stream_sink lv) w2) ->
    handlers_of w4 lg = (handlers_of w lg ++ [stream_sink lv])%list
    /\ handlers_of (attach lg (file_sink dir (Log.logger_name self) lv) w4) lg
       = (handlers_of w lg
          ++ [stream_sink lv; file_sink dir (Log.logger_name self) lv])%list).
  { intros w4 Hw4.
    assert (Hh4 : handlers_of w4 lg = (handlers_of w lg ++ [stream_sink lv])%list)
      by (unfold handlers_of in *; by rewrite Hw4).
    split; [done|]. rewrite handlers_of_attach, Hh4 by (by rewrite Hw4).
    by rewrite <- app_assoc. }
  destruct (os_path_exists dir); cbn [negb].
  - destruct (Hmk _ eq_refl) as [Ha Hb].
    destruct (open_log_file _); [by left|]. right. split; [done|]. by exists dir.
  - pose proof (mkdir_logging dir (attach lg (stream_sink lv) w2)) as Hmkdir.
    destruct (Log.mkdir dir _) as [[e|[]] w4]; cbn [snd] in *;
      destruct (Hmk _ Hmkdir) as [Ha Hb]; [by left|].
    destruct (open_log_file _); [by left|]. right. split; [done|]. by exists dir.
Qed.

Lemma initialize_times_succ n self w :
  Log.logger self = None ->
  initialize_times (S n) (self, w) = snd (Log._initialize_logger (self, w)).
Proof.
  intros Hlg. induction n as [|n IH]; [done|].
  change (initialize_times (S (S n)) (self, w))
    with (snd (Log._initialize_logger (initialize_times (S n) (self, w)))).
  rewrite IH.
  pose proof (initialize_sets_logger self w Hlg) as Hset.
  destruct (Log._initialize_logger (self, w)) as [res [self1 w1]].
  cbn [fst snd] in *.
  by rewrite (initialize_again self1 (logger_named (Log.logger_name self)))
    by (by rewrite Hset).
Qed.

(** C5, as the code has it. On an instance that has no logger yet, the
    first call of [_initialize_logger] binds the named logger, and every
    later call changes nothing, whatever the first one did; so handlers
    are attached at most once: nothing, one console sink, or one console
    sink and then one file sink, the last only with a log directory that
    is true. Nothing is attached when the named logger or a logger it
    propagates to has a handler already. When none has and the
    configured level is one [setLevel] accepts, the named logger ends,
    after any number of calls, with exactly one console sink and at most
    one file sink. *)
Theorem initialize_logger_once self w :
  Log.logger self = None ->
  let lg := logger_named (Log.logger_name self) in
  let s1 := initialize_times 1 (self, w) in
  Log.logger (fst s1) = Some lg
  /\ (forall n, initialize_times (S n) (self, w) = s1)
  /\ Log._initialize_logger s1 = (inr tt, s1)
  /\ (exists added,
        handlers_of (snd s1) lg = (handlers_of w lg ++ added)%list
        /\ sink_shape self added)
  /\ (reaches_handlers w lg = true -> handlers_of (snd s1) lg = handlers_of w lg)
  /\ (reaches_handlers w lg = false ->
      forall lv, Logging._checkLevel (Log.log_level self) = inr lv ->
      forall n,
        let wn := snd (initialize_times (S n) (self, w)) in
        console_sinks wn lg = 1%nat
        /\ (file_sinks wn lg <= 1)%nat
        /\ (file_sinks wn lg = 1%nat -> truthy (Log.log_dir self) = true)).
Proof.
  intros Hlg lg s1.
  assert (Hs1 : s1 = snd (Log._initialize_logger (self, w))) by done.
  pose proof (initialize_sets_logger self w Hlg) as Hset. rewrite <- Hs1 in Hset.
  pose proof (initialize_handlers self w Hlg) as Hh. cbn zeta in Hh.
  rewrite <- Hs1 in Hh. fold lg in Hh.
  split; [by rewrite Hset|].
  split; [intros n; by rewrite initialize_times_succ|].
  split.
  { destruct s1 as [self1 w1]. apply (initialize_again self1 lg).
    cbn [fst] in Hset. by rewrite Hset. }
  split; [|split].
  - destruct (Logging._checkLevel (Log.log_level self)) as [e|lv].
    { exists []. rewrite app_nil_r. split; [done|by left]. }
    destruct (reaches_handlers w lg).
    { exists []. rewrite app_nil_r. split; [done|by left]. }
    destruct Hh as [Hh|(Htruthy & dir & Hh)].
    + eexists. split; [exact Hh|]. right. left. by eexists.
    + eexists. split; [exact Hh|]. right. right. by do 2 eexists.
  - intros Hreach. rewrite Hreach in Hh.
    by destruct (Logging._checkLevel (Log.log_level self)).
  - intros Hreach lv Hlv n wn. subst wn. rewrite initialize_times_succ by done.
    rewrite <- Hs1. rewrite Hlv, Hreach in Hh.
    apply reaches_handlers_none in Hreach. unfold console_sinks, file_sinks.
    destruct Hh as [Hh|(Htruthy & dir & Hh)]; rewrite Hh, Hreach.
    + change (length (filter (fun h => is_console h = true) _)) with 1%nat.
      change (length (filter (fun h => is_file h = true) _)) with 0%nat.
      split; [done|]. split; [lia|done].
    + change (length (filter (fun h => is_console h = true) _)) with 1%nat.
      change (length (filter (fun h => is_file h = true) _)) with 1%nat.
      split; [done|]. split; [lia|done].
Qed.
End LoggerInit.

(** C5, as it is stated, fails where the root logger has a handler
    before the instance is made (as after [logging.basicConfig()]):
    [hasHandlers] is then true of the named logger, nothing is attached,
    and after two calls the named logger has no console sink, not one. *)
Lemma initialize_logger_under_configured_root :
  let rt := example_runtime (Some empty_config) None in
  let self := log_of_config ∅ in
  let s2 := initialize_times (H := rt) 2 (self, root_configured_world) in
  Log.__init__ (H := rt) "config.json" root_configured_world
  = (inr self, root_configured_world)
  /\ Log.logger (fst s2) = Some (NamedLogger "Exchange_Bot")
  /\ console_sinks (snd s2) (NamedLogger "Exchange_Bot") = 0%nat
  /\ console_sinks (snd s2) (NamedLogger "Exchange_Bot") <> 1%nat.
Proof. vm_compute. repeat split; discriminate. Qed.

(* ================================================================== *)
(** ** Notifications *)

Section Notifier.
Context `{Runtime}.

Lemma token_or_unset (d : gmap string pyval) (w : World) :
  try_ (do v <- lift_result (getitem (PDict d) "line_notify_token"); ret (Some v))
    [(KeyError, fun _ => ret None)] w
  = (inr (d !! "line_notify_token"), w).
Proof.
  unfold try_, bind, lift_result, getitem.
  destruct (d !! "line_notify_token"); reflexivity.
Qed.

(** What a constructed notifier holds. *)
Lemma notify_init_inv path w self w' :
  Notify.__init__ path w = (inr self, w') ->
  exists d,
    Notify.base self
      = Log.set_logger (Some (logger_named (Log.logger_name (log_of_config d))))
          (log_of_config d)
    /\ Notify.line_notify_token self = d !! "line_notify_token"
    /\ Notify.discordWebhook self = default PNone (d !! "discordWebhook").
Proof.
  unfold Notify.__init__. unfold bind at 1.
  destruct (Log.__init__ path w) as [[e|log0] w0] eqn:Hload; [discriminate|].
  apply load_inv in Hload as (content & d & _ & _ & -> & ->).
  unfold bind at 1, with_self.
  pose proof (initialize_sets_logger (log_of_config d) w eq_refl) as Hlg.
  destruct (Log._initialize_logger (log_of_config d, w)) as [[e|[]] [log1 w1]];
    [discriminate|].
  cbn in Hlg. subst log1. cbn [snd Log.config Log.set_logger log_of_config].
  unfold bind at 1. rewrite token_or_unset.
  unfold bind at 1. rewrite config_key_or_default.
  intros Heq. exists d. unfold ret in Heq. by simplify_eq.
Qed.

(** The [try] of both send paths: an [Exception] is logged at error
    level and raised again. *)
Lemma guarded self lg (body : M World unit) w :
  Log.logger (Notify.base self) = Some lg ->
  try_ body
    [(Exception,
      fun e => Log.log_error (Notify.base self) (MsgExc e) ;; raise e)] w
  = match body w with
    | (inl e, w') =>
        if isinstance e Exception
        then (inl e, record (EvLog lg Logging.ERROR (MsgExc e)) w')
        else (inl e, w')
    | (inr a, w') => (inr a, w')
    end.
Proof.
  intros Hlg. unfold try_. destruct (body w) as [[e|a] w']; [|reflexivity].
  cbn [find_handler]. destruct (isinstance e Exception); [|reflexivity].
  unfold bind, Log.log_error, Log.log_at. rewrite Hlg. reflexivity.
Qed.

Lemma post_eq req w :
  Notify.post req w
  = (match requests_post req with Some e => inl e | None => inr tt end,
     record (EvPost req) w).
Proof.
  unfold Notify.post, bind, emit, modify, raise, ret.
  destruct (requests_post req); reflexivity.
Qed.

Lemma events_since_app w w' evs :
  trace w' = (trace w ++ evs)%list -> events_since w w' = evs.
Proof. intros Heq. unfold events_since. rewrite Heq. apply drop_app_length. Qed.

Lemma constructed_logger path w0 self w1 :
  Notify.__init__ path w0 = (inr self, w1) ->
  Log.logger (Notify.base self)
  = Some (logger_named (Log.logger_name (Notify.base self))).
Proof.
  intros (d & Hbase & _)%notify_init_inv. rewrite Hbase. reflexivity.
Qed.

Lemma discordNotify_send self message fileName :
  Notify.discordNotify self message fileName
  = send (Notify.base self) (discord_request (Notify.discordWebhook self) message)
      message fileName.
Proof. by destruct fileName. Qed.

Lemma lineNotify_send self token message fileName w :
  Notify.line_notify_token self = Some (PStr token) ->
  Notify.lineNotify self message fileName w
  = send (Notify.base self) (line_request token message) message fileName w.
Proof.
  intros Htok. unfold Notify.lineNotify, Notify.get_line_notify_token.
  rewrite Htok. by destruct fileName.
Qed.

(** Whatever happens, the requests a send issues are the one request
    with the attachment, or none when the attachment cannot be read. *)
Lemma send_posts log mkreq message fileName w :
  posts (events_since w (snd (send log mkreq message fileName w)))
  = match attachment fileName with
    | Some files => [mkreq files]
    | None => []
    end.
Proof.
  unfold send, attachment, try_, bind, builtin_open, Log.log_info, Log.log_error,
    Log.log_at, Logging.log, emit, modify, raise, ret.
  destruct fileName as [name|].
  - destruct (fs name); cbn [find_handler];
      rewrite ?post_eq;
      repeat match goal with
        | |- context [isinstance ?e ?c] => destruct (isinstance e c)
        | |- context [requests_post ?r] => destruct (requests_post r)
        | |- context [Log.logger ?l] => destruct (Log.logger l)
        end;
      cbn [snd fst find_handler];
      (erewrite events_since_app;
         [|unfold record; cbn [trace]; rewrite <- ?app_assoc;
           try reflexivity; by rewrite app_nil_r]);
      reflexivity.
  - rewrite post_eq.
    destruct (requests_post _); cbn [find_handler];
      repeat match goal with
        | |- context [isinstance ?e ?c] => destruct (isinstance e c)
        | |- context [Log.logger ?l] => destruct (Log.logger l)
        end;
      cbn [snd fst find_handler];
      repeat match goal with
        | |- context [isinstance ?e ?c] => destruct (isinstance e c)
        end;
      cbn [snd fst find_handler];
      (erewrite events_since_app;
         [|unfold record; cbn [trace]; rewrite <- ?app_assoc;
           try reflexivity; by rewrite app_nil_r]);
      reflexivity.
Qed.

Lemma send_failure log lg mkreq message fileName files e w :
  Log.logger log = Some lg ->
  attachment fileName = Some files ->
  requests_post (mkreq files) = Some e ->
  isinstance e Exception = true ->
  send log mkreq message fileName w
  = (inl e, record (EvLog lg Logging.ERROR (MsgExc e)) (record (EvPost (mkreq files)) w)).
Proof.
  intros Hlg Hatt Hpost Hexc.
  unfold send, attachment, try_, bind, builtin_open in *.
  destruct fileName as [name|].
  - destruct (fs name); simplify_eq. unfold ret. rewrite post_eq, Hpost.
    cbn [find_handler]. rewrite Hexc.
    unfold Log.log_error, Log.log_at. rewrite Hlg. reflexivity.
  - simplify_eq. rewrite post_eq, Hpost. cbn [find_handler]. rewrite Hexc.
    unfold Log.log_error, Log.log_at. rewrite Hlg. reflexivity.
Qed.

(** C1. A constructed notifier sends a status message over exactly one
    channel, chosen by the configuration alone: with a Discord webhook
    configured, [statusNotify] is [discordNotify] and every request it
    issues is the one posted to the webhook, without the LINE
    authorization header; with no webhook configured (no [discordWebhook]
    key, or null), it is [lineNotify], and with the configured token every
    request it issues is the one posted to the LINE endpoint with that
    token as bearer. *)
Theorem statusNotify_routes path w0 self w1 message fileName w :
  Notify.__init__ path w0 = (inr self, w1) ->
  let sent := posts (events_since w (snd (Notify.statusNotify self message fileName w))) in
  exists d,
    Log.config (Notify.base self) = PDict d
    /\ (forall webhook,
          d !! "discordWebhook" = Some webhook -> webhook <> PNone ->
          Notify.statusNotify self message fileName w
          = Notify.discordNotify self message fileName w
          /\ sent = match attachment fileName with
                    | Some files => [discord_request webhook message files]
                    | None => []
                    end)
    /\ (d !! "discordWebhook" = None \/ d !! "discordWebhook" = Some PNone ->
        Notify.statusNotify self message fileName w
        = Notify.lineNotify self message fileName w
        /\ forall token,
             d !! "line_notify_token" = Some (PStr token) ->
             sent = match attachment fileName with
                    | Some files => [line_request token message files]
                    | None => []
                    end).
Proof.
  intros (d & Hbase & Htok & Hhook)%notify_init_inv sent. exists d.
  split; [by rewrite Hbase|]. subst sent. unfold Notify.statusNotify. split.
  - intros webhook Hd Hne. rewrite Hd in Hhook. cbn in Hhook. rewrite Hhook.
    destruct webhook; try done; cbn [is_None];
      rewrite discordNotify_send, send_posts, Hhook; done.
  - intros [Hd|Hd]; rewrite Hd in Hhook; cbn in Hhook; rewrite Hhook;
      cbn [is_None]; (split; [done|]).
    all: intros token Ht; rewrite Ht in Htok.
    all: rewrite (lineNotify_send _ token) by done.
    all: by rewrite send_posts.
Qed.

(** C6. When the HTTP send raises an exception, in the LINE path as in
    the Discord path, with or without an attachment, the notifier logs
    that exception at error level and then raises the same exception:
    the call ends with it, the request and the error record being the
    last two events. *)
Theorem transport_failure_logged_and_raised path w0 self w1 message fileName files e w :
  Notify.__init__ path w0 = (inr self, w1) ->
  attachment fileName = Some files ->
  isinstance e Exception = true ->
  exists lg,
    Log.logger (Notify.base self) = Some lg
    /\ (forall token,
          Notify.line_notify_token self = Some (PStr token) ->
          requests_post (line_request token message files) = Some e ->
          Notify.lineNotify self message fileName w
          = (inl e,
             record (EvLog lg Logging.ERROR (MsgExc e))
               (record (EvPost (line_request token message files)) w)))
    /\ (requests_post (discord_request (Notify.discordWebhook self) message files)
        = Some e ->
        Notify.discordNotify self message fileName w
        = (inl e,
           record (EvLog lg Logging.ERROR (MsgExc e))
             (record (EvPost (discord_request (Notify.discordWebhook self) message files))
                w))).
Proof.
  intros Hlg%constructed_logger Hatt Hexc. eexists. split; [exact Hlg|]. split.
  - intros token Htok Hpost. rewrite (lineNotify_send _ token) by done.
    by apply send_failure.
  - intros Hpost. rewrite discordNotify_send. by apply send_failure.
Qed.

(** C8. The Discord path posts to the webhook a form payload whose
    [content] is the message between one leading and one trailing space;
    without an attachment nothing else is sent, and with an attachment
    that can be read the bytes of the file go under [imageFile]. That
    request is the only one the call issues. *)
Theorem discordNotify_payload self message fileName w :
  let sent := posts (events_since w (snd (Notify.discordNotify self message fileName w))) in
  (fileName = None ->
     sent = [{| url := Notify.discordWebhook self;
                data := [("content", " " +:+ message +:+ " ")];
                headers := []; files := [] |}])
  /\ (forall name bytes,
        fileName = Some name -> fs name = Regular bytes ->
        sent = [{| url := Notify.discordWebhook self;
                   data := [("content", " " +:+ message +:+ " ")];
                   headers := []; files := [("imageFile", bytes)] |}]).
Proof.
  intros sent. subst sent. rewrite discordNotify_send, send_posts. split.
  - by intros ->.
  - intros name bytes -> Hfs. unfold attachment. by rewrite Hfs.
Qed.

(** C9. With neither [discordWebhook] nor [line_notify_token] in the
    configuration, [statusNotify] raises [AttributeError] and leaves the
    world as it was: no request has been issued and nothing has been
    logged. *)
Theorem statusNotify_without_channel path w0 self w1 d message fileName w :
  Notify.__init__ path w0 = (inr self, w1) ->
  Log.config (Notify.base self) = PDict d ->
  d !! "discordWebhook" = None ->
  d !! "line_notify_token" = None ->
  exists e,
    Notify.statusNotify self message fileName w = (inl e, w)
    /\ exc_type e = AttributeError
    /\ events_since w (snd (Notify.statusNotify self message fileName w)) = [].
Proof.
  intros (d' & Hbase & Htok & Hhook)%notify_init_inv Hcfg Hd Ht.
  rewrite Hbase in Hcfg. cbn in Hcfg. simplify_eq.
  rewrite Hd in Hhook. rewrite Ht in Htok. cbn in Hhook.
  unfold Notify.statusNotify, Notify.lineNotify, Notify.get_line_notify_token.
  rewrite Hhook, Htok. cbn [is_None]. eexists. split; [reflexivity|].
  split; [reflexivity|]. cbn [snd bind lift_result]. unfold bind, lift_result. cbn [snd].
  unfold events_since. apply drop_all.
Qed.
End Notifier.

(* ================================================================== *)
(** ** Order-history files *)

Section OrderHistoryFiles.
Context `{Runtime}.

Lemma only_trace_ret {A} (a : A) : only_trace (ret a).
Proof. by intros w. Qed.

Lemma only_trace_raise {A} e : only_trace (raise (A := A) e).
Proof. by intros w. Qed.

Lemma only_trace_lift {A} (r : exn + A) : only_trace (lift_result r).
Proof. by intros w. Qed.

Lemma only_trace_emit ev : only_trace (emit ev).
Proof. by intros w. Qed.

Lemma only_trace_bind {A B} (m : M World A) (k : A -> M World B) :
  only_trace m -> (forall a, only_trace (k a)) -> only_trace (bind m k).
Proof.
  intros Hm Hk w. unfold bind. specialize (Hm w).
  destruct (m w) as [[e|a] w']; [exact Hm|].
  specialize (Hk a w'). cbn in Hm. destruct Hm as [<- <-]. exact Hk.
Qed.

Lemma only_trace_try {A} (m : M World A) hs :
  only_trace m -> Forall (fun ch => forall e, only_trace (snd ch e)) hs ->
  only_trace (try_ m hs).
Proof.
  intros Hm Hhs w. unfold try_. specialize (Hm w).
  destruct (m w) as [[e|a] w']; [|exact Hm].
  cbn in Hm. destruct Hm as [<- <-].
  induction Hhs as [|[c h] hs Hh _ IH]; cbn [find_handler]; [done|].
  destruct (isinstance e c); [apply Hh|apply IH].
Qed.

Lemma only_trace_log_at levelno method log msg :
  only_trace (Log.log_at levelno method log msg).
Proof.
  unfold Log.log_at. destruct (Log.logger log);
    [apply only_trace_emit|apply only_trace_raise].
Qed.

Lemma only_trace_post req : only_trace (Notify.post req).
Proof.
  unfold Notify.post. apply only_trace_bind; [apply only_trace_emit|].
  intros _. destruct (requests_post req);
    [apply only_trace_raise|apply only_trace_ret].
Qed.

Lemma only_trace_open name : only_trace (builtin_open name).
Proof.
  unfold builtin_open.
  destruct (fs name); (apply only_trace_raise || apply only_trace_ret).
Qed.

Lemma only_trace_send log mkreq message fileName :
  only_trace (send log mkreq message fileName).
Proof.
  assert (Hh : Forall (fun ch : exc_class * (exn -> M World unit) =>
                         forall e, only_trace (snd ch e))
                 [(Exception, fun e => Log.log_error log (MsgExc e) ;; raise e)]).
  { constructor; [|constructor]. intros e. cbn.
    apply only_trace_bind; [apply only_trace_log_at|].
    intros _. apply only_trace_raise. }
  destruct fileName as [name|]; cbn [send]; apply only_trace_try; try exact Hh.
  - apply only_trace_bind; [apply only_trace_open|].
    intros f. apply only_trace_post.
  - apply only_trace_bind; [apply only_trace_post|].
    intros _. apply only_trace_log_at.
Qed.

Lemma only_trace_statusNotify self message fileName :
  only_trace (Notify.statusNotify self message fileName).
Proof.
  unfold Notify.statusNotify. destruct (is_None _).
  - unfold Notify.lineNotify.
    apply only_trace_bind; [apply only_trace_lift|]. intros token.
    apply only_trace_bind; [apply only_trace_lift|]. intros bearer.
    apply (only_trace_send (Notify.base self)
             (fun files => {| url := PStr Notify.line_api;
                              data := [("message", message)];
                              headers := [("Authorization", bearer)];
                              files := files |})).
  - rewrite discordNotify_send. apply only_trace_send.
Qed.

Lemma only_trace_write r record : only_trace (Logfile.write_row_by_dict r record).
Proof.
  intros w. unfold Logfile.write_row_by_dict, bind, get.
  destruct (heap w !! r); [|done]. by destruct (append_row _).
Qed.

(** [get_or_create_order_history_file] along its branches. *)
Lemma get_or_create_eq today self w :
  BotBase.get_or_create_order_history_file today (self, w) =
  match day_path self today with
  | None =>
      (inl (Exn TypeError "unsupported operand type(s) for +"), (self, w))
  | Some full_path =>
      match dict_get (BotBase.order_history_files self) today with
      | Some r => (inr r, (self, w))
      | None =>
          let r := length (heap w) in
          let o := fresh_resource self full_path in
          let self' := BotBase.set_order_history_files (dict_set today r) self in
          let w' := set_heap (fun h => (h ++ [o])%list) w in
          match create_file full_path with
          | Some e => (inl e, (self', w'))
          | None =>
              (inr r,
               (self',
                record (EvFileCreated full_path (BotBase.columns self))
                  (set_heap (fun h => <[r := Logfile.set_handle Opened o]> h) w')))
          end
      end
  end.
Proof.
  unfold BotBase.get_or_create_order_history_file, day_path.
  unfold bind at 1, get_self at 1. cbn [fst snd].
  unfold bind at 1, lift_result at 1, add_str.
  destruct (BotBase.order_history_dir self) as [| | | |dir| |]; try reflexivity.
  unfold dict_contains.
  destruct (dict_get (BotBase.order_history_files self) today) as [r|] eqn:Hget.
  - cbn [negb]. unfold bind, ret, get_self, lift_result, dict_getitem. cbn [fst snd].
    by rewrite Hget.
  - cbn [negb].
    cbv beta iota zeta delta
      [bind ret get_self set_self modify lift_result dict_getitem liftW
       Logfile.new Logfile.open get emit raise fst snd
       BotBase.order_history_files BotBase.set_order_history_files heap set_heap].
    rewrite dict_get_set_eq.
    rewrite lookup_app_r by lia. rewrite Nat.sub_diag.
    cbv beta iota zeta delta [lookup list_lookup oh_path oh_columns fresh_resource].
    destruct (create_file _); [reflexivity|].
    cbv beta iota zeta delta
      [fst snd BotBase.order_history_files BotBase.set_order_history_files].
    by rewrite dict_get_set_eq.
Qed.

Lemma day_path_same a b today :
  same_bot a b -> day_path b today = day_path a today.
Proof. intros (_ & Hdir & _ & Hbase). unfold day_path. by rewrite Hdir, Hbase. Qed.

(** The path of a day determines the day. *)
Lemma day_path_inj self d1 d2 p :
  day_path self d1 = Some p -> day_path self d2 = Some p -> d1 = d2.
Proof.
  unfold day_path. destruct (BotBase.order_history_dir self); try done.
  intros [= <-] [= Heq].
  do 3 apply (inj (String.append _)) in Heq.
  by apply string_app_inj_r in Heq.
Qed.

Lemma same_bot_refl a : same_bot a a.
Proof. by repeat split. Qed.

Lemma same_bot_trans a b c : same_bot a b -> same_bot b c -> same_bot a c.
Proof.
  intros (?&?&?&?) (?&?&?&?). repeat split; congruence.
Qed.

(** The invariant looks at the paths of the resources only, and at
    nothing else of the world. *)
Lemma files_ok_paths h0 self self' w w' :
  files_ok h0 (self, w) ->
  same_bot self self' ->
  BotBase.order_history_files self' = BotBase.order_history_files self ->
  length (heap w') = length (heap w) ->
  (forall i o, heap w !! i = Some o ->
               exists o', heap w' !! i = Some o' /\ oh_path o' = oh_path o) ->
  files_ok h0 (self', w').
Proof.
  intros [Hpath Hinj Hall Hold Hkeys] Hsame Hfiles Hlen Hheap.
  cbn [fst snd] in *. split; cbn [fst snd]; rewrite ?Hfiles, ?Hlen; try done.
  intros d r Hd. destruct (Hpath d r Hd) as (Hr & o & Ho & Hp).
  split; [done|]. destruct (Hheap r o Ho) as (o' & Ho' & Hp').
  exists o'. split; [done|]. by rewrite (day_path_same self), Hp'.
Qed.

Lemma files_ok_frame h0 self w w' :
  files_ok h0 (self, w) -> heap w' = heap w -> files_ok h0 (self, w').
Proof.
  intros Hok Hheap.
  apply (files_ok_paths h0 self self w w'); auto using same_bot_refl.
  - by rewrite Hheap.
  - intros i o Ho. exists o. by rewrite Hheap.
Qed.

(** Registering a new day with a new resource. *)
Lemma files_ok_register h0 self w today full_path o :
  files_ok h0 (self, w) ->
  day_path self today = Some full_path ->
  dict_get (BotBase.order_history_files self) today = None ->
  oh_path o = full_path ->
  files_ok h0
    (BotBase.set_order_history_files (dict_set today (length (heap w))) self,
     set_heap (fun h => (h ++ [o])%list) w).
Proof.
  intros [Hpath Hinj Hall Hold Hkeys] Hday Hnone Ho. cbn [fst snd] in *.
  assert (Hfresh : forall d, dict_get (BotBase.order_history_files self) d
                             ≠ Some (length (heap w))).
  { intros d Hd. destruct (Hpath d _ Hd) as (_ & o' & Ho' & _).
    apply lookup_lt_Some in Ho'. lia. }
  split; cbn [fst snd BotBase.order_history_files BotBase.set_order_history_files
              heap set_heap].
  - intros d r Hd. destruct (decide (today = d)) as [<-|Hne].
    + rewrite dict_get_set_eq in Hd. simplify_eq. split; [done|].
      exists o. split; [by rewrite lookup_app_r, Nat.sub_diag by lia|].
      exact Hday.
    + rewrite dict_get_set_ne in Hd by done.
      destruct (Hpath d r Hd) as (Hr & o' & Ho' & Hp). split; [done|].
      exists o'. split; [|done]. rewrite lookup_app_l; [done|].
      by apply lookup_lt_Some in Ho'.
  - intros d1 d2 r Hd1 Hd2.
    destruct (decide (today = d1)) as [<-|Hne1],
             (decide (today = d2)) as [<-|Hne2]; try done.
    + rewrite dict_get_set_eq in Hd1. rewrite dict_get_set_ne in Hd2 by done.
      simplify_eq. by apply Hfresh in Hd2.
    + rewrite dict_get_set_eq in Hd2. rewrite dict_get_set_ne in Hd1 by done.
      simplify_eq. by apply Hfresh in Hd1.
    + rewrite dict_get_set_ne in Hd1, Hd2 by done. eauto.
  - intros r Hr. rewrite length_app in Hr. cbn in Hr.
    destruct (decide (r = length (heap w))) as [->|Hne].
    + exists today. apply dict_get_set_eq.
    + destruct (Hall r) as [d Hd]; [lia|]. exists d.
      rewrite dict_get_set_ne; [done|]. intros <-. congruence.
  - rewrite length_app. lia.
  - rewrite dict_set_new by done. rewrite fmap_app. cbn.
    apply NoDup_app. split; [done|]. split; [|apply NoDup_singleton].
    intros k Hk ->%list_elem_of_singleton. by apply dict_get_None in Hnone.
Qed.

(** One call of [get_or_create_order_history_file] keeps the invariant
    and the registrations there are; what it returns is registered for
    the day, and the day is registered whenever the directory is a
    [str]. *)
Lemma get_or_create_ok h0 today s :
  files_ok h0 s ->
  let res := fst (BotBase.get_or_create_order_history_file today s) in
  let s' := snd (BotBase.get_or_create_order_history_file today s) in
  files_ok h0 s'
  /\ same_bot (fst s) (fst s')
  /\ (forall d r, dict_get (BotBase.order_history_files (fst s)) d = Some r ->
                  dict_get (BotBase.order_history_files (fst s')) d = Some r)
  /\ (forall r, res = inr r ->
                dict_get (BotBase.order_history_files (fst s')) today = Some r)
  /\ (is_Some (day_path (fst s) today) ->
      is_Some (dict_get (BotBase.order_history_files (fst s')) today)).
Proof.
  destruct s as [self w]. intros Hok. rewrite get_or_create_eq. cbn [fst snd].
  destruct (day_path self today) as [full_path|] eqn:Hday.
  2:{ cbn [fst snd]. refine (conj Hok (conj (same_bot_refl _) (conj _ (conj _ _)))).
      - done.
      - done.
      - by intros []. }
  destruct (dict_get (BotBase.order_history_files self) today) as [r|] eqn:Hget.
  { cbn [fst snd]. refine (conj Hok (conj (same_bot_refl _) (conj _ (conj _ _)))).
    - done.
    - by intros r' [= <-].
    - by rewrite Hget. }
  cbn zeta.
  pose proof (files_ok_register h0 self w today full_path
                (fresh_resource self full_path) Hok Hday Hget eq_refl) as Hreg.
  assert (Hmono : forall d r,
    dict_get (BotBase.order_history_files self) d = Some r ->
    dict_get (dict_set today (length (heap w)) (BotBase.order_history_files self)) d
    = Some r).
  { intros d r Hd. rewrite dict_get_set_ne; [done|]. intros <-. congruence. }
  destruct (create_file full_path) as [e|]; cbn [fst snd];
    cbn [BotBase.order_history_files BotBase.set_order_history_files].
  - refine (conj Hreg (conj _ (conj Hmono (conj _ _)))).
    + by repeat split.
    + done.
    + by rewrite dict_get_set_eq.
  - refine (conj _ (conj _ (conj Hmono (conj _ _)))).
    + eapply files_ok_paths; [exact Hreg|apply same_bot_refl|done| |].
      * cbn [heap record set_heap]. by rewrite length_insert.
      * cbn [heap record set_heap]. intros i o Hi.
        destruct (decide (i = length (heap w))) as [->|Hne].
        -- rewrite lookup_app_r, Nat.sub_diag in Hi by lia. cbn in Hi. simplify_eq.
           exists (Logfile.set_handle Opened (fresh_resource self full_path)).
           split; [|reflexivity].
           apply list_lookup_insert_eq. rewrite length_app. cbn. lia.
        -- exists o. by rewrite list_lookup_insert_ne.
    + by repeat split.
    + intros r [= <-]. by rewrite dict_get_set_eq.
    + by rewrite dict_get_set_eq.
Qed.

Lemma closed_idemp o : closed (closed o) = closed o.
Proof. unfold closed. by destruct o as [p c []]. Qed.

Lemma closed_path o : oh_path (closed o) = oh_path o.
Proof. unfold closed. by destruct o as [p c []]. Qed.

Lemma closed_not_open o : oh_handle (closed o) ≠ Opened.
Proof. unfold closed. by destruct o as [p c []]. Qed.

Lemma close_spec r w o :
  heap w !! r = Some o ->
  exists w',
    Logfile.close r w = (inr tt, w')
    /\ heap w' = <[r := closed o]> (heap w).
Proof.
  intros Ho. unfold Logfile.close, bind, get. rewrite Ho. unfold closed.
  destruct (oh_handle o) eqn:Hh.
  - exists w. split; [done|]. by rewrite list_insert_id.
  - eexists. split; [reflexivity|]. reflexivity.
  - exists w. split; [done|]. by rewrite list_insert_id.
Qed.

(** Closing the resources of a list one after the other: the bot is not
    touched, and of the heap only the handles of these resources. *)
Lemma close_each rs (self : BotBase.t) w :
  (forall r, r ∈ rs -> is_Some (heap w !! r)) ->
  exists w',
    for_each rs (fun r => liftW (Logfile.close r)) (self, w) = (inr tt, (self, w'))
    /\ length (heap w') = length (heap w)
    /\ forall i, heap w' !! i
                 = if bool_decide (i ∈ rs) then closed <$> heap w !! i
                   else heap w !! i.
Proof.
  revert w. induction rs as [|r rs IH]; intros w Hvalid.
  - exists w. split; [done|]. split; [done|]. intros i.
    rewrite bool_decide_eq_false_2; [done|]. apply not_elem_of_nil.
  - destruct (Hvalid r) as [o Ho]; [left|].
    destruct (close_spec r w o Ho) as (w1 & Hclose & Hheap1).
    destruct (IH w1) as (w' & Hrest & Hlen & Hlook).
    { intros r' Hr'. rewrite Hheap1. apply lookup_lt_is_Some.
      rewrite length_insert. apply lookup_lt_is_Some, Hvalid. by right. }
    exists w'. split; [|split].
    + cbn [for_each]. unfold bind at 1, liftW at 1. cbn [fst snd].
      rewrite Hclose. exact Hrest.
    + by rewrite Hlen, Hheap1, length_insert.
    + intros i. rewrite Hlook, Hheap1.
      destruct (decide (i = r)) as [->|Hne].
      * rewrite list_lookup_insert_eq by (by apply lookup_lt_Some in Ho).
        rewrite Ho. rewrite (bool_decide_eq_true_2 (r ∈ r :: rs)) by left.
        destruct (bool_decide (r ∈ rs)); cbn; by rewrite ?closed_idemp.
      * rewrite list_lookup_insert_ne by done.
        assert (Hiff : i ∈ r :: rs <-> i ∈ rs).
        { rewrite elem_of_cons. tauto. }
        by rewrite (bool_decide_ext _ _ Hiff).
Qed.


Lemma keeps_frame h0 self w w' :
  files_ok h0 (self, w) -> heap w' = heap w -> keeps h0 (self, w) (self, w').
Proof.
  intros Hok Hheap. split; [by eapply files_ok_frame|].
  split; [apply same_bot_refl|done].
Qed.

Lemma registered_valid h0 s r :
  files_ok h0 s -> r ∈ dict_values (BotBase.order_history_files (fst s)) ->
  is_Some (heap (snd s) !! r).
Proof.
  intros Hok [d Hd]%dict_values_elem.
  apply dict_elem_get in Hd; [|apply (ok_keys _ _ Hok)].
  destruct (ok_path _ _ Hok d r Hd) as (_ & o & Ho & _). by exists o.
Qed.

(** Closing the files of a bot whose registry is in order. *)
Lemma close_files_ok h0 s :
  files_ok h0 s ->
  exists w',
    BotBase.close_order_history_files s = (inr tt, (fst s, w'))
    /\ length (heap w') = length (heap (snd s))
    /\ forall d r,
         dict_get (BotBase.order_history_files (fst s)) d = Some r ->
         heap w' !! r = closed <$> heap (snd s) !! r.
Proof.
  destruct s as [self w]. intros Hok. cbn [fst snd].
  destruct (close_each (dict_values (BotBase.order_history_files self)) self w)
    as (w' & Hrun & Hlen & Hlook).
  { intros r Hr. by apply (registered_valid h0 (self, w)). }
  exists w'. split; [|split; [done|]].
  - unfold BotBase.close_order_history_files, bind, get_self. cbn [fst snd]. exact Hrun.
  - intros d r Hd. rewrite Hlook. rewrite bool_decide_eq_true_2; [done|].
    apply dict_values_elem. exists d. by apply dict_get_elem.
Qed.

Lemma close_files_keeps h0 s :
  files_ok h0 s -> keeps h0 s (snd (BotBase.close_order_history_files s)).
Proof.
  intros Hok. destruct (close_each (dict_values (BotBase.order_history_files (fst s)))
                          (fst s) (snd s)) as (w' & Hrun & Hlen & Hlook).
  { intros r Hr. by apply (registered_valid h0 s). }
  destruct s as [self w]. cbn [fst snd] in *.
  unfold BotBase.close_order_history_files, bind, get_self. cbn [fst snd].
  rewrite Hrun. cbn [snd]. split; [|split; [apply same_bot_refl|done]].
  eapply files_ok_paths; [exact Hok|apply same_bot_refl|done|done|].
  intros i o Ho. rewrite Hlook, Ho.
  destruct (bool_decide _); cbn; eauto using closed_path.
Qed.

Lemma do_call_keeps h0 c s :
  files_ok h0 s -> keeps h0 s (snd (BotBase.do_call c s)).
Proof.
  intros Hok. destruct c as [today record|today| |message fileName|];
    cbn [BotBase.do_call].
  - unfold BotBase.write_order_history, bind.
    pose proof (get_or_create_ok h0 today s Hok) as (Hok' & Hsame & Hmono & _).
    destruct (BotBase.get_or_create_order_history_file today s) as [[e|r] [self' w']];
      cbn [fst snd] in *; [done|].
    unfold liftW. cbn [fst snd].
    pose proof (only_trace_write r record w') as [_ Hheap].
    destruct (Logfile.write_row_by_dict r record w') as [res w'']. cbn [fst snd] in *.
    split; [by eapply files_ok_frame|done].
  - unfold BotBase.discard, bind.
    pose proof (get_or_create_ok h0 today s Hok) as (Hok' & Hsame & Hmono & _).
    by destruct (BotBase.get_or_create_order_history_file today s) as [[e|r] s'].
  - by apply close_files_keeps.
  - destruct s as [self w]. unfold bind, get_self, liftW. cbn [fst snd].
    pose proof (only_trace_statusNotify (BotBase.base self) message fileName w)
      as [_ Hheap].
    destruct (Notify.statusNotify _ _ _ w) as [res w']. cbn [fst snd] in *.
    by apply keeps_frame.
  - destruct s as [self w].
    unfold BotBase.stop, bind, set_self, modify, get_self, liftW. cbn [fst snd].
    pose proof (only_trace_log_at Logging.INFO "info"
                  (BotBase.log_of (BotBase.set_stop_flag true self))
                  (MsgStr "Logic threads has been stopped.") w) as [_ Hheap].
    unfold Log.log_info.
    destruct (Log.log_at _ _ _ _ w) as [res w']. cbn [fst snd] in *.
    split; [|split; [by repeat split|done]].
    eapply files_ok_paths; [exact Hok|by repeat split|done|by rewrite Hheap|].
    intros i o Ho. exists o. by rewrite Hheap.
Qed.

Lemma keeps_trans h0 s1 s2 s3 : keeps h0 s1 s2 -> keeps h0 s2 s3 -> keeps h0 s1 s3.
Proof.
  intros (_ & Hs1 & Hm1) (Hok & Hs2 & Hm2).
  split; [done|]. split; [by eapply same_bot_trans|auto].
Qed.

(** Every sequence of calls keeps the registry in order. *)
Lemma run_keeps h0 cs s : files_ok h0 s -> keeps h0 s (BotBase.run cs s).
Proof.
  revert s. induction cs as [|c cs IH]; intros s Hok; cbn [BotBase.run].
  - split; [done|]. split; [apply same_bot_refl|done].
  - pose proof (do_call_keeps h0 c s Hok) as Hstep.
    eapply keeps_trans; [exact Hstep|]. apply IH, Hstep.
Qed.

Lemma run_app cs1 cs2 s :
  BotBase.run (cs1 ++ cs2) s = BotBase.run cs2 (BotBase.run cs1 s).
Proof. revert s. induction cs1 as [|c cs1 IH]; intros s; cbn; [done|apply IH]. Qed.

(** What a constructed bot holds. *)
Lemma bot_init_inv path w0 bot w1 :
  BotBase.__init__ path w0 = (inr bot, w1) ->
  exists d,
    Log.config (BotBase.log_of bot) = PDict d
    /\ BotBase.order_history_dir bot = default (PStr "log") (d !! "log_dir")
    /\ BotBase.order_history_file_name_base bot
       = fmt (default (PStr "Exchange") (d !! "exchange_name")) +:+ "_"
         +:+ fmt (default (PStr "Bot") (d !! "bot_name")) +:+ "_order_history"
    /\ BotBase.order_history_files bot = [].
Proof.
  unfold BotBase.__init__. unfold bind at 1.
  destruct (Notify.__init__ path w0) as [[e|notify] w] eqn:Hinit; [done|].
  apply notify_init_inv in Hinit as (d & Hbase & _).
  rewrite Hbase. cbn [Log.config Log.set_logger log_of_config].
  unfold bind at 1. rewrite config_key_or_default. unfold ret.
  intros [= <- <-]. exists d. unfold BotBase.log_of. cbn. by rewrite Hbase.
Qed.

Lemma bot_init_ok path w0 bot w1 :
  BotBase.__init__ path w0 = (inr bot, w1) ->
  files_ok (length (heap w1)) (bot, w1).
Proof.
  intros (d & _ & _ & _ & Hfiles)%bot_init_inv.
  split; cbn [fst snd]; rewrite ?Hfiles; cbn; try done.
  - intros r Hr. lia.
  - apply NoDup_nil_2.
Qed.

Lemma write_registers h0 today record s :
  files_ok h0 s -> is_Some (day_path (fst s) today) ->
  is_Some (dict_get
             (BotBase.order_history_files
                (fst (snd (BotBase.do_call (BotBase.CallWrite today record) s)))) today).
Proof.
  intros Hok Hday. cbn [BotBase.do_call]. unfold BotBase.write_order_history, bind.
  pose proof (get_or_create_ok h0 today s Hok) as (_ & _ & _ & _ & Hreg).
  specialize (Hreg Hday).
  destruct (BotBase.get_or_create_order_history_file today s) as [[e|r] [self' w']];
    cbn [fst snd] in *; [done|].
  unfold liftW. cbn [fst snd]. by destruct (Logfile.write_row_by_dict r record w').
Qed.

(** C2. Along every sequence of calls on a constructed bot there is at
    most one order-history resource per day: two resources made since
    the construction that carry the path of the same day are one and the
    same, and every resource made is registered under a day.
    [get_or_create_order_history_file] returns the registered resource
    of a registered day and changes nothing; for a day that is not
    registered it makes one new resource, registers it under the day and
    opens it (when the file cannot be created the exception propagates
    and the resource stays registered, not opened). Writes on two
    distinct days leave two distinct resources with two distinct
    paths. *)
Theorem one_resource_per_day path w0 bot w1 cs :
  BotBase.__init__ path w0 = (inr bot, w1) ->
  let s := BotBase.run cs (bot, w1) in
  let registry := BotBase.order_history_files (fst s) in
  let made r := (length (heap w1) <= r < length (heap (snd s)))%nat in
  (forall today r1 r2 o1 o2,
     made r1 -> made r2 ->
     heap (snd s) !! r1 = Some o1 -> heap (snd s) !! r2 = Some o2 ->
     day_path (fst s) today = Some (oh_path o1) ->
     day_path (fst s) today = Some (oh_path o2) ->
     r1 = r2)
  /\ (forall r, made r -> exists today, dict_get registry today = Some r)
  /\ (forall today r,
        dict_get registry today = Some r ->
        BotBase.get_or_create_order_history_file today s = (inr r, s))
  /\ (forall today full_path,
        dict_get registry today = None ->
        day_path (fst s) today = Some full_path ->
        let res := fst (BotBase.get_or_create_order_history_file today s) in
        let s' := snd (BotBase.get_or_create_order_history_file today s) in
        let r := length (heap (snd s)) in
        BotBase.order_history_files (fst s') = (registry ++ [(today, r)])%list
        /\ exists o,
             heap (snd s') = (heap (snd s) ++ [o])%list
             /\ oh_path o = full_path
             /\ match create_file full_path with
                | None => res = inr r /\ oh_handle o = Opened
                | Some e => res = inl e /\ oh_handle o = NotOpened
                end)
  /\ (forall d1 d2 record1 record2 dir,
        d1 <> d2 -> BotBase.order_history_dir bot = PStr dir ->
        let s2 := BotBase.run (cs ++ [BotBase.CallWrite d1 record1;
                                      BotBase.CallWrite d2 record2]) (bot, w1) in
        exists r1 r2 o1 o2,
          dict_get (BotBase.order_history_files (fst s2)) d1 = Some r1
          /\ dict_get (BotBase.order_history_files (fst s2)) d2 = Some r2
          /\ heap (snd s2) !! r1 = Some o1 /\ heap (snd s2) !! r2 = Some o2
          /\ r1 <> r2 /\ oh_path o1 <> oh_path o2).
Proof.
  intros Hinit s registry made.
  pose proof (bot_init_ok _ _ _ _ Hinit) as Hok0.
  pose proof (run_keeps _ cs _ Hok0) as (Hok & Hsame & _). fold s in Hok, Hsame.
  assert (Hreg : forall r o today,
    made r -> heap (snd s) !! r = Some o ->
    day_path (fst s) today = Some (oh_path o) ->
    dict_get registry today = Some r).
  { intros r o today Hr Ho Hday.
    destruct (ok_all _ _ Hok r Hr) as [d Hd].
    destruct (ok_path _ _ Hok d r Hd) as (_ & o' & Ho' & Hday').
    simplify_eq. by rewrite (day_path_inj _ _ _ _ Hday Hday'). }
  split; [|split; [|split; [|split]]].
  - intros today r1 r2 o1 o2 Hr1 Hr2 Ho1 Ho2 Hd1 Hd2.
    pose proof (Hreg _ _ _ Hr1 Ho1 Hd1). pose proof (Hreg _ _ _ Hr2 Ho2 Hd2).
    congruence.
  - intros r Hr. by apply (ok_all _ _ Hok).
  - intros today r Hd. destruct s as [self w]. rewrite get_or_create_eq.
    destruct (ok_path _ _ Hok today r Hd) as (_ & o & _ & Hp).
    subst registry. cbn [fst] in Hd, Hp. by rewrite Hp, Hd.
  - intros today full_path Hd Hday. destruct s as [self w].
    subst registry. cbn [fst snd] in *.
    rewrite get_or_create_eq, Hday, Hd. cbn zeta.
    destruct (create_file full_path) as [e|];
      cbn [fst snd BotBase.order_history_files BotBase.set_order_history_files
           heap set_heap record].
    + split; [by apply dict_set_new|]. by eexists.
    + split; [by apply dict_set_new|].
      exists (Logfile.set_handle Opened (fresh_resource self full_path)).
      split; [|done].
      rewrite insert_app_r_alt by lia. by rewrite Nat.sub_diag.
  - intros d1 d2 record1 record2 dir Hne Hdir s2.
    assert (Hday : forall self today, same_bot bot self -> is_Some (day_path self today)).
    { intros self today (_ & Hd & _). unfold day_path. rewrite <- Hd, Hdir. by eexists. }
    subst s2. rewrite run_app. fold s. cbn [BotBase.run].
    set (sa := snd (BotBase.do_call (BotBase.CallWrite d1 record1) s)).
    set (sb := snd (BotBase.do_call (BotBase.CallWrite d2 record2) sa)).
    pose proof (do_call_keeps _ (BotBase.CallWrite d1 record1) s Hok)
      as (Hoka & Hsa & _). fold sa in Hoka, Hsa.
    pose proof (do_call_keeps _ (BotBase.CallWrite d2 record2) sa Hoka)
      as (Hokb & Hsb & Hmono). fold sb in Hokb, Hsb, Hmono.
    destruct (write_registers _ d1 record1 s Hok) as [r1 Hr1]; [by apply Hday|].
    fold sa in Hr1. apply Hmono in Hr1.
    destruct (write_registers _ d2 record2 sa Hoka) as [r2 Hr2].
    { apply Hday. by eapply same_bot_trans. }
    fold sb in Hr2.
    destruct (ok_path _ _ Hokb d1 r1 Hr1) as (_ & o1 & Ho1 & Hp1).
    destruct (ok_path _ _ Hokb d2 r2 Hr2) as (_ & o2 & Ho2 & Hp2).
    exists r1, r2, o1, o2. repeat split; try done.
    + intros <-. by apply Hne, (ok_inj _ _ Hokb d1 d2 r1).
    + intros Heq. rewrite <- Heq in Hp2. by apply Hne, (day_path_inj _ _ _ _ Hp1 Hp2).
Qed.


(** C7. For every day string, the resource that
    [get_or_create_order_history_file] returns has the path
    [{log_dir}/{exchange_name}_{bot_name}_order_history_{yymmdd}.csv],
    the three names being those of the configuration or their defaults.
    With a [log_dir] that is a [str] the day has such a resource after
    the call, and it is what the call returns unless the file had to be
    created and its creation raised. *)
Theorem order_history_file_path path w0 bot w1 cs today :
  BotBase.__init__ path w0 = (inr bot, w1) ->
  exists d,
    Log.config (BotBase.log_of bot) = PDict d
    /\ let log_dir := default (PStr "log") (d !! "log_dir") in
       let exchange_name := fmt (default (PStr "Exchange") (d !! "exchange_name")) in
       let bot_name := fmt (default (PStr "Bot") (d !! "bot_name")) in
       let expected dir :=
         dir +:+ "/" +:+ exchange_name +:+ "_" +:+ bot_name
           +:+ "_order_history_" +:+ today +:+ ".csv" in
       let s := BotBase.run cs (bot, w1) in
       let res := fst (BotBase.get_or_create_order_history_file today s) in
       let s' := snd (BotBase.get_or_create_order_history_file today s) in
       (forall r,
          res = inr r ->
          exists dir o,
            log_dir = PStr dir /\ heap (snd s') !! r = Some o
            /\ oh_path o = expected dir)
       /\ (forall dir,
             log_dir = PStr dir ->
             exists r o,
               dict_get (BotBase.order_history_files (fst s')) today = Some r
               /\ heap (snd s') !! r = Some o
               /\ oh_path o = expected dir
               /\ (res = inr r
                   \/ exists e,
                        res = inl e /\ create_file (expected dir) = Some e
                        /\ dict_get (BotBase.order_history_files (fst s)) today
                           = None)).
Proof.
  intros Hinit.
  pose proof (bot_init_ok _ _ _ _ Hinit) as Hok0.
  destruct (bot_init_inv _ _ _ _ Hinit) as (d & Hcfg & Hdir & Hbase & _).
  exists d. split; [done|]. intros log_dir exchange_name bot_name expected s res s'.
  pose proof (run_keeps _ cs _ Hok0) as (Hok & Hsame & _). fold s in Hok, Hsame.
  cbn [fst] in Hsame.
  assert (Hstr : forall dir,
    log_dir = PStr dir ->
    exists r o,
      dict_get (BotBase.order_history_files (fst s')) today = Some r
      /\ heap (snd s') !! r = Some o
      /\ oh_path o = expected dir
      /\ (res = inr r
          \/ exists e,
               res = inl e /\ create_file (expected dir) = Some e
               /\ dict_get (BotBase.order_history_files (fst s)) today = None)).
  { intros dir Hd.
    assert (Hday : day_path (fst s) today = Some (expected dir)).
    { rewrite (day_path_same bot) by done. unfold day_path.
      fold log_dir in Hdir. rewrite Hdir, Hd, Hbase. f_equal.
      subst expected exchange_name bot_name. by rewrite !string_app_assoc. }
    pose proof (get_or_create_ok _ today s Hok) as (Hok' & Hsame' & _ & Hres & Hreg).
    fold res s' in Hok', Hsame', Hres, Hreg.
    destruct Hreg as [r Hr]; [by rewrite Hday|].
    destruct (ok_path _ _ Hok' today r Hr) as (_ & o & Ho & Hp).
    rewrite (day_path_same (fst s)), Hday in Hp by done.
    exists r, o. split; [done|]. split; [done|]. split; [congruence|].
    subst res s'. clear Hok' Hsame' Ho. revert Hres Hr. destruct s as [self w].
    cbn [fst snd] in *. rewrite get_or_create_eq, Hday.
    destruct (dict_get (BotBase.order_history_files self) today) as [r'|] eqn:Hget.
    { cbn [fst snd]. intros Hres Hr. left. congruence. }
    cbn zeta. destruct (create_file (expected dir)) as [e|]; cbn [fst snd].
    - intros _ _. right. by exists e.
    - cbn [BotBase.order_history_files BotBase.set_order_history_files].
      rewrite dict_get_set_eq. intros _ Hr. left. congruence. }
  split; [|exact Hstr].
  intros r Hres.
  assert (Hday : is_Some (day_path (fst s) today)).
  { subst res. destruct s as [self w]. rewrite get_or_create_eq in Hres.
    cbn [fst]. by destruct (day_path self today). }
  destruct Hsame as (_ & Hsd & _). unfold day_path in Hday.
  rewrite <- Hsd, Hdir in Hday. fold log_dir in Hday.
  assert (exists dir, log_dir = PStr dir) as [dir Hld].
  { destruct log_dir; try (by destruct Hday). by eexists. }
  destruct (Hstr dir Hld) as (r0 & o & _ & Ho & Hp & [Hr|(e & He & _)]).
  - exists dir, o. split; [done|]. split; [|done]. congruence.
  - congruence.
Qed.

(** C10. [close_order_history_files] returns with the bot as it was, so
    with the same registry; of a registered resource it changes the
    handle only, which is closed if it was open. A later
    [get_or_create_order_history_file] on a registered day returns that
    same resource and changes nothing: no resource is made and none is
    opened again. *)
Theorem close_keeps_registry path w0 bot w1 cs :
  BotBase.__init__ path w0 = (inr bot, w1) ->
  let s := BotBase.run cs (bot, w1) in
  exists w',
    BotBase.close_order_history_files s = (inr tt, (fst s, w'))
    /\ forall today r,
         dict_get (BotBase.order_history_files (fst s)) today = Some r ->
         (exists o o',
            heap (snd s) !! r = Some o /\ heap w' !! r = Some o'
            /\ oh_path o' = oh_path o
            /\ oh_handle o' = match oh_handle o with
                              | Opened => Closed
                              | h => h
                              end)
         /\ BotBase.get_or_create_order_history_file today (fst s, w')
            = (inr r, (fst s, w')).
Proof.
  intros Hinit s.
  pose proof (bot_init_ok _ _ _ _ Hinit) as Hok0.
  pose proof (run_keeps _ cs _ Hok0) as (Hok & _). fold s in Hok.
  destruct (close_files_ok _ s Hok) as (w' & Hclose & _ & Hlook).
  exists w'. split; [done|]. intros today r Hd.
  destruct (ok_path _ _ Hok today r Hd) as (_ & o & Ho & Hp). split.
  - exists o, (closed o). rewrite (Hlook _ _ Hd), Ho.
    split; [done|]. split; [done|]. split; [apply closed_path|].
    unfold closed. destruct o as [p c []]; reflexivity.
  - by rewrite get_or_create_eq, Hp, Hd.
Qed.
End OrderHistoryFiles.

(* ================================================================== *)
(** * The properties on the example configuration *)

(** The two failures, on a path that does not exist and on a file whose
    text does not decode. *)
Lemma config_load_failures_witness :
  let rt := example_runtime None None in
  @fs rt "missing.json" = Absent
  /\ (exists e,
        Log.__init__ (H := rt) "missing.json" fresh_world
        = (inl e, record (EvStderr "[ERROR] Config file is not found.") fresh_world)
        /\ exc_type e = FileNotFoundError)
  /\ @fs rt "config.json" = Regular "configuration"
  /\ @json_loads rt "configuration" = None
  /\ (exists e,
        Log.__init__ (H := rt) "config.json" fresh_world
        = (inl e, record (EvStderr "[ERROR] Json file is invalid.") fresh_world)
        /\ isinstance e ValueError = true).
Proof.
  intros rt.
  destruct (config_load_failures (H := rt) "missing.json" fresh_world) as [Hmissing _].
  destruct (config_load_failures (H := rt) "config.json" fresh_world) as [_ Hbad].
  split; [reflexivity|]. split; [apply Hmissing; reflexivity|].
  split; [reflexivity|]. split; [reflexivity|].
  apply (Hbad "configuration"); reflexivity.
Defined.

(** The example configuration names the exchange and the bot and leaves
    the level and the directory to their defaults. *)
Lemma config_defaults_witness :
  let rt := example_runtime (Some example_config) None in
  @fs rt "config.json" = Regular "configuration"
  /\ @json_loads rt "configuration" = Some (PDict example_dict)
  /\ exists self,
       Log.__init__ (H := rt) "config.json" fresh_world = (inr self, fresh_world)
       /\ Log.exchange_name self = PStr "Acme"
       /\ Log.bot_name self = PStr "Trader"
       /\ Log.log_level self = PStr "DEBUG"
       /\ Log.log_dir self = PStr "log".
Proof.
  intros rt. split; [reflexivity|]. split; [reflexivity|].
  destruct (config_defaults (H := rt) "config.json" fresh_world "configuration"
              example_dict eq_refl eq_refl) as (self & Hinit & He & Hb & Hl & Hd).
  exists self. split; [exact Hinit|].
  split; [exact He|]. split; [exact Hb|]. split; [exact Hl|exact Hd].
Defined.

(** Two calls where nothing has a handler yet: one console sink. *)
Lemma initialize_logger_once_witness :
  let rt := example_runtime (Some empty_config) None in
  let lg := NamedLogger "Exchange_Bot" in
  let w2 := snd (initialize_times (H := rt) 2 (log_of_config ∅, fresh_world)) in
  Log.logger (log_of_config ∅) = None
  /\ reaches_handlers fresh_world lg = false
  /\ console_sinks w2 lg = 1%nat
  /\ (file_sinks w2 lg <= 1)%nat.
Proof.
  intros rt lg w2. split; [reflexivity|]. split; [reflexivity|].
  destruct (initialize_logger_once (H := rt) (log_of_config ∅) fresh_world eq_refl)
    as (_ & _ & _ & _ & _ & Hfresh).
  destruct (Hfresh eq_refl 10 eq_refl 1%nat) as (Hc & Hf & _).
  split; [exact Hc|exact Hf].
Defined.

(** The example configuration has a webhook: the message goes to it. *)
Lemma statusNotify_routes_witness :
  let rt := example_runtime (Some example_config) None in
  let w := example_world rt in
  Notify.__init__ (H := rt) "config.json" fresh_world = (inr example_notifier, w)
  /\ posts (events_since w
              (snd (Notify.statusNotify (H := rt) example_notifier "hello" None w)))
     = [discord_request (PStr "https://discord/x") "hello" []].
Proof.
  intros rt w.
  assert (Hinit : Notify.__init__ (H := rt) "config.json" fresh_world
                  = (inr example_notifier, w)) by (vm_compute; reflexivity).
  split; [exact Hinit|].
  destruct (statusNotify_routes (H := rt) _ _ _ _ "hello" None w Hinit)
    as (d & Hcfg & Hdiscord & _).
  injection Hcfg as <-.
  destruct (Hdiscord (PStr "https://discord/x")) as [_ Hsent];
    [reflexivity|discriminate|].
  exact Hsent.
Defined.

(** On a network that refuses the connection, the Discord path logs the
    exception and raises it. *)
Lemma transport_failure_witness :
  let rt := example_runtime (Some example_config) (Some connection_refused) in
  let w := example_world rt in
  let req := discord_request (PStr "https://discord/x") "hello" [] in
  Notify.__init__ (H := rt) "config.json" fresh_world = (inr example_notifier, w)
  /\ isinstance connection_refused Exception = true
  /\ Notify.discordNotify (H := rt) example_notifier "hello" None w
     = (inl connection_refused,
        record (EvLog (NamedLogger "Acme_Trader") Logging.ERROR
                  (MsgExc connection_refused))
          (record (EvPost req) w)).
Proof.
  intros rt w req.
  assert (Hinit : Notify.__init__ (H := rt) "config.json" fresh_world
                  = (inr example_notifier, w)) by (vm_compute; reflexivity).
  split; [exact Hinit|]. split; [reflexivity|].
  destruct (transport_failure_logged_and_raised (H := rt) _ _ _ _ "hello" None []
              connection_refused w Hinit eq_refl eq_refl)
    as (lg & Hlg & _ & Hdiscord).
  injection Hlg as <-. apply Hdiscord. reflexivity.
Defined.

(** A message with an attached chart. *)
Lemma discordNotify_payload_witness :
  let rt := example_runtime (Some example_config) None in
  @fs rt "chart.png" = Regular "PNG"
  /\ posts (events_since fresh_world
              (snd (Notify.discordNotify (H := rt) example_notifier "hello"
                      (Some "chart.png") fresh_world)))
     = [{| url := PStr "https://discord/x"; data := [("content", " hello ")];
           headers := []; files := [("imageFile", "PNG")] |}].
Proof.
  intros rt. split; [reflexivity|].
  destruct (discordNotify_payload (H := rt) example_notifier "hello"
              (Some "chart.png") fresh_world) as [_ Hattached].
  exact (Hattached "chart.png" "PNG" eq_refl eq_refl).
Defined.

(** The empty configuration has no channel. *)
Lemma statusNotify_without_channel_witness :
  let rt := example_runtime (Some empty_config) None in
  let w := example_world rt in
  Notify.__init__ (H := rt) "config.json" fresh_world = (inr bare_notifier, w)
  /\ exists e,
       Notify.statusNotify (H := rt) bare_notifier "hello" None w = (inl e, w)
       /\ exc_type e = AttributeError.
Proof.
  intros rt w.
  assert (Hinit : Notify.__init__ (H := rt) "config.json" fresh_world
                  = (inr bare_notifier, w)) by (vm_compute; reflexivity).
  split; [exact Hinit|].
  destruct (statusNotify_without_channel (H := rt) _ _ _ _ ∅ "hello" None w
              Hinit eq_refl eq_refl eq_refl) as (e & Hrun & Htype & _).
  exists e. split; [exact Hrun|exact Htype].
Defined.

(** Two writes across midnight. *)
Lemma one_resource_per_day_witness :
  let rt := example_runtime (Some example_config) None in
  let w := example_world rt in
  BotBase.__init__ (H := rt) "config.json" fresh_world = (inr example_bot, w)
  /\ let s2 := BotBase.run (H := rt)
                 [BotBase.CallWrite "230101" ∅; BotBase.CallWrite "230102" ∅]
                 (example_bot, w) in
     exists r1 r2 o1 o2,
       dict_get (BotBase.order_history_files (fst s2)) "230101" = Some r1
       /\ dict_get (BotBase.order_history_files (fst s2)) "230102" = Some r2
       /\ heap (snd s2) !! r1 = Some o1 /\ heap (snd s2) !! r2 = Some o2
       /\ r1 <> r2 /\ oh_path o1 <> oh_path o2.
Proof.
  intros rt w.
  assert (Hinit : BotBase.__init__ (H := rt) "config.json" fresh_world
                  = (inr example_bot, w)) by (vm_compute; reflexivity).
  split; [exact Hinit|].
  destruct (one_resource_per_day (H := rt) _ _ _ _ [] Hinit) as (_ & _ & _ & _ & Htwo).
  apply (Htwo "230101" "230102" ∅ ∅ "log"); [discriminate|reflexivity].
Defined.

(** The file of 15 June 2023 for exchange Acme and bot Trader. *)
Lemma order_history_file_path_witness :
  let rt := example_runtime (Some example_config) None in
  let w := example_world rt in
  BotBase.__init__ (H := rt) "config.json" fresh_world = (inr example_bot, w)
  /\ let s' := snd (BotBase.get_or_create_order_history_file (H := rt) "230615"
                      (example_bot, w)) in
     exists r o,
       dict_get (BotBase.order_history_files (fst s')) "230615" = Some r
       /\ heap (snd s') !! r = Some o
       /\ oh_path o = "log/Acme_Trader_order_history_230615.csv".
Proof.
  intros rt w.
  assert (Hinit : BotBase.__init__ (H := rt) "config.json" fresh_world
                  = (inr example_bot, w)) by (vm_compute; reflexivity).
  split; [exact Hinit|].
  destruct (order_history_file_path (H := rt) _ _ _ _ [] "230615" Hinit)
    as (d & Hcfg & _ & Hstr).
  injection Hcfg as <-.
  destruct (Hstr "log" eq_refl) as (r & o & Hr & Ho & Hp & _).
  exists r, o. split; [exact Hr|]. split; [exact Ho|exact Hp].
Defined.

(** A write, then closing, then asking for the same day again. *)
Lemma close_keeps_registry_witness :
  let rt := example_runtime (Some example_config) None in
  let w := example_world rt in
  BotBase.__init__ (H := rt) "config.json" fresh_world = (inr example_bot, w)
  /\ let s := BotBase.run (H := rt) [BotBase.CallWrite "230101" ∅] (example_bot, w) in
     exists w',
       BotBase.close_order_history_files s = (inr tt, (fst s, w'))
       /\ BotBase.get_or_create_order_history_file (H := rt) "230101" (fst s, w')
          = (inr 0%nat, (fst s, w')).
Proof.
  intros rt w.
  assert (Hinit : BotBase.__init__ (H := rt) "config.json" fresh_world
                  = (inr example_bot, w)) by (vm_compute; reflexivity).
  split; [exact Hinit|]. intros s.
  destruct (close_keeps_registry (H := rt) _ _ _ _ [BotBase.CallWrite "230101" ∅] Hinit)
    as (w' & Hclose & Hreg).
  exists w'. split; [exact Hclose|].
  apply (Hreg "230101" 0%nat). vm_compute. reflexivity.
Defined.

(* ================================================================== *)
(** * Further properties *)

(** ** The configuration and the logging methods *)

Section FurtherLog.
Context `{Runtime}.

(** X1. Only a missing file and invalid JSON have a diagnostic: when the
    path is a directory or may not be read, the [OSError] of [open]
    matches neither [except] clause and leaves the constructor with
    nothing printed. *)
Theorem load_unreadable_is_silent path w :
  (fs path = Directory ->
   exists e, Log.__init__ path w = (inl e, w) /\ exc_type e = IsADirectoryError)
  /\ (fs path = Forbidden ->
      exists e, Log.__init__ path w = (inl e, w) /\ exc_type e = PermissionError).
Proof.
  split; intros Hfs; eexists;
    (split; [unfold Log.__init__, bind, try_, builtin_open; by rewrite Hfs|]);
    reflexivity.
Qed.

(** X2. An instance that [Log.__init__] has made has no logger yet: each of
    the five logging methods raises [AttributeError] on it and leaves the
    world as it was. *)
Theorem log_methods_need_a_logger path w0 self w1 message w :
  Log.__init__ path w0 = (inr self, w1) ->
  Forall (fun lm : Z * (Log.t -> log_msg -> M World unit) =>
            exists e, snd lm self message w = (inl e, w)
                      /\ exc_type e = AttributeError)
         log_methods.
Proof.
  intros (content & d & _ & _ & -> & _)%load_inv.
  unfold log_methods. repeat constructor; by eexists.
Qed.

(** X3. On a constructed notifier each of the five logging methods returns
    and adds exactly one record, for the logger named
    [{exchange_name}_{bot_name}], at its level: 40 for [log_error] and
    [log_exception], 30 for [log_warning], 20 for [log_info], 10 for
    [log_debug]. Nothing else of the world changes. *)
Theorem log_methods_record path w0 self w1 message w :
  Notify.__init__ path w0 = (inr self, w1) ->
  let lg := logger_named (Log.logger_name (Notify.base self)) in
  Forall (fun lm : Z * (Log.t -> log_msg -> M World unit) =>
            snd lm (Notify.base self) message w
            = (inr tt, record (EvLog lg (fst lm) message) w))
         log_methods.
Proof.
  intros Hlg%constructed_logger lg. unfold log_methods.
  repeat constructor; cbn [fst snd];
    unfold Log.log_error, Log.log_exception, Log.log_warning, Log.log_info,
      Log.log_debug, Log.log_at; by rewrite Hlg.
Qed.
End FurtherLog.

(** ** More on the initialisation of the logger *)

Section FurtherLogger.
Context `{Runtime}.

Lemma level_of_attach lg h w : level_of (attach lg h w) lg = level_of w lg.
Proof.
  unfold level_of, attach. cbn [logging set_logging]. rewrite lookup_update.
  by destruct (Logging.lookup_logger (logging w) lg).
Qed.

Lemma level_of_logging lg w w' : logging w' = logging w -> level_of w' lg = level_of w lg.
Proof. unfold level_of. by intros ->. Qed.

Lemma level_of_set lg lv w :
  is_Some (Logging.lookup_logger (logging w) lg) ->
  level_of (set_logging (Logging.update_logger lg (Logging.with_level lv)) w) lg
  = Some lv.
Proof.
  intros [l Hl]. unfold level_of. cbn [logging set_logging].
  by rewrite lookup_update, Hl.
Qed.

(** X4. With a level [setLevel] accepts, the first call sets the level of
    the named logger to it, whether it goes on to attach handlers or not:
    a logger that other instances share and that has its handlers already
    still has its level overwritten. *)
Theorem initialize_sets_level self w lv :
  Log.logger self = None ->
  Logging._checkLevel (Log.log_level self) = inr lv ->
  level_of (snd (snd (Log._initialize_logger (self, w))))
           (logger_named (Log.logger_name self))
  = Some lv.
Proof.
  intros Hlg Hlv. rewrite initialize_first by done. rewrite Hlv. cbn zeta.
  set (lg := logger_named (Log.logger_name self)).
  pose proof (lookup_getLogger (Log.logger_name self) w) as Hex. cbn zeta in Hex.
  fold lg in Hex. apply mk_is_Some in Hex.
  set (w2 := set_logging _ _).
  assert (Hl2 : level_of w2 lg = Some lv) by (by apply level_of_set).
  assert (Hl3 : level_of (attach lg (stream_sink lv) w2) lg = Some lv)
    by (by rewrite level_of_attach).
  destruct (reaches_handlers w2 lg); [done|].
  destruct (truthy (Log.log_dir self)); [|done].
  destruct (Log.log_dir self) as [| | | |dir| |]; try done.
  assert (Hmk : forall w4 : World,
    logging w4 = logging (attach lg (stream_sink lv) w2) ->
    level_of w4 lg = Some lv
    /\ level_of (attach lg (file_sink dir (Log.logger_name self) lv) w4) lg = Some lv).
  { intros w4 Hw4. rewrite level_of_attach, (level_of_logging _ _ _ Hw4). done. }
  destruct (os_path_exists dir); cbn [negb].
  - destruct (Hmk _ eq_refl) as [Ha Hb]. by destruct (open_log_file _).
  - pose proof (mkdir_logging dir (attach lg (stream_sink lv) w2)) as Hmkdir.
    destruct (Log.mkdir dir _) as [[e|[]] w4]; cbn [snd] in *;
      destruct (Hmk _ Hmkdir) as [Ha Hb]; [done|].
    by destruct (open_log_file _).
Qed.

(** What a notifier that has been constructed was made from. *)
Lemma notify_init_world path w self w' :
  Notify.__init__ path w = (inr self, w') ->
  exists d,
    self = notifier_of d
    /\ Log.__init__ path w = (inr (log_of_config d), w)
    /\ Log._initialize_logger (log_of_config d, w) = (inr tt, (Notify.base self, w')).
Proof.
  unfold Notify.__init__. unfold bind at 1.
  destruct (Log.__init__ path w) as [[e|log0] w0] eqn:Hload; [discriminate|].
  apply load_inv in Hload as (content & d & _ & _ & -> & ->).
  unfold bind at 1, with_self.
  pose proof (initialize_sets_logger (log_of_config d) w eq_refl) as Hlg.
  destruct (Log._initialize_logger (log_of_config d, w)) as [[e|[]] [log1 w1]]
    eqn:Hrun; [discriminate|].
  cbn in Hlg. subst log1. cbn [snd Log.config Log.set_logger log_of_config].
  unfold bind at 1. rewrite token_or_unset.
  unfold bind at 1. rewrite config_key_or_default.
  intros Heq. exists d. unfold ret in Heq. by simplify_eq.
Qed.
End FurtherLogger.

Section FurtherLogger2.
Context `{Runtime}.

Lemma getLogger_trace name w : trace (snd (Logging.getLogger name w)) = trace w.
Proof. rewrite getLogger_eq. cbn [snd]. by destruct (logger_named name). Qed.

(** X5. A log level that [logging] does not know makes [setLevel] raise
    [ValueError] inside [_initialize_logger], so neither a notifier nor a
    bot can be constructed from such a configuration; by then the logger
    exists, but no handler has been attached and nothing has been
    printed. *)
Theorem unknown_level_fails_construction path w content d s :
  fs path = Regular content -> json_loads content = Some (PDict d) ->
  d !! "log_level" = Some (PStr s) ->
  Logging.assoc s Logging._nameToLevel = None ->
  let lg := logger_named (Log.logger_name (log_of_config d)) in
  exists e w',
    Notify.__init__ path w = (inl e, w')
    /\ BotBase.__init__ path w = (inl e, w')
    /\ exc_type e = ValueError
    /\ handlers_of w' lg = handlers_of w lg
    /\ trace w' = trace w.
Proof.
  intros Hfs Hjs Hd Hs lg.
  assert (Hnotify : Notify.__init__ path w
    = (inl (Exn ValueError ("Unknown level: " +:+ s)),
       snd (Logging.getLogger (Log.logger_name (log_of_config d)) w))).
  { unfold Notify.__init__. unfold bind at 1. rewrite (load_dict _ _ content d) by done.
    unfold bind at 1, with_self. rewrite initialize_first by done.
    cbn [Log.log_level log_of_config]. rewrite Hd. cbn [default from_option id].
    unfold Logging._checkLevel. by rewrite Hs. }
  do 2 eexists. split; [exact Hnotify|].
  split; [unfold BotBase.__init__, bind; by rewrite Hnotify|].
  split; [done|]. split; [apply handlers_of_getLogger|apply getLogger_trace].
Qed.

Lemma events_since_same w w' : trace w' = trace w -> events_since w w' = [].
Proof. intros Heq. apply events_since_app. by rewrite app_nil_r. Qed.

Lemma prepared_facts self lv w :
  let lg := logger_named (Log.logger_name self) in
  reaches_handlers (prepared self lv w) lg = reaches_handlers w lg
  /\ handlers_of (prepared self lv w) lg = handlers_of w lg
  /\ is_Some (Logging.lookup_logger (logging (prepared self lv w)) lg)
  /\ trace (prepared self lv w) = trace w.
Proof.
  intros lg. subst lg. unfold prepared.
  split; [apply reaches_handlers_prepared|].
  split; [by rewrite handlers_of_level, handlers_of_getLogger|].
  split; [|apply getLogger_trace].
  apply lookup_some_update.
  pose proof (lookup_getLogger (Log.logger_name self) w) as Hex.
  cbn zeta in Hex. by rewrite Hex.
Qed.

(** X6. Where neither the named logger nor a logger it propagates to has
    a handler, with a level [setLevel] accepts and a log directory that is
    a non-empty [str], the first call returns once it has attached the
    console sink and then the rotating file sink for
    [os.path.join(log_dir, "{exchange_name}_{bot_name}.log")], both at the
    configured level, the file rotating at 2 MiB with 3 backups; the
    directory is created first, and only when it does not exist. *)
Theorem initialize_attaches_sinks self w lv dir :
  Log.logger self = None ->
  Logging._checkLevel (Log.log_level self) = inr lv ->
  reaches_handlers w (logger_named (Log.logger_name self)) = false ->
  Log.log_dir self = PStr dir -> dir <> EmptyString ->
  (os_path_exists dir = false -> os_mkdir dir = None) ->
  open_log_file (os_path_join dir (Log.logger_name self +:+ ".log")) = None ->
  let r := Log._initialize_logger (self, w) in
  fst r = inr tt
  /\ handlers_of (snd (snd r)) (logger_named (Log.logger_name self))
     = [StreamHandler "[%(levelname)s] %(asctime)s : %(message)s"
          "%Y-%m-%d %H:%M:%S" lv;
        RotatingFileHandler (os_path_join dir (Log.logger_name self +:+ ".log"))
          2097152 3 "[%(levelname)s] %(asctime)s %(module)s: %(message)s"
          "%Y-%m-%d %H:%M:%S" lv]
  /\ events_since w (snd (snd r)) = if os_path_exists dir then [] else [EvMkdir dir].
Proof.
  intros Hlg Hlv Hreach Hdir Hne Hmkdir Hopen r. subst r.
  rewrite initialize_first by done. rewrite Hlv. cbn zeta.
  fold (prepared self lv w).
  destruct (prepared_facts self lv w) as (Hr & Hh & Hex & Htr).
  set (lg := logger_named (Log.logger_name self)) in *.
  rewrite Hr, Hreach, Hdir.
  assert (truthy (PStr dir) = true) as ->.
  { cbn. by apply negb_true_iff, String.eqb_neq. }
  rewrite Hopen.
  pose proof (reaches_handlers_none _ _ Hreach) as Hnone.
  set (w3 := attach lg (stream_sink lv) (prepared self lv w)).
  assert (Hh3 : handlers_of w3 lg = [stream_sink lv])
    by (subst w3; by rewrite handlers_of_attach, Hh, Hnone).
  assert (Hex3 : is_Some (Logging.lookup_logger (logging w3) lg))
    by (by apply lookup_some_update).
  destruct (os_path_exists dir); cbn [negb fst snd].
  - split; [done|]. split.
    + by rewrite handlers_of_attach, Hh3.
    + by apply events_since_same.
  - unfold Log.mkdir. rewrite Hmkdir by done. cbn [emit modify fst snd].
    split; [done|]. split.
    + rewrite handlers_of_attach by done. unfold handlers_of in *. cbn [logging record].
      by rewrite Hh3.
    + apply events_since_app. unfold w3, attach, prepared in *.
      cbn [trace set_logging record] in *. by rewrite Htr.
Qed.

(** X7. When the directory cannot be created, or the log file cannot be
    opened, the exception leaves [_initialize_logger] after the console
    sink has been attached: the named logger keeps that one handler, and
    since the instance has its logger by then, no later call attaches the
    file sink. *)
Theorem initialize_directory_failure self w lv dir e :
  Log.logger self = None ->
  Logging._checkLevel (Log.log_level self) = inr lv ->
  reaches_handlers w (logger_named (Log.logger_name self)) = false ->
  Log.log_dir self = PStr dir -> dir <> EmptyString ->
  (os_path_exists dir = false /\ os_mkdir dir = Some e)
  \/ ((os_path_exists dir = false -> os_mkdir dir = None)
      /\ open_log_file (os_path_join dir (Log.logger_name self +:+ ".log")) = Some e) ->
  let r := Log._initialize_logger (self, w) in
  fst r = inl e
  /\ handlers_of (snd (snd r)) (logger_named (Log.logger_name self))
     = [StreamHandler "[%(levelname)s] %(asctime)s : %(message)s"
          "%Y-%m-%d %H:%M:%S" lv]
  /\ Log._initialize_logger (snd r) = (inr tt, snd r).
Proof.
  intros Hlg Hlv Hreach Hdir Hne Hfail r.
  assert (Hagain : Log._initialize_logger (snd r) = (inr tt, snd r)).
  { pose proof (initialize_sets_logger self w Hlg) as Hset. fold r in Hset.
    destruct (snd r) as [self1 w1]. cbn [fst] in Hset. subst self1.
    by eapply initialize_again. }
  split; [|split; [|exact Hagain]]; clear Hagain; subst r.
  all: rewrite initialize_first by done; rewrite Hlv; cbn zeta.
  all: fold (prepared self lv w).
  all: destruct (prepared_facts self lv w) as (Hr & Hh & Hex & Htr).
  all: set (lg := logger_named (Log.logger_name self)) in *.
  all: rewrite Hr, Hreach, Hdir.
  all: assert (truthy (PStr dir) = true) as ->
         by (cbn; by apply negb_true_iff, String.eqb_neq).
  all: pose proof (reaches_handlers_none _ _ Hreach) as Hnone.
  all: set (w3 := attach lg (stream_sink lv) (prepared self lv w)).
  all: assert (Hh3 : handlers_of w3 lg = [stream_sink lv])
         by (subst w3; by rewrite handlers_of_attach, Hh, Hnone).
  all: destruct Hfail as [[Hexists Hmkdir]|[Hmkdir Hopen]].
  - rewrite Hexists. cbn [negb]. unfold Log.mkdir. by rewrite Hmkdir.
  - rewrite Hopen. destruct (os_path_exists dir); cbn [negb]; [done|].
    unfold Log.mkdir. by rewrite Hmkdir.
  - rewrite Hexists. cbn [negb]. unfold Log.mkdir. by rewrite Hmkdir.
  - rewrite Hopen. destruct (os_path_exists dir); cbn [negb fst snd]; [done|].
    unfold Log.mkdir. rewrite Hmkdir by done. cbn [emit modify fst snd].
    unfold handlers_of in *. cbn [logging record]. by rewrite Hh3.
Qed.

(** X8. With a log directory that is false (the empty string, null, 0,
    false) the first call attaches the console sink only and touches no
    file or directory: it adds no event at all. *)
Theorem initialize_without_log_dir self w lv :
  Log.logger self = None ->
  Logging._checkLevel (Log.log_level self) = inr lv ->
  reaches_handlers w (logger_named (Log.logger_name self)) = false ->
  truthy (Log.log_dir self) = false ->
  let r := Log._initialize_logger (self, w) in
  fst r = inr tt
  /\ handlers_of (snd (snd r)) (logger_named (Log.logger_name self))
     = [StreamHandler "[%(levelname)s] %(asctime)s : %(message)s"
          "%Y-%m-%d %H:%M:%S" lv]
  /\ events_since w (snd (snd r)) = [].
Proof.
  intros Hlg Hlv Hreach Hfalsy r. subst r.
  rewrite initialize_first by done. rewrite Hlv. cbn zeta.
  fold (prepared self lv w).
  destruct (prepared_facts self lv w) as (Hr & Hh & Hex & Htr).
  set (lg := logger_named (Log.logger_name self)) in *.
  rewrite Hr, Hreach, Hfalsy. cbn [fst snd].
  pose proof (reaches_handlers_none _ _ Hreach) as Hnone.
  split; [done|]. split.
  - by rewrite handlers_of_attach, Hh, Hnone.
  - by apply events_since_same.
Qed.
End FurtherLogger2.

Section FurtherLogger3.
Context `{Runtime}.

Lemma reaches_handlers_logging lg w w' :
  logging w' = logging w -> reaches_handlers w' lg = reaches_handlers w lg.
Proof. unfold reaches_handlers. by intros ->. Qed.

Lemma reaches_handlers_attach lg h w :
  is_Some (Logging.lookup_logger (logging w) lg) ->
  reaches_handlers (attach lg h w) lg = true.
Proof.
  intros [l Hl]. unfold reaches_handlers, attach. cbn [logging set_logging].
  destruct lg as [|name]; cbn in *.
  - by destruct (lg_handlers (root (logging w))).
  - rewrite lookup_alter_eq, Hl. cbn. by destruct (lg_handlers l).
Qed.

(** Once a first call has returned, [hasHandlers] is true of the named
    logger. *)
Lemma initialized_reaches self w self' w' :
  Log.logger self = None ->
  Log._initialize_logger (self, w) = (inr tt, (self', w')) ->
  reaches_handlers w' (logger_named (Log.logger_name self)) = true.
Proof.
  intros Hlg. rewrite initialize_first by done.
  destruct (Logging._checkLevel (Log.log_level self)) as [e|lv]; [done|].
  cbn zeta. fold (prepared self lv w).
  destruct (prepared_facts self lv w) as (_ & _ & Hex & _).
  set (lg := logger_named (Log.logger_name self)) in *.
  destruct (reaches_handlers (prepared self lv w) lg) eqn:Hreach.
  { by intros [= _ <-]. }
  set (w3 := attach lg (stream_sink lv) (prepared self lv w)).
  assert (Hex3 : is_Some (Logging.lookup_logger (logging w3) lg))
    by (by apply lookup_some_update).
  destruct (truthy (Log.log_dir self)).
  2:{ intros [= _ <-]. by apply reaches_handlers_attach. }
  destruct (Log.log_dir self) as [| | | |dir| |]; try done.
  pose proof (mkdir_logging dir w3) as Hmk.
  destruct (if negb (os_path_exists dir) then Log.mkdir dir w3 else (inr tt, w3))
    as [[e|[]] w4] eqn:Hstep; [done|].
  assert (Hw4 : logging w4 = logging w3).
  { destruct (os_path_exists dir); cbn [negb] in Hstep.
    - by injection Hstep as <-.
    - rewrite Hstep in Hmk. exact Hmk. }
  destruct (open_log_file _); [done|]. intros [= _ <-].
  apply reaches_handlers_attach. by rewrite Hw4.
Qed.

(** X9. Once a notifier has been constructed, constructing another one
    for the same exchange and bot names attaches no handler to the logger
    they share and creates no directory: the second construction adds no
    event. *)
Theorem second_instance_attaches_nothing path1 path2 w0 n1 w1 n2 w2 :
  Notify.__init__ path1 w0 = (inr n1, w1) ->
  Notify.__init__ path2 w1 = (inr n2, w2) ->
  Log.logger_name (Notify.base n2) = Log.logger_name (Notify.base n1) ->
  handlers_of w2 (logger_named (Log.logger_name (Notify.base n1)))
  = handlers_of w1 (logger_named (Log.logger_name (Notify.base n1)))
  /\ events_since w1 w2 = [].
Proof.
  intros (d1 & -> & _ & Hrun1)%notify_init_world
         (d2 & -> & _ & Hrun2)%notify_init_world Hname.
  change (Log.logger_name (Notify.base (notifier_of d1)))
    with (Log.logger_name (log_of_config d1)) in *.
  change (Log.logger_name (Notify.base (notifier_of d2)))
    with (Log.logger_name (log_of_config d2)) in *.
  apply initialized_reaches in Hrun1; [|done].
  rewrite <- Hname in *.
  rewrite initialize_first in Hrun2 by done.
  destruct (Logging._checkLevel (Log.log_level (log_of_config d2))) as [e|lv];
    [done|].
  cbn zeta in Hrun2. fold (prepared (log_of_config d2) lv w1) in Hrun2.
  destruct (prepared_facts (log_of_config d2) lv w1) as (Hr & Hh & _ & Htr).
  rewrite Hr, Hrun1 in Hrun2. injection Hrun2 as <-.
  split; [exact Hh|by apply events_since_same].
Qed.
End FurtherLogger3.

(** ** More on notifications *)

Section FurtherNotify.
Context `{Runtime}.

(** X10. With a token that is a [str], the LINE path posts to the LINE
    endpoint the form payload [message], with the header
    [Authorization: Bearer <token>]; without an attachment nothing else
    is sent, and with an attachment that can be read the bytes of the
    file go under [imageFile]. That request is the only one the call
    issues. *)
Theorem lineNotify_payload self token message fileName w :
  Notify.line_notify_token self = Some (PStr token) ->
  let sent := posts (events_since w (snd (Notify.lineNotify self message fileName w))) in
  (fileName = None ->
     sent = [{| url := PStr "https://notify-api.line.me/api/notify";
                data := [("message", message)];
                headers := [("Authorization", "Bearer " +:+ token)];
                files := [] |}])
  /\ (forall name bytes,
        fileName = Some name -> fs name = Regular bytes ->
        sent = [{| url := PStr "https://notify-api.line.me/api/notify";
                   data := [("message", message)];
                   headers := [("Authorization", "Bearer " +:+ token)];
                   files := [("imageFile", bytes)] |}]).
Proof.
  intros Htok sent. subst sent.
  rewrite (lineNotify_send _ token) by done. rewrite send_posts. split.
  - by intros ->.
  - intros name bytes -> Hfs. unfold attachment. by rewrite Hfs.
Qed.

Lemma send_success log lg mkreq message fileName files w :
  Log.logger log = Some lg ->
  attachment fileName = Some files ->
  requests_post (mkreq files) = None ->
  send log mkreq message fileName w
  = (inr tt,
     match fileName with
     | None => record (EvLog lg Logging.INFO (MsgStr message))
                 (record (EvPost (mkreq files)) w)
     | Some _ => record (EvPost (mkreq files)) w
     end).
Proof.
  intros Hlg Hatt Hpost.
  unfold send, attachment, try_, bind, builtin_open in *.
  destruct fileName as [name|].
  - destruct (fs name); simplify_eq. unfold ret. by rewrite post_eq, Hpost.
  - simplify_eq. rewrite post_eq, Hpost.
    unfold Log.log_info, Log.log_at. by rewrite Hlg.
Qed.

(** X11. A send that succeeds is logged at info level only when there is
    no attachment: on a constructed notifier, in the Discord path as in
    the LINE path, a message alone leaves the request and then the info
    record of the message, a message with an attachment leaves the
    request and no record. *)
Theorem success_is_logged_without_attachment path w0 self w1 message fileName files w :
  Notify.__init__ path w0 = (inr self, w1) ->
  attachment fileName = Some files ->
  let lg := logger_named (Log.logger_name (Notify.base self)) in
  let after req :=
    match fileName with
    | None => record (EvLog lg 20 (MsgStr message)) (record (EvPost req) w)
    | Some _ => record (EvPost req) w
    end in
  (requests_post (discord_request (Notify.discordWebhook self) message files) = None ->
   Notify.discordNotify self message fileName w
   = (inr tt, after (discord_request (Notify.discordWebhook self) message files)))
  /\ (forall token,
        Notify.line_notify_token self = Some (PStr token) ->
        requests_post (line_request token message files) = None ->
        Notify.lineNotify self message fileName w
        = (inr tt, after (line_request token message files))).
Proof.
  intros Hlg%constructed_logger Hatt lg after. subst after. split.
  - intros Hpost. rewrite discordNotify_send.
    by rewrite (send_success _ lg _ _ _ files).
  - intros token Htok Hpost. rewrite (lineNotify_send _ token) by done.
    by rewrite (send_success _ lg _ _ _ files).
Qed.

Lemma send_unreadable log lg mkreq message name w :
  Log.logger log = Some lg ->
  (forall bytes, fs name <> Regular bytes) ->
  exists e,
    send log mkreq message (Some name) w
    = (inl e, record (EvLog lg Logging.ERROR (MsgExc e)) w)
    /\ isinstance e OSError = true.
Proof.
  intros Hlg Hfs. unfold send, try_, bind, builtin_open.
  destruct (fs name) as [|bytes| |]; try (by destruct (Hfs bytes));
    (eexists; split;
     [cbn [raise find_handler]; unfold Log.log_error, Log.log_at; rewrite Hlg;
      reflexivity
     |reflexivity]).
Qed.

(** X12. An attachment that cannot be opened (no such file, a directory,
    no permission) stops the send before any request: on a constructed
    notifier both paths log the [OSError] of [open] at error level and
    raise it, and that record is the only event. *)
Theorem unreadable_attachment_sends_nothing path w0 self w1 message name w :
  Notify.__init__ path w0 = (inr self, w1) ->
  (forall bytes, fs name <> Regular bytes) ->
  let lg := logger_named (Log.logger_name (Notify.base self)) in
  (exists e,
     Notify.discordNotify self message (Some name) w
     = (inl e, record (EvLog lg 40 (MsgExc e)) w)
     /\ isinstance e OSError = true)
  /\ (forall token,
        Notify.line_notify_token self = Some (PStr token) ->
        exists e,
          Notify.lineNotify self message (Some name) w
          = (inl e, record (EvLog lg 40 (MsgExc e)) w)
          /\ isinstance e OSError = true).
Proof.
  intros Hlg%constructed_logger Hfs lg. split.
  - rewrite discordNotify_send. by apply send_unreadable.
  - intros token Htok. rewrite (lineNotify_send _ token) by done.
    by apply send_unreadable.
Qed.

(** X13. The [except Exception] clauses do not catch what is not an
    [Exception]: when [requests.post] is left by a [KeyboardInterrupt] or
    another [BaseException], it propagates from either path with the
    request as the last event and nothing logged. *)
Theorem interrupt_is_not_logged self message fileName files e w :
  attachment fileName = Some files ->
  isinstance e Exception = false ->
  (requests_post (discord_request (Notify.discordWebhook self) message files) = Some e ->
   Notify.discordNotify self message fileName w
   = (inl e, record (EvPost (discord_request (Notify.discordWebhook self) message files)) w))
  /\ (forall token,
        Notify.line_notify_token self = Some (PStr token) ->
        requests_post (line_request token message files) = Some e ->
        Notify.lineNotify self message fileName w
        = (inl e, record (EvPost (line_request token message files)) w)).
Proof.
  intros Hatt Hexc.
  assert (Hsend : forall mkreq,
    requests_post (mkreq files) = Some e ->
    send (Notify.base self) mkreq message fileName w
    = (inl e, record (EvPost (mkreq files)) w)).
  { intros mkreq Hpost. unfold send, attachment, try_, bind, builtin_open in *.
    destruct fileName as [name|].
    - destruct (fs name); simplify_eq. unfold ret. rewrite post_eq, Hpost.
      cbn [find_handler]. by rewrite Hexc.
    - simplify_eq. rewrite post_eq, Hpost. cbn [find_handler]. by rewrite Hexc. }
  split.
  - intros Hpost. rewrite discordNotify_send. by apply Hsend.
  - intros token Htok Hpost. rewrite (lineNotify_send _ token) by done.
    by apply Hsend.
Qed.

(** X14. A LINE token that is not a [str] (a number in the configuration,
    say) makes the concatenation with ["Bearer "] raise [TypeError]
    outside the [try]: with no webhook, [statusNotify] raises it and
    leaves the world as it was, so no request is issued and nothing is
    logged. *)
Theorem non_str_token_raises self token message fileName w :
  Notify.discordWebhook self = PNone ->
  Notify.line_notify_token self = Some token ->
  (forall s, token <> PStr s) ->
  exists e,
    Notify.statusNotify self message fileName w = (inl e, w)
    /\ exc_type e = TypeError.
Proof.
  intros Hhook Htok Hne.
  unfold Notify.statusNotify, Notify.lineNotify, Notify.get_line_notify_token.
  rewrite Hhook, Htok. cbn [is_None]. unfold bind, lift_result, str_add.
  destruct token as [| | | |s| |]; try (by eexists). by destruct (Hne s).
Qed.

Lemma send_changes log mkreq message fileName w :
  exists evs,
    trace (snd (send log mkreq message fileName w)) = (trace w ++ evs)%list
    /\ (length evs <= 2)%nat.
Proof.
  unfold send, try_, bind, builtin_open, Log.log_info, Log.log_error,
    Log.log_at, Logging.log, emit, modify, raise, ret.
  destruct fileName as [name|].
  - destruct (fs name); cbn [find_handler];
      rewrite ?post_eq;
      repeat match goal with
        | |- context [isinstance ?e ?c] => destruct (isinstance e c)
        | |- context [requests_post ?r] => destruct (requests_post r)
        | |- context [Log.logger ?l] => destruct (Log.logger l)
        end;
      cbn [snd fst find_handler record trace];
      rewrite <- ?app_assoc;
      first [exists []; rewrite app_nil_r; split; [reflexivity|cbn; lia]
            |eexists; split; [reflexivity|cbn; lia]].
  - rewrite post_eq.
    destruct (requests_post _); cbn [find_handler];
      repeat match goal with
        | |- context [isinstance ?e ?c] => destruct (isinstance e c)
        | |- context [Log.logger ?l] => destruct (Log.logger l)
        end;
      cbn [snd fst find_handler];
      repeat match goal with
        | |- context [isinstance ?e ?c] => destruct (isinstance e c)
        end;
      cbn [snd fst find_handler record trace];
      rewrite <- ?app_assoc;
      first [exists []; rewrite app_nil_r; split; [reflexivity|cbn; lia]
            |eexists; split; [reflexivity|cbn; lia]].
Qed.

(** X15. Whatever the notifier, the message and the attachment, and
    whether it returns or raises, [statusNotify] only adds events to the
    trace: at most two, of which at most one is a request; the logging
    registry and the order-history resources are as before. *)
Theorem statusNotify_only_adds_events self message fileName w :
  let w' := snd (Notify.statusNotify self message fileName w) in
  logging w' = logging w
  /\ heap w' = heap w
  /\ exists evs,
       trace w' = (trace w ++ evs)%list
       /\ (length evs <= 2)%nat /\ (length (posts evs) <= 1)%nat.
Proof.
  intros w'. subst w'.
  destruct (only_trace_statusNotify self message fileName w) as [Hlog Hheap].
  split; [done|]. split; [done|].
  assert (Hsend : forall log mkreq,
    exists evs,
      trace (snd (send log mkreq message fileName w)) = (trace w ++ evs)%list
      /\ (length evs <= 2)%nat /\ (length (posts evs) <= 1)%nat).
  { intros log mkreq.
    destruct (send_changes log mkreq message fileName w) as (evs & Htr & Hlen).
    exists evs. split; [done|]. split; [done|].
    pose proof (send_posts log mkreq message fileName w) as Hposts.
    rewrite (events_since_app _ _ _ Htr) in Hposts. rewrite Hposts.
    destruct (attachment fileName); cbn; lia. }
  unfold Notify.statusNotify. destruct (is_None _).
  - unfold Notify.lineNotify, Notify.get_line_notify_token, bind, lift_result, str_add.
    destruct (Notify.line_notify_token self) as [[| | | |token| |]|];
      try (exists []; rewrite app_nil_r; cbn; split; [done|lia]).
    apply (Hsend (Notify.base self)
             (fun files => {| url := PStr Notify.line_api;
                              data := [("message", message)];
                              headers := [("Authorization", "Bearer " +:+ token)];
                              files := files |})).
  - rewrite discordNotify_send. apply Hsend.
Qed.
End FurtherNotify.

(** ** More on the bot and its order-history files *)

Section FurtherBot.
Context `{Runtime}.

Lemma bot_init_world path w bot w' :
  BotBase.__init__ path w = (inr bot, w') ->
  exists d, bot = bot_of d /\ Notify.__init__ path w = (inr (notifier_of d), w').
Proof.
  unfold BotBase.__init__. unfold bind at 1.
  destruct (Notify.__init__ path w) as [[e|notify] w1] eqn:Hinit; [done|].
  destruct (notify_init_world _ _ _ _ Hinit) as (d & -> & _).
  cbn [Notify.base notifier_of Log.config Log.set_logger log_of_config].
  unfold bind at 1. rewrite config_key_or_default. unfold ret.
  intros [= <- <-]. by exists d.
Qed.

(** X16. A bot that has been constructed is a notifier constructed from
    the same file, in the same world, with the stop flag down, no columns
    and no order-history file registered; its order-history directory is
    the log directory of its logger, and the base of its file names is the
    name of its logger followed by [_order_history]. *)
Theorem bot_construction path w0 bot w1 :
  BotBase.__init__ path w0 = (inr bot, w1) ->
  Notify.__init__ path w0 = (inr (BotBase.base bot), w1)
  /\ BotBase.stop_flag bot = false
  /\ BotBase.columns bot = []
  /\ BotBase.order_history_files bot = []
  /\ BotBase.order_history_dir bot = Log.log_dir (BotBase.log_of bot)
  /\ BotBase.order_history_file_name_base bot
     = Log.logger_name (BotBase.log_of bot) +:+ "_order_history".
Proof.
  intros (d & -> & Hinit)%bot_init_world.
  split; [done|]. split; [done|]. split; [done|]. split; [done|]. split; [done|].
  cbn. unfold Log.logger_name. cbn. by rewrite string_app_assoc.
Qed.

(** X17. [start] logs [Bot started.] only once the logic has returned: if
    the logic of a subclass raises, the exception leaves [start] and
    nothing is logged after it; if it returns, the info record follows
    what the logic did. On [BotBase] itself the logic raises
    [NotImplementedError], so [start] raises it and changes nothing. *)
Theorem start_logs_after_the_logic run_logic s :
  (forall e s', run_logic s = (inl e, s') -> start_of run_logic s = (inl e, s'))
  /\ (forall s' lg,
        run_logic s = (inr tt, s') ->
        Log.logger (BotBase.log_of (fst s')) = Some lg ->
        start_of run_logic s
        = (inr tt, (fst s', record (EvLog lg 20 (MsgStr "Bot started.")) (snd s'))))
  /\ (exists e, BotBase.start s = (inl e, s) /\ exc_type e = NotImplementedError).
Proof.
  split; [|split].
  - intros e s' Hrun. unfold start_of, bind. by rewrite Hrun.
  - intros [self' w'] lg Hrun Hlg. unfold start_of, bind. rewrite Hrun.
    unfold get_self, liftW, Log.log_info, Log.log_at. cbn [fst snd] in *.
    by rewrite Hlg.
  - by eexists.
Qed.

Lemma for_each_self {A} (rs : list A) (f : A -> M World unit) (self : BotBase.t) w :
  fst (snd (for_each rs (fun r => liftW (f r)) (self, w))) = self.
Proof.
  revert w. induction rs as [|r rs IH]; intros w; [done|].
  cbn [for_each]. unfold bind at 1, liftW at 1. cbn [fst snd].
  destruct (f r w) as [[e|[]] w']; [done|apply IH].
Qed.

Lemma get_or_create_stop_flag today s :
  BotBase.stop_flag (fst (snd (BotBase.get_or_create_order_history_file today s)))
  = BotBase.stop_flag (fst s).
Proof.
  destruct s as [self w]. rewrite get_or_create_eq.
  destruct (day_path self today); [|done].
  destruct (dict_get _ today); [done|]. cbn zeta.
  by destruct (create_file _).
Qed.

Lemma do_call_stop_flag c s :
  BotBase.stop_flag (fst (snd (BotBase.do_call c s)))
  = BotBase.stop_flag (fst s) || is_stop c.
Proof.
  destruct c as [today record|today| |message fileName|];
    cbn [BotBase.do_call is_stop]; rewrite ?orb_false_r.
  - unfold BotBase.write_order_history, bind.
    pose proof (get_or_create_stop_flag today s) as Hflag.
    destruct (BotBase.get_or_create_order_history_file today s) as [[e|r] [self' w']];
      [done|].
    unfold liftW. cbn [fst snd] in *.
    by destruct (Logfile.write_row_by_dict r record w').
  - unfold BotBase.discard, bind.
    pose proof (get_or_create_stop_flag today s) as Hflag.
    by destruct (BotBase.get_or_create_order_history_file today s) as [[e|r] s'].
  - destruct s as [self w].
    unfold BotBase.close_order_history_files, bind, get_self. cbn [fst snd].
    by rewrite for_each_self.
  - destruct s as [self w]. unfold bind, get_self, liftW. cbn [fst snd].
    by destruct (Notify.statusNotify _ _ _ w).
  - destruct s as [self w].
    unfold BotBase.stop, bind, set_self, modify, get_self, liftW. cbn [fst snd].
    rewrite orb_true_r. by destruct (Log.log_info _ _ w).
Qed.

(** X18. The stop flag is raised by [stop] and by nothing else, and
    nothing lowers it: after any sequence of calls it is up exactly when
    it was up before or [stop] is among the calls, whatever the calls
    returned or raised. *)
Theorem stop_flag_history cs s :
  BotBase.stop_flag (fst (BotBase.run cs s))
  = BotBase.stop_flag (fst s) || existsb is_stop cs.
Proof.
  revert s. induction cs as [|c cs IH]; intros s; cbn [BotBase.run existsb].
  - by rewrite orb_false_r.
  - by rewrite IH, do_call_stop_flag, orb_assoc.
Qed.

(** X19. On a constructed bot, after any sequence of calls, [stop] returns
    with the flag up and one info record added; it closes no
    order-history file and touches neither the registry nor the
    resources. *)
Theorem stop_only_flags path w0 bot w1 cs :
  BotBase.__init__ path w0 = (inr bot, w1) ->
  let s := BotBase.run cs (bot, w1) in
  let lg := logger_named (Log.logger_name (BotBase.log_of bot)) in
  BotBase.stop s
  = (inr tt,
     (BotBase.set_stop_flag true (fst s),
      record (EvLog lg 20 (MsgStr "Logic threads has been stopped.")) (snd s))).
Proof.
  intros Hinit s lg.
  pose proof (bot_init_ok _ _ _ _ Hinit) as Hok0.
  pose proof (run_keeps _ cs _ Hok0) as (_ & (Hbase & _) & _). fold s in Hbase.
  cbn [fst] in Hbase.
  destruct (bot_init_world _ _ _ _ Hinit) as (d & -> & _).
  destruct s as [self w].
  unfold BotBase.stop, bind, set_self, modify, get_self, liftW. cbn [fst snd] in *.
  unfold Log.log_info, Log.log_at, BotBase.log_of. cbn [BotBase.base BotBase.set_stop_flag].
  by rewrite <- Hbase.
Qed.
End FurtherBot.

Section FurtherFiles.
Context `{Runtime}.

Lemma get_or_create_changes today s :
  let s' := snd (BotBase.get_or_create_order_history_file today s) in
  (forall d r, dict_get (BotBase.order_history_files (fst s)) d = Some r ->
               dict_get (BotBase.order_history_files (fst s')) d = Some r)
  /\ (forall r o, heap (snd s) !! r = Some o -> heap (snd s') !! r = Some o)
  /\ BotBase.order_history_dir (fst s') = BotBase.order_history_dir (fst s)
  /\ (day_path (fst s) today = None -> s' = s).
Proof.
  destruct s as [self w]. rewrite get_or_create_eq. cbn [fst snd].
  destruct (day_path self today) as [p|]; [|done].
  destruct (dict_get (BotBase.order_history_files self) today) as [r0|] eqn:Hget;
    [done|].
  cbn zeta.
  assert (Hmono : forall d r,
    dict_get (BotBase.order_history_files self) d = Some r ->
    dict_get (dict_set today (length (heap w)) (BotBase.order_history_files self)) d
    = Some r).
  { intros d r Hd. rewrite dict_get_set_ne; [done|]. intros <-. congruence. }
  destruct (create_file p); cbn [fst snd BotBase.order_history_files
    BotBase.set_order_history_files BotBase.order_history_dir heap set_heap record].
  - split; [done|]. split; [|done]. intros r o Ho.
    rewrite lookup_app_l; [done|]. by apply lookup_lt_Some in Ho.
  - split; [done|]. split; [|done]. intros r o Ho.
    pose proof (lookup_lt_Some _ _ _ Ho).
    rewrite list_lookup_insert_ne by lia. by rewrite lookup_app_l.
Qed.

(** What every call leaves as it is: the registrations, the directory,
    and, unless it is [close_order_history_files], the resources. *)
Lemma do_call_changes c s :
  let s' := snd (BotBase.do_call c s) in
  (forall d r, dict_get (BotBase.order_history_files (fst s)) d = Some r ->
               dict_get (BotBase.order_history_files (fst s')) d = Some r)
  /\ BotBase.order_history_dir (fst s') = BotBase.order_history_dir (fst s)
  /\ (is_close c = false ->
      forall r o, heap (snd s) !! r = Some o -> heap (snd s') !! r = Some o)
  /\ ((forall dir, BotBase.order_history_dir (fst s) <> PStr dir) ->
      BotBase.order_history_files (fst s') = BotBase.order_history_files (fst s)).
Proof.
  assert (Hnodir : forall (self : BotBase.t) today,
    (forall dir, BotBase.order_history_dir self <> PStr dir) ->
    day_path self today = None).
  { intros self today Hdir. unfold day_path.
    destruct (BotBase.order_history_dir self) as [| | | |dir| |]; try done.
    by destruct (Hdir dir). }
  destruct c as [today record|today| |message fileName|]; cbn [BotBase.do_call is_close].
  - unfold BotBase.write_order_history, bind.
    pose proof (get_or_create_changes today s) as (Hmono & Hheap & Hdir & Hsame).
    cbn zeta in *.
    destruct (BotBase.get_or_create_order_history_file today s) as [[e|r] [self' w']];
      cbn [fst snd] in *.
    { split; [done|]. split; [done|]. split; [done|].
      intros Hd. by rewrite <- (Hsame (Hnodir _ _ Hd)). }
    unfold liftW. cbn [fst snd].
    pose proof (only_trace_write r record w') as [_ Hw].
    destruct (Logfile.write_row_by_dict r record w') as [res w'']. cbn [fst snd] in *.
    split; [done|]. split; [done|]. split; [by rewrite Hw|].
    intros Hd. by rewrite <- (Hsame (Hnodir _ _ Hd)).
  - unfold BotBase.discard, bind.
    pose proof (get_or_create_changes today s) as (Hmono & Hheap & Hdir & Hsame).
    cbn zeta in *.
    destruct (BotBase.get_or_create_order_history_file today s) as [[e|r] s'];
      cbn [fst snd] in *;
      (split; [done|]; split; [done|]; split; [done|];
       intros Hd; by rewrite <- (Hsame (Hnodir _ _ Hd))).
  - destruct s as [self w].
    unfold BotBase.close_order_history_files, bind, get_self. cbn [fst snd].
    by rewrite for_each_self.
  - destruct s as [self w]. unfold bind, get_self, liftW. cbn [fst snd].
    pose proof (only_trace_statusNotify (BotBase.base self) message fileName w)
      as [_ Hw].
    destruct (Notify.statusNotify _ _ _ w) as [res w']. cbn [fst snd] in *.
    by rewrite Hw.
  - destruct s as [self w].
    unfold BotBase.stop, bind, set_self, modify, get_self, liftW. cbn [fst snd].
    pose proof (only_trace_log_at Logging.INFO "info"
                  (BotBase.log_of (BotBase.set_stop_flag true self))
                  (MsgStr "Logic threads has been stopped.") w) as [_ Hw].
    unfold Log.log_info.
    destruct (Log.log_at _ _ _ _ w) as [res w']. cbn [fst snd] in *.
    by rewrite Hw.
Qed.

(** X20. No method takes a day out of the registry or gives it another
    resource: a day that is registered stays registered, with the same
    resource, through every sequence of calls. *)
Theorem registrations_are_permanent cs s today r :
  dict_get (BotBase.order_history_files (fst s)) today = Some r ->
  dict_get (BotBase.order_history_files (fst (BotBase.run cs s))) today = Some r.
Proof.
  revert s. induction cs as [|c cs IH]; intros s Hd; cbn [BotBase.run]; [done|].
  apply IH. by apply (do_call_changes c s).
Qed.

(** X21. Only [close_order_history_files] closes: through a sequence of
    calls without it, every resource there is stays exactly as it is, so
    the file of an earlier day stays open when a later day gets its
    own. *)
Theorem only_close_closes cs s r o :
  existsb is_close cs = false ->
  heap (snd s) !! r = Some o ->
  heap (snd (BotBase.run cs s)) !! r = Some o.
Proof.
  revert s. induction cs as [|c cs IH]; intros s Hcs Ho; cbn [BotBase.run]; [done|].
  cbn [existsb] in Hcs. apply orb_false_iff in Hcs as [Hc Hcs].
  apply IH; [done|]. by apply (do_call_changes c s).
Qed.

(** X22. The resource is registered before it is opened: when the file of
    a new day cannot be created, the exception leaves
    [get_or_create_order_history_file] with the resource registered and
    not opened, and the next call for that day returns this resource
    without trying to open it again. *)
Theorem failed_open_stays_registered today self w full_path e :
  day_path self today = Some full_path ->
  dict_get (BotBase.order_history_files self) today = None ->
  create_file full_path = Some e ->
  let r := length (heap w) in
  let s1 := snd (BotBase.get_or_create_order_history_file today (self, w)) in
  fst (BotBase.get_or_create_order_history_file today (self, w)) = inl e
  /\ heap (snd s1) !! r
     = Some {| oh_path := full_path; oh_columns := BotBase.columns self;
               oh_handle := NotOpened |}
  /\ BotBase.get_or_create_order_history_file today s1 = (inr r, s1).
Proof.
  intros Hday Hget Hcreate r s1. subst r s1.
  rewrite get_or_create_eq, Hday, Hget. cbn zeta. rewrite Hcreate. cbn [fst snd].
  split; [done|]. split.
  - cbn [heap set_heap]. by rewrite lookup_app_r, Nat.sub_diag by lia.
  - rewrite get_or_create_eq.
    change (day_path (BotBase.set_order_history_files _ self) today)
      with (day_path self today).
    rewrite Hday. cbn [BotBase.order_history_files BotBase.set_order_history_files].
    by rewrite dict_get_set_eq.
Qed.

Lemma run_without_dir cs s :
  (forall dir, BotBase.order_history_dir (fst s) <> PStr dir) ->
  BotBase.order_history_files (fst (BotBase.run cs s))
  = BotBase.order_history_files (fst s)
  /\ BotBase.order_history_dir (fst (BotBase.run cs s))
     = BotBase.order_history_dir (fst s).
Proof.
  revert s. induction cs as [|c cs IH]; intros s Hdir; cbn [BotBase.run]; [done|].
  destruct (do_call_changes c s) as (_ & Hd & _ & Hf). cbn zeta in *.
  destruct (IH (snd (BotBase.do_call c s))) as [Hf' Hd'].
  { intros dir. rewrite Hd. apply Hdir. }
  by rewrite Hf', Hd', Hf, Hd.
Qed.

(** X23. The order-history directory is the configured [log_dir] taken as
    it is: when that is not a [str] (null, to have no log file, say) the
    path cannot be built, so on a bot constructed from such a
    configuration every [get_or_create_order_history_file] and every
    [write_order_history] raises [TypeError] and changes nothing, and no
    day is ever registered. *)
Theorem order_history_needs_str_log_dir path w0 bot w1 cs today record :
  BotBase.__init__ path w0 = (inr bot, w1) ->
  (forall dir, Log.log_dir (BotBase.log_of bot) <> PStr dir) ->
  let s := BotBase.run cs (bot, w1) in
  BotBase.order_history_files (fst s) = []
  /\ exists e,
       exc_type e = TypeError
       /\ BotBase.get_or_create_order_history_file today s = (inl e, s)
       /\ BotBase.write_order_history today record s = (inl e, s).
Proof.
  intros Hinit Hdir s.
  destruct (bot_init_world _ _ _ _ Hinit) as (d & -> & _).
  destruct (run_without_dir cs (bot_of d, w1)) as [Hfiles Hd]; [exact Hdir|].
  fold s in Hfiles, Hd. split; [exact Hfiles|].
  assert (Hday : day_path (fst s) today = None).
  { unfold day_path. rewrite Hd. cbn [fst bot_of BotBase.order_history_dir].
    destruct (default _ _) as [| | | |dir| |] eqn:Hdef; try done.
    by destruct (Hdir dir). }
  eexists. split; [|split].
  2:{ destruct s as [self w]. rewrite get_or_create_eq. cbn [fst] in Hday.
      by rewrite Hday. }
  - done.
  - unfold BotBase.write_order_history, bind. destruct s as [self w].
    rewrite get_or_create_eq. cbn [fst] in Hday. by rewrite Hday.
Qed.
End FurtherFiles.

Section FurtherWrites.
Context `{Runtime}.

Lemma write_registered today entry self w r o :
  day_path self today = Some (oh_path o) ->
  dict_get (BotBase.order_history_files self) today = Some r ->
  heap w !! r = Some o ->
  append_row (oh_path o) = None ->
  BotBase.write_order_history today entry (self, w)
  = (inr tt, (self, record (EvRow (oh_path o) (row_of (oh_columns o) entry)) w)).
Proof.
  intros Hday Hget Ho Happend. unfold BotBase.write_order_history, bind.
  rewrite get_or_create_eq, Hday, Hget. unfold liftW. cbn [fst snd].
  unfold Logfile.write_row_by_dict, bind, get. by rewrite Ho, Happend.
Qed.

(** X24. Two writes for the same day go to the same file: on a
    constructed bot, after any sequence of calls, when the file can be
    created and appended to, the two writes add one row each, in order,
    under the path of the day, after the creation of the file if the day
    was not registered yet and after nothing else if it was. Each row is
    the record projected on the columns of the resource. *)
Theorem two_writes_one_file path w0 bot w1 cs today full_path entry1 entry2 :
  BotBase.__init__ path w0 = (inr bot, w1) ->
  let s := BotBase.run cs (bot, w1) in
  day_path (fst s) today = Some full_path ->
  create_file full_path = None ->
  append_row full_path = None ->
  let s2 := BotBase.run [BotBase.CallWrite today entry1;
                         BotBase.CallWrite today entry2] s in
  exists r o,
    dict_get (BotBase.order_history_files (fst s2)) today = Some r
    /\ heap (snd s2) !! r = Some o
    /\ oh_path o = full_path
    /\ events_since (snd s) (snd s2)
       = ((if dict_contains (BotBase.order_history_files (fst s)) today then []
           else [EvFileCreated full_path (oh_columns o)])
          ++ [EvRow full_path (row_of (oh_columns o) entry1);
              EvRow full_path (row_of (oh_columns o) entry2)])%list.
Proof.
  intros Hinit s Hday Hcreate Happend s2.
  pose proof (bot_init_ok _ _ _ _ Hinit) as Hok0.
  pose proof (run_keeps _ cs _ Hok0) as (Hok & _). fold s in Hok.
  subst s2. destruct s as [self w]. cbn [fst snd] in *.
  cbn [BotBase.run BotBase.do_call]. unfold dict_contains.
  destruct (dict_get (BotBase.order_history_files self) today) as [r|] eqn:Hget.
  - destruct (ok_path _ _ Hok today r Hget) as (_ & o & Ho & Hp).
    cbn [fst snd] in *. rewrite Hday in Hp. injection Hp as ->.
    rewrite (write_registered today entry1 self w r o) by (by rewrite ?Hday).
    cbn [snd].
    rewrite (write_registered today entry2 self _ r o) by (by rewrite ?Hday).
    cbn [fst snd]. exists r, o. split; [done|]. split; [done|]. split; [done|].
    apply events_since_app. cbn [trace record]. by rewrite <- app_assoc.
  - set (o := Logfile.set_handle Opened (fresh_resource self full_path)).
    set (self' := BotBase.set_order_history_files (dict_set today (length (heap w))) self).
    set (w' := record (EvFileCreated full_path (BotBase.columns self))
                 (set_heap (fun h => <[length (heap w) := o]> h)
                    (set_heap (fun h => (h ++ [fresh_resource self full_path])%list) w))).
    assert (Hfirst : BotBase.get_or_create_order_history_file today (self, w)
                     = (inr (length (heap w)), (self', w'))).
    { rewrite get_or_create_eq, Hday, Hget. cbn zeta. by rewrite Hcreate. }
    assert (Ho : heap w' !! length (heap w) = Some o).
    { subst w'. cbn [heap record set_heap].
      apply list_lookup_insert_eq. rewrite length_app. cbn. lia. }
    assert (Hget' : dict_get (BotBase.order_history_files self') today
                    = Some (length (heap w))).
    { subst self'. cbn. apply dict_get_set_eq. }
    assert (Hday' : day_path self' today = Some (oh_path o)) by exact Hday.
    assert (Hw1 : BotBase.write_order_history today entry1 (self, w)
                  = (inr tt,
                     (self', record (EvRow full_path (row_of (oh_columns o) entry1)) w'))).
    { unfold BotBase.write_order_history, bind. rewrite Hfirst.
      unfold liftW. cbn [fst snd].
      unfold Logfile.write_row_by_dict, bind, get. rewrite Ho.
      change (oh_path o) with full_path. by rewrite Happend. }
    rewrite Hw1. cbn [snd].
    rewrite (write_registered today entry2 self' _ (length (heap w)) o)
      by (by rewrite ?Happend).
    cbn [fst snd]. exists (length (heap w)), o.
    split; [done|]. split; [done|]. split; [done|].
    apply events_since_app. subst w'. cbn [trace record set_heap].
    by rewrite <- !app_assoc.
Qed.

Lemma close_closed r w o :
  heap w !! r = Some o -> oh_handle o <> Opened -> Logfile.close r w = (inr tt, w).
Proof.
  intros Ho Hh. unfold Logfile.close, bind, get. rewrite Ho.
  by destruct (oh_handle o).
Qed.

Lemma close_each_closed rs (self : BotBase.t) w :
  (forall r, r ∈ rs -> exists o, heap w !! r = Some o /\ oh_handle o <> Opened) ->
  for_each rs (fun r => liftW (Logfile.close r)) (self, w) = (inr tt, (self, w)).
Proof.
  induction rs as [|r rs IH]; intros Hrs; [done|].
  destruct (Hrs r) as (o & Ho & Hh); [left|].
  cbn [for_each]. unfold bind at 1, liftW at 1. cbn [fst snd].
  rewrite (close_closed r w o) by done. apply IH.
  intros r' Hr'. apply Hrs. by right.
Qed.

(** X25. After [close_order_history_files], on a constructed bot and after
    any sequence of calls, no registered resource is open, and closing
    again returns and changes nothing at all: it raises nothing, reopens
    nothing and adds no event. *)
Theorem closing_twice_is_closing_once path w0 bot w1 cs :
  BotBase.__init__ path w0 = (inr bot, w1) ->
  let s1 := snd (BotBase.close_order_history_files (BotBase.run cs (bot, w1))) in
  (forall today r,
     dict_get (BotBase.order_history_files (fst s1)) today = Some r ->
     exists o, heap (snd s1) !! r = Some o /\ oh_handle o <> Opened)
  /\ BotBase.close_order_history_files s1 = (inr tt, s1).
Proof.
  intros Hinit s1.
  pose proof (bot_init_ok _ _ _ _ Hinit) as Hok0.
  pose proof (run_keeps _ cs _ Hok0) as (Hok & _).
  destruct (close_files_ok _ _ Hok) as (w' & Hclose & _ & Hlook).
  pose proof (close_files_keeps _ _ Hok) as (Hok1 & _).
  subst s1. rewrite Hclose in *. cbn [fst snd] in *.
  set (self := fst (BotBase.run cs (bot, w1))) in *.
  assert (Hclosed : forall today r,
    dict_get (BotBase.order_history_files self) today = Some r ->
    exists o, heap w' !! r = Some o /\ oh_handle o <> Opened).
  { intros today r Hd. rewrite (Hlook _ _ Hd).
    destruct (ok_path _ _ Hok today r Hd) as (_ & o & Ho & _). rewrite Ho.
    exists (closed o). split; [done|apply closed_not_open]. }
  split; [exact Hclosed|].
  unfold BotBase.close_order_history_files, bind, get_self. cbn [fst snd].
  apply close_each_closed.
  intros r [d Hd]%dict_values_elem.
  apply dict_elem_get in Hd; [|apply (ok_keys _ _ Hok1)]. eauto.
Qed.
End FurtherWrites.

(* ================================================================== *)
(** * The further properties on examples *)

(** A directory and a file that may not be read. *)
Lemma load_unreadable_is_silent_witness :
  let rt := odd_paths_runtime in
  @fs rt "conf.d" = Directory
  /\ @fs rt "secret.json" = Forbidden
  /\ (exists e,
        Log.__init__ (H := rt) "conf.d" fresh_world = (inl e, fresh_world)
        /\ exc_type e = IsADirectoryError)
  /\ (exists e,
        Log.__init__ (H := rt) "secret.json" fresh_world = (inl e, fresh_world)
        /\ exc_type e = PermissionError).
Proof.
  intros rt.
  destruct (load_unreadable_is_silent (H := rt) "conf.d" fresh_world) as [Hdir _].
  destruct (load_unreadable_is_silent (H := rt) "secret.json" fresh_world)
    as [_ Hperm].
  split; [reflexivity|]. split; [reflexivity|].
  split; [apply Hdir; reflexivity|apply Hperm; reflexivity].
Defined.

(** A [Log] of the empty configuration, before any logger. *)
Lemma log_methods_need_a_logger_witness :
  let rt := example_runtime (Some empty_config) None in
  Log.__init__ (H := rt) "config.json" fresh_world
  = (inr (log_of_config ∅), fresh_world)
  /\ exists e,
       Log.log_warning (log_of_config ∅) (MsgStr "hello") fresh_world
       = (inl e, fresh_world)
       /\ exc_type e = AttributeError.
Proof.
  intros rt.
  assert (Hinit : Log.__init__ (H := rt) "config.json" fresh_world
                  = (inr (log_of_config ∅), fresh_world))
    by (vm_compute; reflexivity).
  split; [exact Hinit|].
  pose proof (log_methods_need_a_logger (H := rt) _ _ _ _ (MsgStr "hello")
                fresh_world Hinit) as Hall.
  apply (proj1 (Forall_forall _ _) Hall (30, Log.log_warning)).
  unfold log_methods. set_solver.
Defined.

(** The five records on the example notifier. *)
Lemma log_methods_record_witness :
  let rt := example_runtime (Some example_config) None in
  let w := example_world rt in
  Notify.__init__ (H := rt) "config.json" fresh_world = (inr example_notifier, w)
  /\ Log.log_debug (Notify.base example_notifier) (MsgStr "hello") w
     = (inr tt, record (EvLog (NamedLogger "Acme_Trader") 10 (MsgStr "hello")) w).
Proof.
  intros rt w.
  assert (Hinit : Notify.__init__ (H := rt) "config.json" fresh_world
                  = (inr example_notifier, w)) by (vm_compute; reflexivity).
  split; [exact Hinit|].
  pose proof (log_methods_record (H := rt) _ _ _ _ (MsgStr "hello") w Hinit) as Hall.
  apply (proj1 (Forall_forall _ _) Hall (10, Log.log_debug)).
  unfold log_methods. set_solver.
Defined.

(** Under a root logger that has a handler, the level is set all the
    same. *)
Lemma initialize_sets_level_witness :
  let rt := example_runtime (Some empty_config) None in
  Log.logger (log_of_config ∅) = None
  /\ Logging._checkLevel (Log.log_level (log_of_config ∅)) = inr 10
  /\ level_of (snd (snd (Log._initialize_logger (H := rt)
                           (log_of_config ∅, root_configured_world))))
              (NamedLogger "Exchange_Bot")
     = Some 10.
Proof.
  intros rt. split; [reflexivity|]. split; [reflexivity|].
  exact (initialize_sets_level (H := rt) (log_of_config ∅) root_configured_world 10
           eq_refl eq_refl).
Defined.

(** The level [VERBOSE]. *)
Lemma unknown_level_fails_construction_witness :
  let rt := example_runtime (Some (PDict verbose_dict)) None in
  @fs rt "config.json" = Regular "configuration"
  /\ @json_loads rt "configuration" = Some (PDict verbose_dict)
  /\ verbose_dict !! "log_level" = Some (PStr "VERBOSE")
  /\ Logging.assoc "VERBOSE" Logging._nameToLevel = None
  /\ exists e w',
       Notify.__init__ (H := rt) "config.json" fresh_world = (inl e, w')
       /\ BotBase.__init__ (H := rt) "config.json" fresh_world = (inl e, w')
       /\ exc_type e = ValueError
       /\ trace w' = trace fresh_world.
Proof.
  intros rt. split; [reflexivity|]. split; [reflexivity|].
  split; [reflexivity|]. split; [reflexivity|].
  destruct (unknown_level_fails_construction (H := rt) "config.json" fresh_world
              "configuration" verbose_dict "VERBOSE" eq_refl eq_refl eq_refl eq_refl)
    as (e & w' & Hn & Hb & He & _ & Htr).
  exists e, w'. split; [exact Hn|]. split; [exact Hb|]. split; [exact He|exact Htr].
Defined.

(** The empty configuration in a fresh world: both sinks, and the
    directory [log] is created. *)
Lemma initialize_attaches_sinks_witness :
  let rt := example_runtime (Some empty_config) None in
  let r := Log._initialize_logger (H := rt) (log_of_config ∅, fresh_world) in
  reaches_handlers fresh_world (NamedLogger "Exchange_Bot") = false
  /\ fst r = inr tt
  /\ handlers_of (snd (snd r)) (NamedLogger "Exchange_Bot")
     = [StreamHandler "[%(levelname)s] %(asctime)s : %(message)s"
          "%Y-%m-%d %H:%M:%S" 10;
        RotatingFileHandler "log/Exchange_Bot.log" 2097152 3
          "[%(levelname)s] %(asctime)s %(module)s: %(message)s"
          "%Y-%m-%d %H:%M:%S" 10]
  /\ events_since fresh_world (snd (snd r)) = [EvMkdir "log"].
Proof.
  intros rt r. split; [reflexivity|].
  assert (Hne : "log" <> EmptyString) by discriminate.
  exact (initialize_attaches_sinks (H := rt) (log_of_config ∅) fresh_world 10 "log"
           eq_refl eq_refl eq_refl eq_refl Hne (fun _ => eq_refl) eq_refl).
Defined.

(** A disk that refuses to create the directory. *)
Lemma initialize_directory_failure_witness :
  let rt := read_only_runtime (Some empty_config) in
  let r := Log._initialize_logger (H := rt) (log_of_config ∅, fresh_world) in
  @os_path_exists rt "log" = false
  /\ @os_mkdir rt "log" = Some denied
  /\ fst r = inl denied
  /\ handlers_of (snd (snd r)) (NamedLogger "Exchange_Bot")
     = [StreamHandler "[%(levelname)s] %(asctime)s : %(message)s"
          "%Y-%m-%d %H:%M:%S" 10]
  /\ Log._initialize_logger (H := rt) (snd r) = (inr tt, snd r).
Proof.
  intros rt r. split; [reflexivity|]. split; [reflexivity|].
  assert (Hne : "log" <> EmptyString) by discriminate.
  exact (initialize_directory_failure (H := rt) (log_of_config ∅) fresh_world 10
           "log" denied eq_refl eq_refl eq_refl eq_refl Hne
           (or_introl (conj eq_refl eq_refl))).
Defined.

(** A configuration whose [log_dir] is null. *)
Lemma initialize_without_log_dir_witness :
  let rt := example_runtime (Some (PDict no_dir_dict)) None in
  let r := Log._initialize_logger (H := rt) (log_of_config no_dir_dict, fresh_world) in
  truthy (Log.log_dir (log_of_config no_dir_dict)) = false
  /\ fst r = inr tt
  /\ handlers_of (snd (snd r)) (NamedLogger "Exchange_Bot")
     = [StreamHandler "[%(levelname)s] %(asctime)s : %(message)s"
          "%Y-%m-%d %H:%M:%S" 10]
  /\ events_since fresh_world (snd (snd r)) = [].
Proof.
  intros rt r. split; [reflexivity|].
  exact (initialize_without_log_dir (H := rt) (log_of_config no_dir_dict)
           fresh_world 10 eq_refl eq_refl eq_refl eq_refl).
Defined.

(** Two notifiers from the example configuration. *)
Lemma second_instance_attaches_nothing_witness :
  let rt := example_runtime (Some example_config) None in
  let w1 := example_world rt in
  let w2 := snd (Notify.__init__ (H := rt) "config.json" w1) in
  Notify.__init__ (H := rt) "config.json" fresh_world = (inr example_notifier, w1)
  /\ Notify.__init__ (H := rt) "config.json" w1 = (inr example_notifier, w2)
  /\ handlers_of w2 (NamedLogger "Acme_Trader")
     = handlers_of w1 (NamedLogger "Acme_Trader")
  /\ events_since w1 w2 = [].
Proof.
  intros rt w1 w2.
  assert (H1 : Notify.__init__ (H := rt) "config.json" fresh_world
               = (inr example_notifier, w1)) by (vm_compute; reflexivity).
  assert (H2 : Notify.__init__ (H := rt) "config.json" w1
               = (inr example_notifier, w2)) by (vm_compute; reflexivity).
  split; [exact H1|]. split; [exact H2|].
  exact (second_instance_attaches_nothing (H := rt) _ _ _ _ _ _ _ H1 H2 eq_refl).
Defined.

(** A LINE message with the chart attached. *)
Lemma lineNotify_payload_witness :
  let rt := example_runtime (Some (PDict line_dict)) None in
  Notify.line_notify_token (notifier_of line_dict) = Some (PStr "secret")
  /\ @fs rt "chart.png" = Regular "PNG"
  /\ posts (events_since fresh_world
              (snd (Notify.lineNotify (H := rt) (notifier_of line_dict) "hello"
                      (Some "chart.png") fresh_world)))
     = [{| url := PStr "https://notify-api.line.me/api/notify";
           data := [("message", "hello")];
           headers := [("Authorization", "Bearer secret")];
           files := [("imageFile", "PNG")] |}].
Proof.
  intros rt. split; [reflexivity|]. split; [reflexivity|].
  destruct (lineNotify_payload (H := rt) (notifier_of line_dict) "secret" "hello"
              (Some "chart.png") fresh_world eq_refl) as [_ Hattached].
  exact (Hattached "chart.png" "PNG" eq_refl eq_refl).
Defined.

(** A message alone is logged, a message with the chart is not. *)
Lemma success_is_logged_without_attachment_witness :
  let rt := example_runtime (Some example_config) None in
  let w := example_world rt in
  let lg := NamedLogger "Acme_Trader" in
  Notify.__init__ (H := rt) "config.json" fresh_world = (inr example_notifier, w)
  /\ Notify.discordNotify (H := rt) example_notifier "hello" None w
     = (inr tt,
        record (EvLog lg 20 (MsgStr "hello"))
          (record (EvPost (discord_request (PStr "https://discord/x") "hello" [])) w))
  /\ Notify.discordNotify (H := rt) example_notifier "hello" (Some "chart.png") w
     = (inr tt,
        record (EvPost (discord_request (PStr "https://discord/x") "hello"
                          [("imageFile", "PNG")])) w).
Proof.
  intros rt w lg.
  assert (Hinit : Notify.__init__ (H := rt) "config.json" fresh_world
                  = (inr example_notifier, w)) by (vm_compute; reflexivity).
  split; [exact Hinit|].
  destruct (success_is_logged_without_attachment (H := rt) _ _ _ _ "hello" None []
              w Hinit eq_refl) as [Halone _].
  destruct (success_is_logged_without_attachment (H := rt) _ _ _ _ "hello"
              (Some "chart.png") [("imageFile", "PNG")] w Hinit eq_refl)
    as [Hchart _].
  split; [exact (Halone eq_refl)|exact (Hchart eq_refl)].
Defined.

(** An attachment that does not exist. *)
Lemma unreadable_attachment_sends_nothing_witness :
  let rt := example_runtime (Some example_config) None in
  let w := example_world rt in
  Notify.__init__ (H := rt) "config.json" fresh_world = (inr example_notifier, w)
  /\ @fs rt "missing.png" = Absent
  /\ exists e,
       Notify.discordNotify (H := rt) example_notifier "hello" (Some "missing.png") w
       = (inl e, record (EvLog (NamedLogger "Acme_Trader") 40 (MsgExc e)) w)
       /\ isinstance e OSError = true.
Proof.
  intros rt w.
  assert (Hinit : Notify.__init__ (H := rt) "config.json" fresh_world
                  = (inr example_notifier, w)) by (vm_compute; reflexivity).
  split; [exact Hinit|]. split; [reflexivity|].
  assert (Hno : forall bytes, @fs rt "missing.png" <> Regular bytes)
    by (intros bytes; discriminate).
  exact (proj1 (unreadable_attachment_sends_nothing (H := rt) _ _ _ _ "hello"
                  "missing.png" w Hinit Hno)).
Defined.

(** A request interrupted from the keyboard. *)
Lemma interrupt_is_not_logged_witness :
  let rt := example_runtime (Some example_config) (Some interrupted) in
  let req := discord_request (PStr "https://discord/x") "hello" [] in
  isinstance interrupted Exception = false
  /\ @requests_post rt req = Some interrupted
  /\ Notify.discordNotify (H := rt) example_notifier "hello" None fresh_world
     = (inl interrupted, record (EvPost req) fresh_world).
Proof.
  intros rt req. split; [reflexivity|]. split; [reflexivity|].
  exact (proj1 (interrupt_is_not_logged (H := rt) example_notifier "hello" None []
                  interrupted fresh_world eq_refl eq_refl) eq_refl).
Defined.

(** A token written as a number in the configuration. *)
Lemma non_str_token_raises_witness :
  let rt := example_runtime (Some (PDict numeric_token_dict)) None in
  Notify.discordWebhook (notifier_of numeric_token_dict) = PNone
  /\ Notify.line_notify_token (notifier_of numeric_token_dict) = Some (PInt 12345)
  /\ exists e,
       Notify.statusNotify (H := rt) (notifier_of numeric_token_dict) "hello" None
         fresh_world = (inl e, fresh_world)
       /\ exc_type e = TypeError.
Proof.
  intros rt. split; [reflexivity|]. split; [reflexivity|].
  apply (non_str_token_raises (H := rt) (notifier_of numeric_token_dict)
           (PInt 12345) "hello" None fresh_world eq_refl eq_refl).
  intros s. discriminate.
Defined.

(** The example bot. *)
Lemma bot_construction_witness :
  let rt := example_runtime (Some example_config) None in
  let w := example_world rt in
  BotBase.__init__ (H := rt) "config.json" fresh_world = (inr example_bot, w)
  /\ Notify.__init__ (H := rt) "config.json" fresh_world
     = (inr (BotBase.base example_bot), w)
  /\ BotBase.order_history_file_name_base example_bot
     = Log.logger_name (BotBase.log_of example_bot) +:+ "_order_history".
Proof.
  intros rt w.
  assert (Hinit : BotBase.__init__ (H := rt) "config.json" fresh_world
                  = (inr example_bot, w)) by (vm_compute; reflexivity).
  split; [exact Hinit|].
  destruct (bot_construction (H := rt) _ _ _ _ Hinit)
    as (Hn & _ & _ & _ & _ & Hbase).
  split; [exact Hn|exact Hbase].
Defined.

(** A subclass whose logic is to stop at once. *)
Lemma start_logs_after_the_logic_witness :
  let rt := example_runtime (Some example_config) None in
  let s := (example_bot, example_world rt) in
  let s' := snd (BotBase.stop s) in
  BotBase.stop s = (inr tt, s')
  /\ start_of (BotBase.stop) s
     = (inr tt,
        (fst s', record (EvLog (NamedLogger "Acme_Trader") 20 (MsgStr "Bot started."))
                   (snd s'))).
Proof.
  intros rt s s'.
  assert (Hstop : BotBase.stop s = (inr tt, s'))
    by (vm_compute; reflexivity).
  split; [exact Hstop|].
  destruct (start_logs_after_the_logic (BotBase.stop) s)
    as (_ & Hreturns & _).
  exact (Hreturns s' (NamedLogger "Acme_Trader") Hstop eq_refl).
Defined.

(** Stopping after a write. *)
Lemma stop_only_flags_witness :
  let rt := example_runtime (Some example_config) None in
  let w := example_world rt in
  let s := BotBase.run (H := rt) [BotBase.CallWrite "230101" ∅] (example_bot, w) in
  BotBase.__init__ (H := rt) "config.json" fresh_world = (inr example_bot, w)
  /\ BotBase.stop s
     = (inr tt,
        (BotBase.set_stop_flag true (fst s),
         record (EvLog (NamedLogger "Acme_Trader") 20
                   (MsgStr "Logic threads has been stopped.")) (snd s))).
Proof.
  intros rt w s.
  assert (Hinit : BotBase.__init__ (H := rt) "config.json" fresh_world
                  = (inr example_bot, w)) by (vm_compute; reflexivity).
  split; [exact Hinit|].
  exact (stop_only_flags (H := rt) _ _ _ _ [BotBase.CallWrite "230101" ∅] Hinit).
Defined.

(** The day of a first write, through closing and a write on the next
    day. *)
Lemma registrations_are_permanent_witness :
  let rt := example_runtime (Some example_config) None in
  let s := BotBase.run (H := rt) [BotBase.CallWrite "230101" ∅]
             (example_bot, example_world rt) in
  let cs := [BotBase.CallClose; BotBase.CallWrite "230102" ∅] in
  dict_get (BotBase.order_history_files (fst s)) "230101" = Some 0%nat
  /\ dict_get (BotBase.order_history_files (fst (BotBase.run (H := rt) cs s)))
       "230101" = Some 0%nat.
Proof.
  intros rt s cs.
  assert (Hreg : dict_get (BotBase.order_history_files (fst s)) "230101" = Some 0%nat)
    by (vm_compute; reflexivity).
  split; [exact Hreg|].
  exact (registrations_are_permanent (H := rt) cs s "230101" 0%nat Hreg).
Defined.

(** The file of the first day stays open when the next day gets its
    own. *)
Lemma only_close_closes_witness :
  let rt := example_runtime (Some example_config) None in
  let s := BotBase.run (H := rt) [BotBase.CallWrite "230101" ∅]
             (example_bot, example_world rt) in
  let cs := [BotBase.CallWrite "230102" ∅; BotBase.CallStop] in
  let o := {| oh_path := "log/Acme_Trader_order_history_230101.csv";
              oh_columns := []; oh_handle := Opened |} in
  existsb is_close cs = false
  /\ heap (snd s) !! 0%nat = Some o
  /\ heap (snd (BotBase.run (H := rt) cs s)) !! 0%nat = Some o.
Proof.
  intros rt s cs o.
  assert (Hopen : heap (snd s) !! 0%nat = Some o) by (vm_compute; reflexivity).
  split; [reflexivity|]. split; [exact Hopen|].
  exact (only_close_closes (H := rt) cs s 0%nat o eq_refl Hopen).
Defined.

(** A disk that refuses to create the file of the day. *)
Lemma failed_open_stays_registered_witness :
  let rt := read_only_runtime (Some example_config) in
  let full_path := "log/Acme_Trader_order_history_230101.csv" in
  let r := BotBase.get_or_create_order_history_file (H := rt) "230101"
             (example_bot, fresh_world) in
  day_path example_bot "230101" = Some full_path
  /\ @create_file rt full_path = Some denied
  /\ fst r = inl denied
  /\ heap (snd (snd r)) !! 0%nat
     = Some {| oh_path := full_path; oh_columns := []; oh_handle := NotOpened |}
  /\ BotBase.get_or_create_order_history_file (H := rt) "230101" (snd r)
     = (inr 0%nat, snd r).
Proof.
  intros rt full_path r. split; [reflexivity|]. split; [reflexivity|].
  exact (failed_open_stays_registered (H := rt) "230101" example_bot fresh_world
           full_path denied eq_refl eq_refl eq_refl).
Defined.

(** A bot whose configuration has [log_dir] null. *)
Lemma order_history_needs_str_log_dir_witness :
  let rt := example_runtime (Some (PDict no_dir_dict)) None in
  let w := snd (BotBase.__init__ (H := rt) "config.json" fresh_world) in
  BotBase.__init__ (H := rt) "config.json" fresh_world
  = (inr (bot_of no_dir_dict), w)
  /\ Log.log_dir (BotBase.log_of (bot_of no_dir_dict)) = PNone
  /\ exists e,
       exc_type e = TypeError
       /\ BotBase.write_order_history (H := rt) "230101" ∅
            (bot_of no_dir_dict, w)
          = (inl e, (bot_of no_dir_dict, w)).
Proof.
  intros rt w.
  assert (Hinit : BotBase.__init__ (H := rt) "config.json" fresh_world
                  = (inr (bot_of no_dir_dict), w))
    by (vm_compute; reflexivity).
  split; [exact Hinit|]. split; [reflexivity|].
  assert (Hdir : forall dir,
            Log.log_dir (BotBase.log_of (bot_of no_dir_dict)) <> PStr dir)
    by (intros dir; discriminate).
  destruct (order_history_needs_str_log_dir (H := rt) _ _ _ _ [] "230101" ∅
              Hinit Hdir) as (_ & e & He & _ & Hwrite).
  exists e. split; [exact He|exact Hwrite].
Defined.

(** Two writes on 15 June 2023. *)
Lemma two_writes_one_file_witness :
  let rt := example_runtime (Some example_config) None in
  let w := example_world rt in
  let full_path := "log/Acme_Trader_order_history_230615.csv" in
  let s2 := BotBase.run (H := rt)
              [BotBase.CallWrite "230615" ∅; BotBase.CallWrite "230615" ∅]
              (example_bot, w) in
  BotBase.__init__ (H := rt) "config.json" fresh_world = (inr example_bot, w)
  /\ day_path example_bot "230615" = Some full_path
  /\ exists r o,
       dict_get (BotBase.order_history_files (fst s2)) "230615" = Some r
       /\ heap (snd s2) !! r = Some o
       /\ oh_path o = full_path
       /\ events_since w (snd s2)
          = [EvFileCreated full_path (oh_columns o);
             EvRow full_path (row_of (oh_columns o) ∅);
             EvRow full_path (row_of (oh_columns o) ∅)].
Proof.
  intros rt w full_path s2.
  assert (Hinit : BotBase.__init__ (H := rt) "config.json" fresh_world
                  = (inr example_bot, w)) by (vm_compute; reflexivity).
  split; [exact Hinit|]. split; [reflexivity|].
  exact (two_writes_one_file (H := rt) _ _ _ _ [] "230615" full_path ∅ ∅ Hinit
           eq_refl eq_refl eq_refl).
Defined.

(** Closing twice after a write. *)
Lemma closing_twice_is_closing_once_witness :
  let rt := example_runtime (Some example_config) None in
  let w := example_world rt in
  let s1 := snd (BotBase.close_order_history_files
                   (BotBase.run (H := rt) [BotBase.CallWrite "230101" ∅]
                      (example_bot, w))) in
  BotBase.__init__ (H := rt) "config.json" fresh_world = (inr example_bot, w)
  /\ BotBase.close_order_history_files s1 = (inr tt, s1).
Proof.
  intros rt w s1.
  assert (Hinit : BotBase.__init__ (H := rt) "config.json" fresh_world
                  = (inr example_bot, w)) by (vm_compute; reflexivity).
  split; [exact Hinit|].
  exact (proj2 (closing_twice_is_closing_once (H := rt) _ _ _ _
                  [BotBase.CallWrite "230101" ∅] Hinit)).
Defined.
